(** * Job-application pipeline: submission, parser gateway, webhook notifier

    A shallow embedding of the server side of the repository:

    - [lib/models/Application]   the persisted record and its schema defaults,
    - [lib/s3]                   [isPythonServiceAvailable],
                                 [sendUrlToPythonService], [uploadFile],
    - [lib/webhook]              [sendWebhookNotification], [retryWebhook],
    - [api/applications]         the submission endpoint [POST],
    - [api/applications/resend-webhook/[id]]  the resend endpoint [POST],
    - [components/ApplicationForm]  the submit handler [onSubmit].

    JavaScript values are an inductive type [JsValue]; [async] functions are
    computations in a state-and-exception monad over a [World] (the trace of
    effects performed so far and the document store).  Whatever the outside
    world answers (HTTP endpoints, object storage, the store driver, the wall
    clock) is an [Env] of oracles that see the whole history, so a theorem
    quantified over [Env] covers every behaviour of the collaborators.

    What the embedding leaves out:
    - numbers are integers and strings are byte strings; white space and
      letter case are those of ASCII, other bytes are left as they are;
    - of the schema, the setters of [name], [email] and [phone] and the
      defaults are modelled; the validators and the casting of the items of
      the array paths are not, [save_answer] only decides whether a save is
      accepted;
    - the listing endpoint [GET], the validation schema of the form and its
      rendering are not modelled. *)

From Stdlib Require Import ZArith List Bool Lia DecimalString.
From stdpp Require Import gmap strings.

Local Open Scope Z_scope.

(* ===================================================================== *)
(** ** JavaScript values *)
(* ===================================================================== *)

(** Numbers are restricted to integers: the functions modelled here compare
    and print counters, delays, sizes and status codes only.
    [JError] is an [Error] instance: its [name], its [message] and the
    enumerable properties libraries attach to it ([code], [response]). *)
#[warnings="-register-all"]
Inductive JsValue : Type :=
| JUndefined
| JNull
| JBool (b : bool)
| JNumber (n : Z)
| JString (s : string)
| JArray (items : list JsValue)
| JObject (props : list (string * JsValue))
| JError (name message : string) (props : list (string * JsValue)).

(** ToBoolean: the falsy values are undefined, null, false, 0 and "". *)
Definition truthy (v : JsValue) : bool :=
  match v with
  | JUndefined | JNull => false
  | JBool b => b
  | JNumber n => negb (n =? 0)
  | JString s => negb (String.eqb s "")
  | JArray _ | JObject _ | JError _ _ _ => true
  end.

Definition is_nullish (v : JsValue) : bool :=
  match v with JUndefined | JNull => true | _ => false end.

(** [a || b] *)
Definition js_or (a b : JsValue) : JsValue := if truthy a then a else b.

(** [v === s] for a string literal [s] *)
Definition is_the_string (v : JsValue) (s : string) : bool :=
  match v with JString s' => String.eqb s' s | _ => false end.

(** Own-property lookup in a property list. *)
Fixpoint assoc (k : string) (ps : list (string * JsValue)) : option JsValue :=
  match ps with
  | [] => None
  | (k', v) :: ps' => if String.eqb k k' then Some v else assoc k ps'
  end.

(** [k in obj] for the keys this program uses (none is inherited). *)
Definition has_key (k : string) (v : JsValue) : bool :=
  match v with
  | JObject ps => match assoc k ps with Some _ => true | None => false end
  | JError _ _ ps =>
      String.eqb k "name" || String.eqb k "message" ||
      match assoc k ps with Some _ => true | None => false end
  | _ => false
  end.

(** [obj[k] = v] on a property list: an existing key keeps its place. *)
Fixpoint assoc_set (k : string) (v : JsValue) (ps : list (string * JsValue))
  : list (string * JsValue) :=
  match ps with
  | [] => [(k, v)]
  | (k', v') :: ps' =>
      if String.eqb k k' then (k, v) :: ps' else (k', v') :: assoc_set k v ps'
  end.

(** Decimal rendering of an integer, as [String(n)] gives it below 10^21. *)
Definition string_of_Z (n : Z) : string := NilZero.string_of_int (Z.to_int n).

Fixpoint join (sep : string) (l : list string) : string :=
  match l with
  | [] => ""
  | [s] => s
  | s :: l' => s +:+ sep +:+ join sep l'
  end.

(** ToString, as a template literal applies it.  [Error.prototype.toString]
    gives "name: message", or whichever of the two is not empty. *)
Fixpoint to_string (v : JsValue) : string :=
  match v with
  | JUndefined => "undefined"
  | JNull => "null"
  | JBool true => "true"
  | JBool false => "false"
  | JNumber n => string_of_Z n
  | JString s => s
  | JArray items =>
      join "," (map (fun x => if is_nullish x then "" else to_string x) items)
  | JObject _ => "[object Object]"
  | JError name message _ =>
      if String.eqb name "" then message
      else if String.eqb message "" then name
      else name +:+ ": " +:+ message
  end.

(** The indexed own properties of an array: "0", "1", ... *)
Fixpoint indexed (i : Z) (items : list JsValue) : list (string * JsValue) :=
  match items with
  | [] => []
  | x :: items' => (string_of_Z i, x) :: indexed (i + 1) items'
  end.

Fixpoint chars (s : string) : list JsValue :=
  match s with
  | EmptyString => []
  | String c s' => JString (String c EmptyString) :: chars s'
  end.

(** The own enumerable properties copied by an object spread [{...v}]. *)
Definition spread (v : JsValue) : list (string * JsValue) :=
  match v with
  | JObject ps => ps
  | JArray items => indexed 0 items
  | JString s => indexed 0 (chars s)
  | JError _ _ ps => ps
  | _ => []
  end.

(** [s.startsWith(t)] *)
Fixpoint startsWith (s t : string) {struct t} : bool :=
  match t, s with
  | EmptyString, _ => true
  | String _ _, EmptyString => false
  | String b t', String a s' => Ascii.eqb a b && startsWith s' t'
  end.

(** [s.includes(t)] *)
Fixpoint includes (s t : string) : bool :=
  startsWith s t ||
  match s with
  | EmptyString => false
  | String _ s' => includes s' t
  end.

(** The white space and line terminators of ASCII: tab, line feed, vertical
    tab, form feed, carriage return and space. *)
Definition is_white_space (c : Ascii.ascii) : bool :=
  let n := Ascii.nat_of_ascii c in
  ((9 <=? n) && (n <=? 13) || (n =? 32))%nat.

Fixpoint trimStart (s : string) : string :=
  match s with
  | EmptyString => EmptyString
  | String c s' => if is_white_space c then trimStart s' else s
  end.

Fixpoint trimEnd (s : string) : string :=
  match s with
  | EmptyString => EmptyString
  | String c s' =>
      match trimEnd s' with
      | EmptyString => if is_white_space c then EmptyString else String c EmptyString
      | rest => String c rest
      end
  end.

(** [s.trim()] *)
Definition trim (s : string) : string := trimEnd (trimStart s).

Definition lower_case (c : Ascii.ascii) : Ascii.ascii :=
  let n := Ascii.nat_of_ascii c in
  if ((65 <=? n) && (n <=? 90))%nat then Ascii.ascii_of_nat (n + 32) else c.

(** [s.toLowerCase()] *)
Fixpoint toLowerCase (s : string) : string :=
  match s with
  | EmptyString => EmptyString
  | String c s' => String (lower_case c) (toLowerCase s')
  end.

(* ===================================================================== *)
(** ** [JSON.stringify] and [Date.prototype.toISOString] *)
(* ===================================================================== *)

Definition hex_digit (n : Z) : string :=
  String.substring (Z.to_nat n) 1 "0123456789abcdef".

Definition dquote : string := String (Ascii.ascii_of_nat 34) EmptyString.
Definition backslash : string := String (Ascii.ascii_of_nat 92) EmptyString.

(** QuoteJSONString on one code unit: the quote, the backslash and the
    control characters are escaped, everything else is copied. *)
Definition escape_char (c : Ascii.ascii) : string :=
  let n := Z.of_nat (Ascii.nat_of_ascii c) in
  if n =? 34 then backslash +:+ dquote
  else if n =? 92 then backslash +:+ backslash
  else if n =? 8 then backslash +:+ "b"
  else if n =? 9 then backslash +:+ "t"
  else if n =? 10 then backslash +:+ "n"
  else if n =? 12 then backslash +:+ "f"
  else if n =? 13 then backslash +:+ "r"
  else if n <? 32 then backslash +:+ "u00" +:+ hex_digit (n / 16) +:+ hex_digit (n mod 16)
  else String c EmptyString.

Fixpoint escape (s : string) : string :=
  match s with
  | EmptyString => ""
  | String c s' => escape_char c +:+ escape s'
  end.

Definition quote (s : string) : string := dquote +:+ escape s +:+ dquote.

(** [JSON.stringify v]: [None] is the [undefined] it returns for [undefined].
    A property whose value is [undefined] is left out, an [undefined] array
    element is written null. *)
Fixpoint JSON_stringify (v : JsValue) : option string :=
  let member (kv : string * JsValue) : list string :=
    match JSON_stringify (snd kv) with
    | Some s => [quote (fst kv) +:+ ":" +:+ s]
    | None => []
    end in
  match v with
  | JUndefined => None
  | JNull => Some "null"
  | JBool true => Some "true"
  | JBool false => Some "false"
  | JNumber n => Some (string_of_Z n)
  | JString s => Some (quote s)
  | JArray items =>
      Some ("[" +:+ join "," (map (fun x => default "null" (JSON_stringify x)) items) +:+ "]")
  | JObject ps => Some ("{" +:+ join "," (concat (map member ps)) +:+ "}")
  | JError _ _ ps => Some ("{" +:+ join "," (concat (map member ps)) +:+ "}")
  end.

(** Decimal rendering padded with zeros to [w] digits. *)
Fixpoint pad (w : nat) (n : Z) : string :=
  match w with
  | O => ""
  | S w' => pad w' (n / 10) +:+ hex_digit (n mod 10)
  end.

Definition ms_per_day : Z := 86400000.

(** The proleptic Gregorian date of day number [days] (0 is 1970-01-01). *)
Definition civil_from_days (days : Z) : Z * Z * Z :=
  let z := days + 719468 in
  let era := z / 146097 in
  let doe := z - era * 146097 in
  let yoe := (doe - doe / 1460 + doe / 36524 - doe / 146096) / 365 in
  let doy := doe - (365 * yoe + yoe / 4 - yoe / 100) in
  let mp := (5 * doy + 2) / 153 in
  let d := doy - (153 * mp + 2) / 5 + 1 in
  let m := if mp <? 10 then mp + 3 else mp - 9 in
  let y := yoe + era * 400 + (if m <=? 2 then 1 else 0) in
  (y, m, d).

(** [new Date(ms).toISOString()], for a time value in the range of [Date]:
    YYYY-MM-DDTHH:mm:ss.sssZ, with a signed six-digit year outside 0..9999. *)
Definition toISOString (ms : Z) : string :=
  let '(y, m, d) := civil_from_days (ms / ms_per_day) in
  let t := ms mod ms_per_day in
  let year :=
    if (0 <=? y) && (y <=? 9999) then pad 4 y
    else (if y <? 0 then "-" else "+") +:+ pad 6 (Z.abs y) in
  year +:+ "-" +:+ pad 2 m +:+ "-" +:+ pad 2 d +:+ "T" +:+
  pad 2 (t / 3600000) +:+ ":" +:+ pad 2 (t / 60000 mod 60) +:+ ":" +:+
  pad 2 (t / 1000 mod 60) +:+ "." +:+ pad 3 (t mod 1000) +:+ "Z".

Example toISOString_epoch : toISOString 0 = "1970-01-01T00:00:00.000Z".
Proof. reflexivity. Qed.

Example toISOString_sample :
  toISOString 1793678400123 = "2026-11-03T04:00:00.123Z"
  /\ toISOString (-1) = "1969-12-31T23:59:59.999Z".
Proof. vm_compute. auto. Qed.

Example toISOString_leap : toISOString 951782400000 = "2000-02-29T00:00:00.000Z".
Proof. vm_compute. reflexivity. Qed.

Example JSON_stringify_sample :
  JSON_stringify (JObject [("a", JArray [JNumber 1; JUndefined; JString "x"]);
                           ("b", JUndefined); ("c", JNull)])
  = Some ("{" +:+ dquote +:+ "a" +:+ dquote +:+ ":[1,null," +:+ dquote +:+ "x" +:+ dquote
          +:+ "]," +:+ dquote +:+ "c" +:+ dquote +:+ ":null}").
Proof. vm_compute. reflexivity. Qed.

Example to_string_samples :
  to_string (JArray [JNumber 1; JNull; JString "a"]) = "1,,a"
  /\ to_string (JError "TypeError" "boom" []) = "TypeError: boom"
  /\ to_string (JNumber (-12)) = "-12".
Proof. vm_compute. auto. Qed.

(* ===================================================================== *)
(** ** The data model ([lib/models/Application]) *)
(* ===================================================================== *)

Record CV := {
  cv_fileName : string;
  cv_fileType : string;
  cv_fileSize : Z;
  cv_url : string;
  cv_pythonAnalysis : JsValue
}.

Inductive ApplicationStatus := pending | reviewed | contacted | rejected | hired.

(** [IApplication].  [parsedResume], [webhookSent] and [webhookResponse] hold
    what the routes assign to them: [parsedResume] is null (or undefined) or
    an object with the optional [ParsedResume] keys. *)
Record Application := {
  app_name : string;
  app_email : string;
  app_phone : string;
  app_cv : CV;
  app_parsedResume : JsValue;
  app_status : ApplicationStatus;
  app_webhookSent : JsValue;
  app_webhookResponse : JsValue;
  app_notes : option string;
  app_createdAt : Z;
  app_updatedAt : Z
}.

(** The fields a route passes to [new Application({...})]. *)
Record ApplicationInit := {
  init_name : string;
  init_email : string;
  init_phone : string;
  init_cv : CV;
  init_parsedResume : JsValue;
  init_webhookSent : JsValue;
  init_webhookResponse : JsValue
}.

(** The setters of the schema: [name], [email] and [phone] have [trim: true],
    [email] also [lowercase: true]. *)
Definition set_name (v : string) : string := trim v.
Definition set_email (v : string) : string := toLowerCase (trim v).
Definition set_phone (v : string) : string := trim v.

Example setters_samples :
  set_name "  Ada Lovelace " = "Ada Lovelace"
  /\ set_email " Ada@Example.COM" = "ada@example.com"
  /\ set_phone "   " = ""
  /\ set_name "Ada  King" = "Ada  King".
Proof. repeat split; reflexivity. Qed.

(** The paths of [parsedResume] the schema declares as arrays. *)
Definition array_paths : list string :=
  ["employment"; "technicalSkills"; "softSkills"; "education"].

(** An array path that is not set holds the empty array. *)
Definition default_array (ps : list (string * JsValue)) (k : string)
  : list (string * JsValue) :=
  match assoc k ps with
  | Some JUndefined | None => assoc_set k (JArray []) ps
  | Some _ => ps
  end.

(** [parsedResume] as a document holds it, both when [new Application] is
    given it and when a stored record is read back: the array paths that
    are not set are empty arrays; a null stays null.  The other paths are
    kept as given. *)
Definition document_parsedResume (parsedResume : JsValue) : JsValue :=
  match parsedResume with
  | JObject ps => JObject (fold_left default_array array_paths ps)
  | JUndefined => JObject (fold_left default_array array_paths [])
  | _ => parsedResume
  end.

(** The document [findById] resolves to: the record as stored, and
    [parsedResume] as the document reads it.  The other paths read as
    stored.  A [save] of the document writes the paths that were assigned
    onto the stored record and leaves the others. *)
Record Document := { record_of : Application; doc_parsedResume : JsValue }.

Definition hydrate (record : Application) : Document :=
  {| record_of := record;
     doc_parsedResume := document_parsedResume (app_parsedResume record) |}.

Coercion hydrate : Application >-> Document.

(* ===================================================================== *)
(** ** Effects, the outside world, and the monad of [async] functions *)
(* ===================================================================== *)

Record PutObjectCommand := {
  Bucket : string;
  Key : string;
  Body : list Byte.byte;
  ContentType : string;
  ACL : string
}.

Inductive ConsoleLevel := LevelLog | LevelWarn | LevelError.

(** Every effect the program performs, in the order performed. *)
Inductive Event :=
| Console (level : ConsoleLevel) (args : list JsValue)
| HttpGet (url : string) (timeout : Z)
| HttpPost (url : string) (body : JsValue) (headers : list (string * JsValue)) (timeout : Z)
| S3Send (command : PutObjectCommand)
| SetTimeout (delay : Z)
| DbConnect
| DbFindById (id : string)
| DbSave (id : string) (doc : Application).

Record AxiosResponse := { res_status : Z; res_data : JsValue }.

(** What axios rejects with: an [Error] carrying [code] and, when the server
    answered with a status outside 2xx, the [response]. *)
Record AxiosError := {
  ae_name : string;
  ae_message : string;
  ae_code : JsValue;
  ae_response : option AxiosResponse
}.

Inductive AxiosOutcome := Fulfilled (r : AxiosResponse) | Rejected (e : AxiosError).

Definition response_value (r : AxiosResponse) : JsValue :=
  JObject [("status", JNumber (res_status r)); ("data", res_data r)].

Definition error_value (e : AxiosError) : JsValue :=
  JError (ae_name e) (ae_message e)
    [("code", ae_code e);
     ("response", match ae_response e with
                  | Some r => response_value r
                  | None => JUndefined
                  end)].

(** A call returns a value or throws one. *)
Inductive Outcome (A : Type) :=
| Returned (a : A)
| Thrown (e : JsValue).
Arguments Returned {A} a.
Arguments Thrown {A} e.

(** The platform and the collaborators: everything the source calls and does
    not define ([JSON.parse], [process.env], the clock, axios, the S3 client,
    [dbConnect] of lib/mongodb and the mongoose model).  They are parameters
    of the program; each answer may depend on the whole history of effects. *)
Record Env := {
  JSON_parse : string -> Outcome JsValue;       (* Thrown: the SyntaxError *)
  process_env : string -> JsValue;              (* process.env[k] *)
  Date_now : list Event -> Z;
  get_answer : list Event -> string -> Z -> AxiosOutcome;
  post_answer : list Event -> string -> JsValue -> list (string * JsValue) -> Z -> AxiosOutcome;
  s3_answer : list Event -> PutObjectCommand -> option JsValue;   (* Some e: rejects with e *)
  connect_answer : list Event -> option JsValue;
  find_answer : list Event -> string -> option JsValue;
  save_answer : list Event -> string -> Application -> option JsValue;
  new_ObjectId : list Event -> string
}.

Record World := {
  trace : list Event;
  store : gmap string Application
}.

Definition M (A : Type) : Type := World -> Outcome A * World.

Definition ret {A} (a : A) : M A := fun w => (Returned a, w).

Definition throw {A} (e : JsValue) : M A := fun w => (Thrown e, w).

Definition bind {A B} (m : M A) (k : A -> M B) : M B :=
  fun w =>
    match m w with
    | (Returned a, w') => k a w'
    | (Thrown e, w') => (Thrown e, w')
    end.

(** [try { m } catch (e) { h e }] *)
Definition try_catch {A} (m : M A) (h : JsValue -> M A) : M A :=
  fun w =>
    match m w with
    | (Returned a, w') => (Returned a, w')
    | (Thrown e, w') => h e w'
    end.

Declare Scope js_scope.
Delimit Scope js_scope with js.
Notation "x <- c1 ;; c2" := (bind c1 (fun x => c2))
  (at level 100, c1 at next level, right associativity) : js_scope.
Notation "c1 ;; c2" := (bind c1 (fun _ => c2))
  (at level 100, right associativity) : js_scope.
Local Open Scope js_scope.

Definition emit (ev : Event) : M unit :=
  fun w => (Returned tt, {| trace := trace w ++ [ev]; store := store w |}).

Definition console_log (args : list JsValue) : M unit := emit (Console LevelLog args).
Definition console_warn (args : list JsValue) : M unit := emit (Console LevelWarn args).
Definition console_error (args : list JsValue) : M unit := emit (Console LevelError args).

Definition TypeError (message : string) : JsValue := JError "TypeError" message [].
Definition new_Error (message : string) : JsValue := JError "Error" message [].

(** The value of [v.k] for a [v] that is neither undefined nor null: the
    primitives and arrays have none of the properties this program reads. *)
Definition prop (v : JsValue) (k : string) : JsValue :=
  match v with
  | JObject ps => default JUndefined (assoc k ps)
  | JError name message ps =>
      if String.eqb k "name" then JString name
      else if String.eqb k "message" then JString message
      else default JUndefined (assoc k ps)
  | _ => JUndefined
  end.

(** [v.k]: reading a property of undefined or null throws. *)
Definition get (v : JsValue) (k : string) : M JsValue :=
  if is_nullish v then
    throw (TypeError ("Cannot read properties of " +:+ to_string v +:+
                      " (reading '" +:+ k +:+ "')"))
  else ret (prop v k).

(** [v?.k] *)
Definition get_opt (v : JsValue) (k : string) : M JsValue :=
  if is_nullish v then ret JUndefined else get v k.

(** [new Promise((resolve) => setTimeout(resolve, delay))] *)
Definition sleep (delay : Z) : M unit := emit (SetTimeout delay).

Section Program.

Variable env : Env.

Definition now : M Z := fun w => (Returned (Date_now env (trace w)), w).

Definition axios_get (url : string) (timeout : Z) : M AxiosResponse :=
  fun w =>
    let answer := get_answer env (trace w) url timeout in
    bind (emit (HttpGet url timeout))
         (fun _ => match answer with
                   | Fulfilled r => ret r
                   | Rejected e => throw (error_value e)
                   end) w.

Definition axios_post (url : string) (body : JsValue)
    (headers : list (string * JsValue)) (timeout : Z) : M AxiosResponse :=
  fun w =>
    let answer := post_answer env (trace w) url body headers timeout in
    bind (emit (HttpPost url body headers timeout))
         (fun _ => match answer with
                   | Fulfilled r => ret r
                   | Rejected e => throw (error_value e)
                   end) w.

(* --------------------------------------------------------------------- *)
(** *** [lib/webhook] *)
(* --------------------------------------------------------------------- *)

Inductive Environment := testing | prod.

Definition environment_value (e : Environment) : JsValue :=
  match e with testing => JString "testing" | prod => JString "prod" end.

Definition webhook_url : string := "https://rnd-assignment.automations-3d6.workers.dev/".

(** The object literal [payload] of [sendWebhookNotification] and the
    conditional [work_experience] assignment that follows it, for a [data]
    that has properties and a clock that reads [t]. *)
Definition build_payload (data email : JsValue) (environment : Environment) (t : Z)
  : JsValue :=
  let cv_data :=
    [("personal_info",
      JObject [("name", js_or (prop data "fullName") (JString ""));
               ("email", js_or (prop data "email") email);
               ("github", js_or (prop data "github") (JString ""));
               ("linkedin", js_or (prop data "linkedin") (JString ""))]);
     ("education", js_or (prop data "education") (JArray []));
     ("qualifications", js_or (prop data "technicalSkills") (JArray []));
     ("projects", JArray []);
     ("cv_public_link", js_or (prop data "cvUrl") (JString ""))] in
  let metadata :=
    [("applicant_name", js_or (prop data "fullName") (JString "Unknown Candidate"));
     ("email", email);
     ("status", environment_value environment);
     ("cv_processed", JBool true);
     ("processed_timestamp", JString (toISOString t))] in
  let cv_data :=
    if truthy (prop data "employment")
    then assoc_set "work_experience" (prop data "employment") cv_data
    else cv_data in
  JObject [("cv_data", JObject cv_data); ("metadata", JObject metadata)].

(** Building the payload inside [sendWebhookNotification]: the first property
    read throws on a [data] without properties, [new Date()] reads the clock. *)
Definition webhook_payload (data email : JsValue) (environment : Environment)
  : M JsValue :=
  _ <- get data "fullName";;
  t <- now;;
  ret (build_payload data email environment t).

Definition webhook_headers (email : JsValue) : list (string * JsValue) :=
  [("Content-Type", JString "application/json"); ("X-Candidate-Email", email)].

Definition sendWebhookNotification (data email : JsValue)
    (environment : option Environment) : M JsValue :=
  let environment := default testing environment in
  try_catch
    (console_log [JString ("Sending webhook notification for " +:+ to_string email)];;
     payload <- webhook_payload data email environment;;
     response <- axios_post webhook_url payload (webhook_headers email) 10000;;
     console_log [JString ("Webhook notification sent successfully: " +:+
                           string_of_Z (res_status response))];;
     ret (JObject [("success", JBool true);
                   ("status", JNumber (res_status response));
                   ("data", res_data response)]))
    (fun error =>
       console_error [JString "Error sending webhook notification:"; error];;
       message <- get error "message";;
       response <- get error "response";;
       details <- get_opt response "data";;
       ret (JObject [("success", JBool false);
                     ("error", message);
                     ("details", details)])).

Definition retry_failure (retries : Z) (lastError : JsValue) : JsValue :=
  JObject [("success", JBool false);
           ("error", JString ("Failed after " +:+ string_of_Z retries +:+
                              " attempts. Last error: " +:+ to_string lastError))].

Definition attempt_line (attempt retries : Z) (email : JsValue) : JsValue :=
  JString ("Webhook attempt " +:+ string_of_Z attempt +:+ "/" +:+
           string_of_Z retries +:+ " for " +:+ to_string email).

(** The [try ... catch] inside the loop of [retryWebhook], entered with
    [attempt] already read: [inl result] is [return result], [inr e] leaves
    the block with [lastError = e]. *)
Definition retry_attempt (data email : JsValue) (retries : Z)
    (environment : Environment) (attempt : Z) : M (JsValue + JsValue) :=
  try_catch
    (let attempt := attempt + 1 in
     console_log [attempt_line attempt retries email];;
     result <- sendWebhookNotification data email (Some environment);;
     success <- get result "success";;
     if truthy success then ret (inl result)
     else (error <- get result "error";; ret (inr error)))
    (fun error => ret (inr error)).

(** The [while (attempt < retries)] loop and the [return] after it.  [fuel]
    bounds the iterations; [None] is only returned when it runs out. *)
Fixpoint retry_loop (fuel : nat) (data email : JsValue) (retries delay : Z)
    (environment : Environment) (attempt : Z) (lastError : JsValue)
  : M (option JsValue) :=
  if attempt <? retries then
    match fuel with
    | O => ret None
    | S fuel' =>
        step <- retry_attempt data email retries environment attempt;;
        match step with
        | inl result => ret (Some result)
        | inr lastError' =>
            sleep delay;;
            retry_loop fuel' data email retries delay environment (attempt + 1) lastError'
        end
    end
  else ret (Some (retry_failure retries lastError)).

(** [retries = 3], [delay = 2000] and [environment = "testing"] are the
    defaults.  The loop runs at most [retries] times, which is the fuel. *)
Definition retryWebhook (data email : JsValue) (retries delay : option Z)
    (environment : option Environment) : M (option JsValue) :=
  let retries := default 3 retries in
  let delay := default 2000 delay in
  let environment := default testing environment in
  retry_loop (Z.to_nat retries) data email retries delay environment 0 JUndefined.

(* --------------------------------------------------------------------- *)
(** *** [lib/s3]: the parser gateway and the upload *)
(* --------------------------------------------------------------------- *)

Definition health_url : string := "http://localhost:8000/health".
Definition parse_url : string := "http://localhost:8000/parse-resume/".

Definition isPythonServiceAvailable : M bool :=
  try_catch
    (_ <- axios_get health_url 2000;;
     ret true)
    (fun error =>
       console_warn [JString "Python service is not available:"; error];;
       ret false).

(** The [catch] block of [sendUrlToPythonService]. *)
Definition parse_failed (error : JsValue) : M JsValue :=
  console_error [JString "Error sending URL to Python service:"; error];;
  response <- get error "response";;
  (if truthy response then
     status <- get response "status";;
     console_error [JString "Response status:"; status];;
     data <- get response "data";;
     console_error [JString "Response data:"; data]
   else
     code <- get error "code";;
     if is_the_string code "ECONNRESET" then
       console_error [JString "Connection was reset. The server might be taking too long to respond."]
     else ret tt);;
  ret JNull.

Definition sendUrlToPythonService (fileUrl : string) : M JsValue :=
  available <- isPythonServiceAvailable;;
  if negb available then
    console_warn [JString "Skipping Python service call - service not available"];;
    ret JNull
  else
    try_catch
      (console_log [JString "Sending URL to Python service:"; JString fileUrl];;
       response <- axios_post parse_url (JObject [("url", JString fileUrl)]) [] 60000;;
       console_log [JString "Python service response received"];;
       ret (res_data response))
      parse_failed.

Inductive FileInput :=
| IsBuffer (bytes : list Byte.byte)                            (* instanceof Buffer *)
| HasArrayBuffer (bytes : list Byte.byte) (type : option string)  (* a Blob, a File, a FileWithBuffer *)
| Unsupported.

Definition s3Client_send (command : PutObjectCommand) : M unit :=
  fun w =>
    let answer := s3_answer env (trace w) command in
    bind (emit (S3Send command))
         (fun _ => match answer with
                   | None => ret tt
                   | Some e => throw e
                   end) w.

Definition octet_stream : string := "application/octet-stream".

(** [type || contentType] on an optional string. *)
Definition type_or (type : option string) (contentType : string) : string :=
  match type with
  | Some t => if String.eqb t "" then contentType else t
  | None => contentType
  end.

(** A [Blob] has [arrayBuffer], so the second test of the source catches every
    [Blob]; its third branch is never reached. *)
Definition uploadFile (file : FileInput) (fileName : string) (sendToPython : bool)
  : M (string * JsValue) :=
  let bucket := process_env env "AWS_S3_BUCKET_NAME" in
  if negb (truthy bucket) then
    throw (new_Error "AWS_S3_BUCKET_NAME is not defined in environment variables")
  else
    try_catch
      (converted <-
         match file with
         | IsBuffer bytes => ret (bytes, octet_stream)
         | HasArrayBuffer bytes type => ret (bytes, type_or type octet_stream)
         | Unsupported => throw (new_Error "Unsupported file type")
         end;;
       let fileBuffer := fst converted in
       let contentType := snd converted in
       t <- now;;
       let fileKey := "applications/" +:+ string_of_Z t +:+ "-" +:+ fileName in
       s3Client_send {| Bucket := to_string bucket;
                        Key := fileKey;
                        Body := fileBuffer;
                        ContentType := contentType;
                        ACL := "public-read" |};;
       let fileUrl := "https://" +:+ to_string bucket +:+ ".s3." +:+
                      to_string (process_env env "AWS_REGION") +:+
                      ".amazonaws.com/" +:+ fileKey in
       pythonResponse <-
         (if sendToPython then
            try_catch (sendUrlToPythonService fileUrl)
                      (fun error =>
                         console_error [JString "Python service error:"; error];;
                         ret JNull)
          else ret JNull);;
       ret (fileUrl, pythonResponse))
      (fun error =>
         console_error [JString "Error uploading to S3:"; error];;
         let errorMessage :=
           match error with
           | JError name message _ => name +:+ ": " +:+ message
           | _ => "Unknown error"
           end in
         throw (new_Error ("Failed to upload file: " +:+ errorMessage))).

(* --------------------------------------------------------------------- *)
(** *** The document store ([dbConnect], the mongoose model) *)
(* --------------------------------------------------------------------- *)

Definition dbConnect : M unit :=
  fun w =>
    let answer := connect_answer env (trace w) in
    bind (emit DbConnect)
         (fun _ => match answer with
                   | None => ret tt
                   | Some e => throw e
                   end) w.

(** [Application.findById(id)] resolves to the hydrated document of the
    stored record, or to null. *)
Definition Application_findById (id : string) : M (option Document) :=
  fun w =>
    let answer := find_answer env (trace w) id in
    bind (emit (DbFindById id))
         (fun _ w' => match answer with
                      | None => (Returned (hydrate <$> store w' !! id), w')
                      | Some e => (Thrown e, w')
                      end) w.

Example document_parsedResume_samples :
  document_parsedResume (JObject [("rawData", JString "text")]) =
    JObject [("rawData", JString "text"); ("employment", JArray []);
             ("technicalSkills", JArray []); ("softSkills", JArray []);
             ("education", JArray [])]
  /\ document_parsedResume
       (JObject [("employment", JArray [JObject [("company", JString "Analytical")]]);
                 ("softSkills", JUndefined)]) =
     JObject [("employment", JArray [JObject [("company", JString "Analytical")]]);
              ("softSkills", JArray []); ("technicalSkills", JArray []);
              ("education", JArray [])]
  /\ document_parsedResume JNull = JNull.
Proof. repeat split; reflexivity. Qed.

(** [new Application({...})]: a fresh [_id], the values as the setters of
    the schema leave them, and the schema defaults ([status], [createdAt],
    [updatedAt], the array paths of [parsedResume]); nothing is written
    yet. *)
Definition new_Application (init : ApplicationInit) : M (string * Application) :=
  fun w =>
    let t := Date_now env (trace w) in
    (Returned (new_ObjectId env (trace w),
               {| app_name := set_name (init_name init);
                  app_email := set_email (init_email init);
                  app_phone := set_phone (init_phone init);
                  app_cv := init_cv init;
                  app_parsedResume := document_parsedResume (init_parsedResume init);
                  app_status := pending;
                  app_webhookSent := init_webhookSent init;
                  app_webhookResponse := init_webhookResponse init;
                  app_notes := None;
                  app_createdAt := t;
                  app_updatedAt := t |}), w).

Definition touch (t : Z) (a : Application) : Application :=
  {| app_name := app_name a; app_email := app_email a; app_phone := app_phone a;
     app_cv := app_cv a; app_parsedResume := app_parsedResume a;
     app_status := app_status a; app_webhookSent := app_webhookSent a;
     app_webhookResponse := app_webhookResponse a; app_notes := app_notes a;
     app_createdAt := app_createdAt a; app_updatedAt := t |}.

(** [application.save()]: the pre-save hook stamps [updatedAt], then the
    document is validated and written under its [_id], or the call rejects
    and the store is left as it was. *)
Definition application_save (id : string) (application : Application) : M unit :=
  fun w =>
    let doc := touch (Date_now env (trace w)) application in
    let answer := save_answer env (trace w) id doc in
    bind (emit (DbSave id doc))
         (fun _ w' => match answer with
                      | None => (Returned tt, {| trace := trace w';
                                                 store := <[id := doc]> (store w') |})
                      | Some e => (Thrown e, w')
                      end) w.

End Program.

(* ===================================================================== *)
(** ** The routes *)
(* ===================================================================== *)

Record NextResponse := { status : Z; body : JsValue }.

(** [NextResponse.json(body, { status })]; the status is 200 when omitted. *)
Definition NextResponse_json (body : JsValue) (status : option Z) : NextResponse :=
  {| status := default 200 status; body := body |}.

(** [JSON.parse(v)] when [v] is a string, [v] itself otherwise. *)
Definition parse_if_string (env : Env) (v : JsValue) : M JsValue :=
  match v with
  | JString s => fun w => (JSON_parse env s, w)
  | _ => ret v
  end.

(** [target.k = v] in strict mode (the routes are ES modules): it throws on
    undefined, null and the primitives.  An array that receives a named
    property is written as the object of its indexed properties and that
    property; the program only reads named properties of the result. *)
Definition set_property (target : JsValue) (k : string) (v : JsValue) : M JsValue :=
  match target with
  | JObject ps => ret (JObject (assoc_set k v ps))
  | JError name message ps => ret (JError name message (assoc_set k v ps))
  | JArray items => ret (JObject (assoc_set k v (indexed 0 items)))
  | JUndefined | JNull =>
      throw (TypeError ("Cannot set properties of " +:+ to_string target +:+
                        " (setting '" +:+ k +:+ "')"))
  | _ =>
      throw (TypeError ("Cannot create property '" +:+ k +:+ "' on " +:+ to_string target))
  end.

(* --------------------------------------------------------------------- *)
(** *** [api/applications]: the submission endpoint *)
(* --------------------------------------------------------------------- *)

Module Applications.

Record File := {
  file_name : string;
  file_type : string;
  file_size : Z;
  file_bytes : list Byte.byte
}.

(** The four entries the route reads with [formData.get], at the types the
    route casts them to: a text field is a string or null, [cv] a file or
    null. *)
Record FormData := {
  form_name : option string;
  form_email : option string;
  form_phone : option string;
  form_cv : option File
}.

(** [request.formData()] resolves to the form or rejects. *)
Record NextRequest := { formData : Outcome FormData }.

(** ToBoolean of a [string | null]. *)
Definition given (field : option string) : bool :=
  match field with
  | Some s => negb (String.eqb s "")
  | None => false
  end.

Definition text (field : option string) : string := default "" field.

(** [uploadError.message.includes("Python service")] *)
Definition message_includes (uploadError : JsValue) (t : string) : M bool :=
  message <- get uploadError "message";;
  match message with
  | JString m => ret (includes m t)
  | JArray items =>
      ret (existsb (fun x => match x with JString s => String.eqb s t | _ => false end) items)
  | JUndefined | JNull =>
      throw (TypeError ("Cannot read properties of " +:+ to_string message +:+
                        " (reading 'includes')"))
  | _ => throw (TypeError "uploadError.message.includes is not a function")
  end.

Section Route.

Variable env : Env.

(** The two uploads: with enrichment, and once more without it when the
    failure names the Python service.  Returns [fileUrl] and
    [pythonResponse], which stays undefined on the second path. *)
Definition upload (fileBlob : FileInput) (fileName : string) : M (string * JsValue) :=
  try_catch
    (result <- uploadFile env fileBlob fileName true;;
     let fileUrl := fst result in
     let pythonResponse := snd result in
     console_log [JString "File uploaded successfully to S3:"; JString fileUrl];;
     (if truthy pythonResponse
      then console_log [JString "Python response received"]
      else console_log [JString "No Python response received"]);;
     ret (fileUrl, pythonResponse))
    (fun uploadError =>
       python <- message_includes uploadError "Python service";;
       if python then
         console_warn [JString "Python service error, proceeding without analysis"];;
         result <- uploadFile env fileBlob fileName false;;
         ret (fst result, JUndefined)
       else throw uploadError).

(** The body of [if (pythonResponse && pythonResponse.parsed_data)]: returns
    [parsedResume] and [webhookResult] as they stand after the block. *)
Definition process_parsed_data (pythonResponse : JsValue) (email fileUrl : string)
  : M (JsValue * JsValue) :=
  raw <- get pythonResponse "parsed_data";;
  try_catch
    (parsedData <- parse_if_string env raw;;
     fullName <- get parsedData "fullName";;
     let parsedResume :=
       JObject [("fullName", fullName);
                ("email", js_or (prop parsedData "email") (JString email));
                ("github", prop parsedData "github");
                ("linkedin", prop parsedData "linkedin");
                ("employment", prop parsedData "employment");
                ("technicalSkills", prop parsedData "technicalSkills");
                ("softSkills", prop parsedData "softSkills");
                ("education", prop parsedData "education");
                ("rawData", raw)] in
     let webhookData := JObject (assoc_set "cvUrl" (JString fileUrl) (spread parsedData)) in
     webhookResult <- sendWebhookNotification env webhookData
                        (js_or (prop parsedData "email") (JString email)) (Some testing);;
     console_log [JString "Webhook notification result:"; webhookResult];;
     ret (parsedResume, webhookResult))
    (fun parseError =>
       console_error [JString "Error parsing resume data:"; parseError];;
       let parsedResume := JObject [("rawData", raw)] in
       webhookResult <-
         try_catch
           (sendWebhookNotification env (JObject [("rawData", raw)]) (JString email)
                                    (Some testing))
           (fun webhookError =>
              console_error [JString "Error sending webhook notification:"; webhookError];;
              ret JNull);;
       ret (parsedResume, webhookResult)).

(** The arguments of the first [console.log] of the route. *)
Definition received (name email phone : string) (cvFile : File) : list JsValue :=
  [JString "Received form submission:";
   JObject [("name", JString name);
            ("email", JString email);
            ("phone", JString phone);
            ("cv", JObject [("name", JString (file_name cvFile));
                            ("type", JString (file_type cvFile));
                            ("size", JNumber (file_size cvFile))])]].

Definition missing_fields : NextResponse :=
  NextResponse_json (JObject [("error", JString "Missing required fields")]) (Some 400).

Definition POST (request : NextRequest) : M NextResponse :=
  try_catch
    (form <- (fun w => (formData request, w));;
     let name := form_name form in
     let email := form_email form in
     let phone := form_phone form in
     match form_cv form with
     | None => ret missing_fields
     | Some cvFile =>
       if negb (given name) || negb (given email) || negb (given phone)
       then ret missing_fields
       else
         let name := text name in
         let email := text email in
         let phone := text phone in
         console_log (received name email phone cvFile);;
         try_catch
           (let fileBlob := HasArrayBuffer (file_bytes cvFile) (Some (file_type cvFile)) in
            let fileName := file_name cvFile in
            uploaded <- upload fileBlob fileName;;
            let fileUrl := fst uploaded in
            let pythonResponse := snd uploaded in
            dbConnect env;;
            parsed_data <- (if truthy pythonResponse
                            then get pythonResponse "parsed_data"
                            else ret pythonResponse);;
            processed <- (if truthy parsed_data
                          then process_parsed_data pythonResponse email fileUrl
                          else ret (JNull, JNull));;
            let parsedResume := fst processed in
            let webhookResult := snd processed in
            success <- get_opt webhookResult "success";;
            created <- new_Application env
              {| init_name := name;
                 init_email := email;
                 init_phone := phone;
                 init_cv := {| cv_fileName := file_name cvFile;
                               cv_fileType := file_type cvFile;
                               cv_fileSize := file_size cvFile;
                               cv_url := fileUrl;
                               cv_pythonAnalysis := pythonResponse |};
                 init_parsedResume := parsedResume;
                 init_webhookSent := js_or success (JBool false);
                 init_webhookResponse := webhookResult |};;
            let _id := fst created in
            let application := snd created in
            application_save env _id application;;
            ret (NextResponse_json
                   (JObject [("success", JBool true);
                             ("message", JString "Application submitted successfully");
                             ("applicationId", JString _id);
                             ("webhookSent", js_or success (JBool false))])
                   (Some 201)))
           (fun uploadError =>
              console_error [JString "Error during file upload or database operation:";
                             uploadError];;
              let detail :=
                match uploadError with
                | JError _ message _ => message
                | _ => to_string uploadError
                end in
              ret (NextResponse_json
                     (JObject [("error", JString ("Error processing application: " +:+ detail))])
                     (Some 500)))
     end)
    (fun error =>
       console_error [JString "Error handling application submission:"; error];;
       ret (NextResponse_json
              (JObject [("error", JString "Error processing your application")])
              (Some 500))).

End Route.

End Applications.

(* --------------------------------------------------------------------- *)
(** *** [api/applications/resend-webhook/[id]]: the resend endpoint *)
(* --------------------------------------------------------------------- *)

Module ResendWebhook.

Section Route.

Variable env : Env.

(** The [data] the route builds from the stored record before it calls the
    notifier (the [if (application.parsedResume?.rawData)] statement); the
    route reads [parsedResume] through the document.  When
    [rawData] is an object, [data] is that very object and the assignment of
    [cvUrl] also changes the document in memory; the route reads the document
    no more after that, and the save below writes the two webhook fields. *)
Definition notification_data (application : Document) : M JsValue :=
  let parsedResume := doc_parsedResume application in
  let record := record_of application in
  rawData <- get_opt parsedResume "rawData";;
  if truthy rawData then
    try_catch
      (data <- parse_if_string env rawData;;
       set_property data "cvUrl" (JString (cv_url (app_cv record))))
      (fun e =>
         fullName <- get_opt parsedResume "fullName";;
         email <- get_opt parsedResume "email";;
         github <- get_opt parsedResume "github";;
         linkedin <- get_opt parsedResume "linkedin";;
         employment <- get_opt parsedResume "employment";;
         technicalSkills <- get_opt parsedResume "technicalSkills";;
         softSkills <- get_opt parsedResume "softSkills";;
         education <- get_opt parsedResume "education";;
         ret (JObject [("fullName", js_or fullName (JString (app_name record)));
                       ("email", js_or email (JString (app_email record)));
                       ("github", github);
                       ("linkedin", linkedin);
                       ("employment", employment);
                       ("technicalSkills", technicalSkills);
                       ("softSkills", softSkills);
                       ("education", education);
                       ("cvUrl", JString (cv_url (app_cv record)))]))
  else
    ret (JObject [("fullName", JString (app_name record));
                  ("email", JString (app_email record));
                  ("cvUrl", JString (cv_url (app_cv record)))]).

(** [application.webhookSent = ...; application.webhookResponse = ...] on the
    record the document holds: the save writes these two paths. *)
Definition record_webhook (webhookSent webhookResponse : JsValue) (a : Application)
  : Application :=
  {| app_name := app_name a; app_email := app_email a; app_phone := app_phone a;
     app_cv := app_cv a; app_parsedResume := app_parsedResume a;
     app_status := app_status a; app_webhookSent := webhookSent;
     app_webhookResponse := webhookResponse; app_notes := app_notes a;
     app_createdAt := app_createdAt a; app_updatedAt := app_updatedAt a |}.

Definition resent (webhookResult : JsValue) : NextResponse :=
  NextResponse_json
    (JObject [("success", JBool true);
              ("message", JString "Webhook resent successfully");
              ("webhookResult", webhookResult)])
    None.

Definition POST (id : string) : M NextResponse :=
  try_catch
    (dbConnect env;;
     found <- Application_findById env id;;
     match found with
     | None =>
         ret (NextResponse_json (JObject [("error", JString "Application not found")])
                                (Some 404))
     | Some application =>
         let email := app_email (record_of application) in
         data <- notification_data application;;
         webhookResult <- sendWebhookNotification env data (JString email) (Some prod);;
         success <- get webhookResult "success";;
         let saved := record_webhook success webhookResult (record_of application) in
         application_save env id saved;;
         ret (resent webhookResult)
     end)
    (fun error =>
       console_error [JString "Error resending webhook:"; error];;
       ret (NextResponse_json (JObject [("error", JString "Error resending webhook")])
                              (Some 500))).

End Route.

End ResendWebhook.

(* ===================================================================== *)
(** ** Reading traces *)
(* ===================================================================== *)

(** The bodies of the POST requests sent to the webhook endpoint. *)
Definition webhook_bodies (h : list Event) : list JsValue :=
  flat_map (fun ev => match ev with
                      | HttpPost u b _ _ => if String.eqb u webhook_url then [b] else []
                      | _ => []
                      end) h.

(** The requests sent to the parse endpoint of the Python service. *)
Definition parse_requests (h : list Event) : list Event :=
  List.filter (fun ev => match ev with
                    | HttpPost u _ _ _ => String.eqb u parse_url
                    | _ => false
                    end) h.

(** A call of [sendWebhookNotification] starts with this line. *)
Definition is_notifier_call (ev : Event) : bool :=
  match ev with
  | Console LevelLog [JString s] => startsWith s "Sending webhook notification for "
  | _ => false
  end.

Definition notifier_calls (h : list Event) : nat := length (List.filter is_notifier_call h).

Definition is_timer (ev : Event) : bool :=
  match ev with SetTimeout _ => true | _ => false end.

(** The timers set, in order. *)
Definition timers (h : list Event) : list Event := List.filter is_timer h.

(** What a notifier result says in its [success] field. *)
Definition succeeded (result : JsValue) : bool := truthy (prop result "success").


(** The world after one more effect. *)
Definition after (ev : Event) (w : World) : World :=
  {| trace := trace w ++ [ev]; store := store w |}.

Definition calling_line (email : JsValue) : Event :=
  Console LevelLog [JString ("Sending webhook notification for " +:+ to_string email)].

(** The result [sendWebhookNotification] returns from its [catch]. *)
Definition notify_failure (error : JsValue) : JsValue :=
  JObject [("success", JBool false);
           ("error", prop error "message");
           ("details", if is_nullish (prop error "response") then JUndefined
                       else prop (prop error "response") "data")].

Definition notify_success (r : AxiosResponse) : JsValue :=
  JObject [("success", JBool true);
           ("status", JNumber (res_status r));
           ("data", res_data r)].

Definition read_error (v : JsValue) (k : string) : JsValue :=
  TypeError ("Cannot read properties of " +:+ to_string v +:+ " (reading '" +:+ k +:+ "')").

(** The effects performed between [w] and a later [w']. *)
Definition added (w w' : World) : list Event := drop (length (trace w)) (trace w').

(** The payloads a call of the notifier posts when it is started in [w]. *)
Definition posted_by (env : Env) (data email : JsValue)
    (environment : option Environment) (w : World) : list JsValue :=
  webhook_bodies (added w (snd (sendWebhookNotification env data email environment w))).

(* ===================================================================== *)
(** ** Sample collaborators *)
(* ===================================================================== *)

Module Samples.

Definition accepted : AxiosResponse :=
  {| res_status := 200; res_data := JObject [("received", JBool true)] |}.

Definition timed_out : AxiosError :=
  {| ae_name := "AxiosError";
     ae_message := "timeout of 10000ms exceeded";
     ae_code := JString "ECONNABORTED";
     ae_response := None |}.

Definition bad_gateway : AxiosError :=
  {| ae_name := "AxiosError";
     ae_message := "Request failed with status code 502";
     ae_code := JString "ERR_BAD_RESPONSE";
     ae_response := Some {| res_status := 502; res_data := JString "Bad Gateway" |} |}.

Definition variables (k : string) : JsValue :=
  if String.eqb k "AWS_S3_BUCKET_NAME" then JString "cv-bucket"
  else if String.eqb k "AWS_REGION" then JString "eu-west-1"
  else JUndefined.

(** Stands for [JSON.parse] on the texts used below: it agrees with it on
    the text null and rejects a text that is not JSON. *)
Definition parse (s : string) : Outcome JsValue :=
  if String.eqb s "null" then Returned JNull
  else Thrown (JError "SyntaxError" "Unexpected token in JSON" []).

(** Every collaborator answers, and each effect takes a millisecond.  The
    Python service returns [analysis]. *)
Definition healthy (analysis : JsValue) : Env :=
  {| JSON_parse := parse;
     process_env := variables;
     Date_now := fun h => Z.of_nat (length h);
     get_answer := fun _ _ _ => Fulfilled accepted;
     post_answer := fun _ u _ _ _ =>
       if String.eqb u parse_url
       then Fulfilled {| res_status := 200; res_data := analysis |}
       else Fulfilled accepted;
     s3_answer := fun _ _ => None;
     connect_answer := fun _ => None;
     find_answer := fun _ _ => None;
     save_answer := fun _ _ _ => None;
     new_ObjectId := fun h => "id" +:+ string_of_Z (Z.of_nat (length h)) |}.

(** The webhook endpoint rejects the first [n] requests it receives. *)
Definition flaky (n : nat) : Env :=
  {| JSON_parse := parse;
     process_env := variables;
     Date_now := fun h => Z.of_nat (length h);
     get_answer := fun _ _ _ => Fulfilled accepted;
     post_answer := fun h _ _ _ _ =>
       if (length (webhook_bodies h) <? n)%nat then Rejected timed_out
       else Fulfilled accepted;
     s3_answer := fun _ _ => None;
     connect_answer := fun _ => None;
     find_answer := fun _ _ => None;
     save_answer := fun _ _ _ => None;
     new_ObjectId := fun h => "id" +:+ string_of_Z (Z.of_nat (length h)) |}.

(** No HTTP endpoint answers. *)
Definition offline : Env :=
  {| JSON_parse := parse;
     process_env := variables;
     Date_now := fun h => Z.of_nat (length h);
     get_answer := fun _ _ _ => Rejected timed_out;
     post_answer := fun _ _ _ _ _ => Rejected bad_gateway;
     s3_answer := fun _ _ => None;
     connect_answer := fun _ => None;
     find_answer := fun _ _ => None;
     save_answer := fun _ _ _ => None;
     new_ObjectId := fun h => "id" +:+ string_of_Z (Z.of_nat (length h)) |}.

(** The Python service is up and rejects the parse request. *)
Definition parser_failing : Env :=
  {| JSON_parse := parse;
     process_env := variables;
     Date_now := fun h => Z.of_nat (length h);
     get_answer := fun _ _ _ => Fulfilled accepted;
     post_answer := fun _ _ _ _ _ => Rejected bad_gateway;
     s3_answer := fun _ _ => None;
     connect_answer := fun _ => None;
     find_answer := fun _ _ => None;
     save_answer := fun _ _ _ => None;
     new_ObjectId := fun h => "id" +:+ string_of_Z (Z.of_nat (length h)) |}.

Definition fresh : World := {| trace := []; store := ∅ |}.

(** A record created without enrichment. *)
Definition plain_application : Application :=
  {| app_name := "Ada Lovelace";
     app_email := "ada@example.com";
     app_phone := "1234567890";
     app_cv := {| cv_fileName := "cv.pdf";
                  cv_fileType := "application/pdf";
                  cv_fileSize := 2097152;
                  cv_url := "https://cv-bucket.s3.eu-west-1.amazonaws.com/applications/1-cv.pdf";
                  cv_pythonAnalysis := JNull |};
     app_parsedResume := JNull;
     app_status := pending;
     app_webhookSent := JBool false;
     app_webhookResponse := JNull;
     app_notes := None;
     app_createdAt := 1;
     app_updatedAt := 1 |}.

Definition cv_file : Applications.File :=
  {| Applications.file_name := "cv.pdf";
     Applications.file_type := "application/pdf";
     Applications.file_size := 3;
     Applications.file_bytes := [] |}.

Definition form (phone : option string) : Applications.FormData :=
  {| Applications.form_name := Some "Ada Lovelace";
     Applications.form_email := Some "ada@example.com";
     Applications.form_phone := phone;
     Applications.form_cv := Some cv_file |}.

Definition submission (phone : option string) : Applications.NextRequest :=
  {| Applications.formData := Returned (form phone) |}.

Definition stored : World :=
  {| trace := []; store := {[ "a1" := plain_application ]} |}.

Definition ada : JsValue :=
  JObject [("fullName", JString "Ada Lovelace");
           ("github", JString "ada");
           ("technicalSkills", JArray [JString "analysis"])].

Definition ada_email : JsValue := JString "ada@example.com".

End Samples.

(* ===================================================================== *)
(** ** The notifier *)
(* ===================================================================== *)

Ltac unfold_monad :=
  unfold console_log, console_warn, console_error, sleep, get_opt, get, now, after;
  unfold bind, try_catch, ret, throw, emit;
  cbv beta iota; cbn [trace store].

Section Notifier.

Variable env : Env.

(** [sendWebhookNotification] in closed form: what it returns and which
    effects it adds, by the shape of [data] and the answer of the endpoint. *)
Lemma sendWebhookNotification_run data email environment w :
  sendWebhookNotification env data email environment w =
  let e := default testing environment in
  let w1 := after (calling_line email) w in
  if is_nullish data then
    let error := read_error data "fullName" in
    (Returned (notify_failure error),
     after (Console LevelError [JString "Error sending webhook notification:"; error]) w1)
  else
    let payload := build_payload data email e (Date_now env (trace w1)) in
    let w2 := after (HttpPost webhook_url payload (webhook_headers email) 10000) w1 in
    match post_answer env (trace w1) webhook_url payload (webhook_headers email) 10000 with
    | Fulfilled r =>
        (Returned (notify_success r),
         after (Console LevelLog [JString ("Webhook notification sent successfully: " +:+
                                           string_of_Z (res_status r))]) w2)
    | Rejected err =>
        (Returned (notify_failure (error_value err)),
         after (Console LevelError [JString "Error sending webhook notification:";
                                    error_value err]) w2)
    end.
Proof.
  unfold sendWebhookNotification, webhook_payload, axios_post, read_error.
  unfold_monad.
  destruct (is_nullish data) eqn:Hdata; unfold_monad.
  - reflexivity.
  - destruct (post_answer env _ _ _ _ _) as [r | err]; unfold_monad.
    + reflexivity.
    + unfold notify_failure, error_value. cbn.
      destruct (ae_response err); reflexivity.
Qed.

End Notifier.

Section Payload.

Variable env : Env.

Lemma added_app w w' (l : list Event) :
  trace w' = trace w ++ l -> added w w' = l.
Proof. intros H. unfold added. rewrite H. apply drop_app_length. Qed.

(** A call posts one payload, built from its arguments and the clock, or
    none when [data] is undefined or null. *)
Lemma posted_by_run data email environment w :
  posted_by env data email environment w =
  if is_nullish data then []
  else [build_payload data email (default testing environment)
                      (Date_now env (trace w ++ [calling_line email]))].
Proof.
  unfold posted_by. rewrite sendWebhookNotification_run. cbv zeta.
  destruct (is_nullish data).
  - cbn [snd].
    match goal with
    | |- context [added w (after ?b (after ?a w))] =>
        rewrite (added_app w (after b (after a w)) [a; b])
    end; [reflexivity |].
    cbn. rewrite <- app_assoc. reflexivity.
  - destruct (post_answer env _ _ _ _ _); cbn [snd];
      match goal with
      | |- context [added w (after ?c (after ?b (after ?a w)))] =>
          rewrite (added_app w (after c (after b (after a w))) [a; b; c])
      end;
      try reflexivity; cbn; rewrite <- !app_assoc; reflexivity.
Qed.


End Payload.

(** *** The webhook payload *)



(** C2, as the code has it.  In every payload the notifier posts,
    [personal_info.name], [.github] and [.linkedin] are [data.fullName],
    [data.github] and [data.linkedin] when those are truthy and the empty
    string otherwise, and [personal_info.email] is [data.email] when truthy
    and otherwise the [email] argument of the call. *)
Theorem personal_info_of_posted_payload
    (env : Env) (data email : JsValue) (environment : option Environment)
    (w : World) (p : JsValue) :
  In p (posted_by env data email environment w) ->
  let info := prop (prop p "cv_data") "personal_info" in
  prop info "name" =
    (if truthy (prop data "fullName") then prop data "fullName" else JString "")
  /\ prop info "email" =
    (if truthy (prop data "email") then prop data "email" else email)
  /\ prop info "github" =
    (if truthy (prop data "github") then prop data "github" else JString "")
  /\ prop info "linkedin" =
    (if truthy (prop data "linkedin") then prop data "linkedin" else JString "").
Proof.
  rewrite posted_by_run. destruct (is_nullish data); [intros [] |].
  intros [<- | []]. unfold build_payload.
  destruct (truthy (prop data "employment")); cbn; unfold js_or; auto.
Qed.

Lemma personal_info_of_posted_payload_witness :
  let p := build_payload Samples.ada Samples.ada_email testing 1 in
  let info := prop (prop p "cv_data") "personal_info" in
  prop info "name" = JString "Ada Lovelace"
  /\ prop info "email" = Samples.ada_email
  /\ prop info "github" = JString "ada"
  /\ prop info "linkedin" = JString "".
Proof.
  apply (personal_info_of_posted_payload (Samples.healthy JNull) Samples.ada
           Samples.ada_email (Some testing) Samples.fresh).
  vm_compute. left. reflexivity.
Defined.

(** C2, as stated, fails on the email field: [data] carries no email, and the
    payload posted holds the [email] argument there, not the empty string. *)
Lemma personal_info_email_not_empty :
  has_key "email" Samples.ada = false
  /\ exists p,
       posted_by (Samples.healthy JNull) Samples.ada Samples.ada_email (Some testing)
                 Samples.fresh = [p]
       /\ prop (prop (prop p "cv_data") "personal_info") "email" = JString "ada@example.com"
       /\ prop (prop (prop p "cv_data") "personal_info") "email" <> JString "".
Proof.
  split; [reflexivity |]. eexists.
  split; [vm_compute; reflexivity |].
  split; [reflexivity | discriminate].
Qed.

(** C5.  In every payload the notifier posts, [cv_data] has the key
    [work_experience] exactly when [data.employment] is there, which the
    guard of the source reads as JavaScript truthiness (an array, even an
    empty one, or an object is there; undefined, null, false, 0 and the
    empty string are not); the key then holds [data.employment], and when
    [data.employment] is not there reading the key gives undefined because
    the key does not exist. *)
Theorem work_experience_iff_employment
    (env : Env) (data email : JsValue) (environment : option Environment)
    (w : World) (p : JsValue) :
  In p (posted_by env data email environment w) ->
  has_key "work_experience" (prop p "cv_data") = truthy (prop data "employment")
  /\ prop (prop p "cv_data") "work_experience" =
     (if truthy (prop data "employment") then prop data "employment" else JUndefined)
  /\ (has_key "employment" data = false ->
      has_key "work_experience" (prop p "cv_data") = false).
Proof.
  rewrite posted_by_run. destruct (is_nullish data) eqn:Hdata; [intros [] |].
  intros [<- | []]. unfold build_payload.
  destruct (truthy (prop data "employment")) eqn:He; cbn.
  - repeat split; try reflexivity.
    intros Hk. exfalso.
    destruct data; cbn in Hk, He; try discriminate;
      destruct (assoc "employment" props); discriminate.
  - repeat split; reflexivity.
Qed.

Example work_experience_for_empty_history :
  has_key "work_experience"
    (prop (build_payload (JObject [("employment", JArray [])]) Samples.ada_email prod 0)
          "cv_data") = true.
Proof. reflexivity. Qed.

Example work_experience_for_null_history :
  has_key "work_experience"
    (prop (build_payload (JObject [("employment", JNull)]) Samples.ada_email prod 0)
          "cv_data") = false
  /\ has_key "work_experience"
       (prop (build_payload (JObject [("fullName", JString "Ada")]) Samples.ada_email prod 0)
             "cv_data") = false.
Proof. split; reflexivity. Qed.

Lemma work_experience_iff_employment_witness :
  let data := JObject [("fullName", JString "Ada"); ("employment", JArray [])] in
  let p := build_payload data Samples.ada_email testing 1 in
  has_key "work_experience" (prop p "cv_data") = true
  /\ prop (prop p "cv_data") "work_experience" = JArray []
  /\ (has_key "employment" data = false ->
      has_key "work_experience" (prop p "cv_data") = false).
Proof.
  apply (work_experience_iff_employment (Samples.healthy JNull)
           (JObject [("fullName", JString "Ada"); ("employment", JArray [])])
           Samples.ada_email (Some testing) Samples.fresh).
  vm_compute. left. reflexivity.
Defined.

(* ===================================================================== *)
(** ** The retry helper *)
(* ===================================================================== *)

(** Whether the notifier, called in [w], reports success. *)
Definition notifier_succeeds (env : Env) (data email : JsValue)
    (environment : Environment) (w : World) : bool :=
  match fst (sendWebhookNotification env data email (Some environment) w) with
  | Returned result => succeeded result
  | Thrown _ => false
  end.

Definition attempt_log (attempt retries : Z) (email : JsValue) : Event :=
  Console LevelLog [attempt_line attempt retries email].

Lemma notifier_calls_app l1 l2 :
  notifier_calls (l1 ++ l2) = (notifier_calls l1 + notifier_calls l2)%nat.
Proof. unfold notifier_calls. rewrite List.filter_app, length_app. reflexivity. Qed.

Lemma timers_app l1 l2 : timers (l1 ++ l2) = timers l1 ++ timers l2.
Proof. apply List.filter_app. Qed.

Lemma calling_line_is_call email : is_notifier_call (calling_line email) = true.
Proof. reflexivity. Qed.

Lemma attempt_log_is_no_call attempt retries email :
  is_notifier_call (attempt_log attempt retries email) = false.
Proof. reflexivity. Qed.

Section Retry.

Variable env : Env.

(** The notifier never throws: it returns an object, leaves the store alone,
    and adds its opening line followed by effects that are neither another
    opening line nor a timer. *)
Lemma sendWebhookNotification_effects data email environment w :
  exists result rest,
    sendWebhookNotification env data email environment w =
      (Returned result,
       {| trace := trace w ++ calling_line email :: rest; store := store w |})
    /\ is_nullish result = false
    /\ notifier_calls rest = 0%nat
    /\ timers rest = [].
Proof.
  rewrite sendWebhookNotification_run. cbv zeta. unfold after. cbn [trace store].
  destruct (is_nullish data).
  - eexists. eexists. split.
    + rewrite <- app_assoc. reflexivity.
    + repeat split; reflexivity.
  - destruct (post_answer env _ _ _ _ _).
    + eexists. eexists. split.
      * rewrite <- !app_assoc. reflexivity.
      * repeat split; reflexivity.
    + eexists. eexists. split.
      * rewrite <- !app_assoc. reflexivity.
      * repeat split; reflexivity.
Qed.

(** One pass through the [try] block of the loop. *)
Lemma retry_attempt_run data email retries environment attempt w :
  retry_attempt env data email retries environment attempt w =
  match sendWebhookNotification env data email (Some environment)
          (after (attempt_log (attempt + 1) retries email) w) with
  | (Returned result, w') =>
      if is_nullish result then (Returned (inr (read_error result "success")), w')
      else if succeeded result then (Returned (inl result), w')
      else (Returned (inr (prop result "error")), w')
  | (Thrown error, w') => (Returned (inr error), w')
  end.
Proof.
  unfold retry_attempt, attempt_log. unfold_monad.
  destruct (sendWebhookNotification env data email (Some environment) _)
    as [[result | error] w']; [| reflexivity].
  unfold succeeded, read_error.
  destruct (is_nullish result); [reflexivity |].
  unfold_monad. destruct (truthy (prop result "success")); [reflexivity |].
  destruct (is_nullish result); reflexivity.
Qed.

Lemma retry_loop_exit fuel data email retries delay environment attempt lastError w :
  retries <= attempt ->
  retry_loop env fuel data email retries delay environment attempt lastError w =
  (Returned (Some (retry_failure retries lastError)), w).
Proof.
  intros H. destruct fuel; cbn [retry_loop];
    (destruct (Z.ltb_spec attempt retries); [lia | reflexivity]).
Qed.

Lemma retry_loop_step fuel data email retries delay environment attempt lastError w :
  attempt < retries ->
  retry_loop env (S fuel) data email retries delay environment attempt lastError w =
  match retry_attempt env data email retries environment attempt w with
  | (Returned (inl result), w') => (Returned (Some result), w')
  | (Returned (inr lastError'), w') =>
      retry_loop env fuel data email retries delay environment (attempt + 1) lastError'
                 (after (SetTimeout delay) w')
  | (Thrown error, w') => (Thrown error, w')
  end.
Proof.
  intros H. cbn [retry_loop].
  destruct (Z.ltb_spec attempt retries); [| lia].
  unfold_monad.
  destruct (retry_attempt env data email retries environment attempt w)
    as [[[result | lastError'] | error] w']; reflexivity.
Qed.

End Retry.

Section RetryLoop.

Variable env : Env.
Variables (data email : JsValue) (retries delay : Z) (environment : Environment).

(** A failed attempt: the effects it adds and the [lastError] it leaves. *)
Lemma failed_attempt attempt w :
  notifier_succeeds env data email environment
    (after (attempt_log (attempt + 1) retries email) w) = false ->
  exists result rest,
    sendWebhookNotification env data email (Some environment)
      (after (attempt_log (attempt + 1) retries email) w) =
      (Returned result,
       {| trace := trace w ++ attempt_log (attempt + 1) retries email
                            :: calling_line email :: rest;
          store := store w |})
    /\ retry_attempt env data email retries environment attempt w =
       (Returned (inr (prop result "error")),
        {| trace := trace w ++ attempt_log (attempt + 1) retries email
                             :: calling_line email :: rest;
           store := store w |})
    /\ notifier_calls rest = 0%nat
    /\ timers rest = [].
Proof.
  intros Hfail. unfold notifier_succeeds in Hfail.
  destruct (sendWebhookNotification_effects env data email (Some environment)
              (after (attempt_log (attempt + 1) retries email) w))
    as (result & rest & Hrun & Hobj & Hcalls & Htimers).
  rewrite Hrun in Hfail. cbn [fst] in Hfail.
  unfold after in Hrun. cbn [trace store] in Hrun. rewrite <- app_assoc in Hrun.
  exists result, rest. repeat split; try assumption.
  rewrite retry_attempt_run. unfold after at 1. cbn [trace store].
  rewrite Hrun, Hobj, Hfail. reflexivity.
Qed.

(** The loop when no attempt succeeds: it runs [fuel = retries - attempt]
    times, each time calling the notifier once and then setting one timer of
    [delay], and returns the aggregated failure. *)
Lemma retry_loop_all_fail :
  (forall w0, notifier_succeeds env data email environment w0 = false) ->
  forall fuel attempt lastError w,
    fuel = Z.to_nat (retries - attempt) ->
    exists lastError' l,
      retry_loop env fuel data email retries delay environment attempt lastError w =
        (Returned (Some (retry_failure retries lastError')),
         {| trace := trace w ++ l; store := store w |})
      /\ notifier_calls l = fuel
      /\ timers l = repeat (SetTimeout delay) fuel
      /\ (fuel = 0%nat -> lastError' = lastError /\ l = [])
      /\ (fuel <> 0%nat ->
          last l = Some (SetTimeout delay)
          /\ exists w_last result w_next,
               sendWebhookNotification env data email (Some environment) w_last =
                 (Returned result, w_next)
               /\ lastError' = prop result "error"
               /\ {| trace := trace w ++ l; store := store w |} =
                  after (SetTimeout delay) w_next).
Proof.
  intros Hfail fuel. induction fuel as [| fuel IH]; intros attempt lastError w Hfuel.
  - exists lastError, []. rewrite retry_loop_exit by lia.
    rewrite app_nil_r. destruct w.
    split; [reflexivity |]. split; [reflexivity |]. split; [reflexivity |].
    split; [intros _; split; reflexivity | intros H; destruct (H eq_refl)].
  - assert (Hlt : attempt < retries) by lia.
    rewrite retry_loop_step by exact Hlt.
    destruct (failed_attempt attempt w (Hfail _))
      as (result & rest & Hsend & Hattempt & Hcalls & Htimers).
    rewrite Hattempt. unfold after. cbn [trace store].
    match goal with
    | |- context [retry_loop env fuel _ _ _ _ _ _ _ ?w1] =>
        destruct (IH (attempt + 1) (prop result "error") w1 ltac:(lia))
          as (lastError' & l & Hloop & Hcalls' & Htimers' & Hzero & Hpos)
    end.
    rewrite Hloop. cbn [trace store].
    exists lastError',
      (attempt_log (attempt + 1) retries email :: calling_line email :: rest
       ++ SetTimeout delay :: l).
    split.
    { f_equal. f_equal. rewrite <- !app_assoc. reflexivity. }
    split.
    { change (attempt_log (attempt + 1) retries email :: calling_line email :: rest
              ++ SetTimeout delay :: l)
        with ([attempt_log (attempt + 1) retries email; calling_line email]
              ++ (rest ++ [SetTimeout delay] ++ l)).
      rewrite !notifier_calls_app, Hcalls, Hcalls'. reflexivity. }
    split.
    { change (attempt_log (attempt + 1) retries email :: calling_line email :: rest
              ++ SetTimeout delay :: l)
        with ([attempt_log (attempt + 1) retries email; calling_line email]
              ++ (rest ++ [SetTimeout delay] ++ l)).
      rewrite !timers_app, Htimers, Htimers'. reflexivity. }
    split; [discriminate |].
    intros _. destruct fuel as [| fuel'].
    + destruct (Hzero eq_refl) as [-> ->]. split.
      * change (attempt_log (attempt + 1) retries email :: calling_line email :: rest
                ++ [SetTimeout delay])
          with (([attempt_log (attempt + 1) retries email; calling_line email] ++ rest)
                ++ [SetTimeout delay]).
        apply last_snoc.
      * eexists. exists result. eexists. split; [exact Hsend |].
        split; [reflexivity |]. unfold after. cbn [trace store].
        rewrite <- !app_assoc. reflexivity.
    + destruct (Hpos ltac:(discriminate))
        as [Hlast (w_last & result' & w_next & Hlast_send & Hlast_error & Hlast_world)].
      split.
      2:{ exists w_last, result', w_next. split; [exact Hlast_send |].
          split; [exact Hlast_error |]. unfold after in Hlast_world.
          rewrite <- Hlast_world. cbn [trace store].
          rewrite <- !app_assoc. reflexivity. }
      change (attempt_log (attempt + 1) retries email :: calling_line email :: rest
              ++ SetTimeout delay :: l)
        with ((attempt_log (attempt + 1) retries email :: calling_line email :: rest)
              ++ SetTimeout delay :: l).
      rewrite last_app, last_cons, Hlast. reflexivity.
Qed.

End RetryLoop.

Section RetryClaims.

Variable env : Env.

(** From what a call of the notifier returned, the effects it added. *)
Lemma notifier_added data email environment w result w' :
  sendWebhookNotification env data email environment w = (Returned result, w') ->
  exists rest,
    w' = {| trace := trace w ++ calling_line email :: rest; store := store w |}
    /\ is_nullish result = false
    /\ notifier_calls rest = 0%nat
    /\ timers rest = [].
Proof.
  intros Hrun.
  destruct (sendWebhookNotification_effects env data email environment w)
    as (result' & rest & Hrun' & Hobj & Hcalls & Htimers).
  rewrite Hrun' in Hrun. injection Hrun as <- <-. eauto.
Qed.

(** Two failures, then a success on the third attempt. *)
Lemma retry_third_attempt data email delay environment w r1 w1 r2 w2 r3 w3 :
  sendWebhookNotification env data email (Some environment)
    (after (attempt_log 1 3 email) w) = (Returned r1, w1) ->
  succeeded r1 = false ->
  sendWebhookNotification env data email (Some environment)
    (after (attempt_log 2 3 email) (after (SetTimeout delay) w1)) = (Returned r2, w2) ->
  succeeded r2 = false ->
  sendWebhookNotification env data email (Some environment)
    (after (attempt_log 3 3 email) (after (SetTimeout delay) w2)) = (Returned r3, w3) ->
  succeeded r3 = true ->
  retry_loop env 3 data email 3 delay environment 0 JUndefined w = (Returned (Some r3), w3)
  /\ notifier_calls (added w w3) = 3%nat.
Proof.
  intros H1 F1 H2 F2 H3 S3.
  destruct (notifier_added _ _ _ _ _ _ H1) as (rest1 & E1 & O1 & C1 & _).
  destruct (notifier_added _ _ _ _ _ _ H2) as (rest2 & E2 & O2 & C2 & _).
  destruct (notifier_added _ _ _ _ _ _ H3) as (rest3 & E3 & O3 & C3 & _).
  split.
  - rewrite retry_loop_step by lia. rewrite retry_attempt_run.
    change (0 + 1) with 1. rewrite H1, O1, F1.
    rewrite retry_loop_step by lia. rewrite retry_attempt_run.
    change (1 + 1) with 2. rewrite H2, O2, F2.
    rewrite retry_loop_step by lia. rewrite retry_attempt_run.
    change (2 + 1) with 3. rewrite H3, O3, S3. reflexivity.
  - rewrite (added_app w w3
               ([attempt_log 1 3 email; calling_line email] ++ rest1 ++
                [SetTimeout delay; attempt_log 2 3 email; calling_line email] ++ rest2 ++
                [SetTimeout delay; attempt_log 3 3 email; calling_line email] ++ rest3)).
    + rewrite !notifier_calls_app, C1, C2, C3. reflexivity.
    + rewrite E3, E2, E1. unfold after. cbn [trace store].
      rewrite <- !app_assoc. reflexivity.
Qed.

(** C3.  With [retries = 3], when the notifier reports failure on the first
    and on the second attempt and success on the third, [retryWebhook]
    returns that third result and has called the notifier exactly 3 times.
    When the notifier reports failure wherever it is called, [retryWebhook]
    with any [retries] returns an object with [success: false] whose [error]
    reads "Failed after <retries> attempts. Last error: <e>", [e] being the
    [error] of the result the notifier gave just before the last delay, and
    has called the notifier exactly [retries] times (no time for a count
    below 1). *)
Theorem retryWebhook_attempts
    (data email : JsValue) (delay : option Z) (environment : option Environment) :
  let e := default testing environment in
  let d := default 2000 delay in
  (forall w r1 w1 r2 w2 r3 w3,
      sendWebhookNotification env data email (Some e) (after (attempt_log 1 3 email) w)
        = (Returned r1, w1) ->
      succeeded r1 = false ->
      sendWebhookNotification env data email (Some e)
        (after (attempt_log 2 3 email) (after (SetTimeout d) w1)) = (Returned r2, w2) ->
      succeeded r2 = false ->
      sendWebhookNotification env data email (Some e)
        (after (attempt_log 3 3 email) (after (SetTimeout d) w2)) = (Returned r3, w3) ->
      succeeded r3 = true ->
      retryWebhook env data email (Some 3) delay environment w = (Returned (Some r3), w3)
      /\ notifier_calls (added w w3) = 3%nat)
  /\ (forall retries w,
      (forall w0, notifier_succeeds env data email e w0 = false) ->
      exists result lastError w',
        retryWebhook env data email (Some retries) delay environment w
          = (Returned (Some result), w')
        /\ prop result "success" = JBool false
        /\ prop result "error" =
           JString ("Failed after " +:+ string_of_Z retries +:+
                    " attempts. Last error: " +:+ to_string lastError)
        /\ Z.of_nat (notifier_calls (added w w')) = Z.max 0 retries
        /\ (0 < retries ->
            exists w_last r w_next,
              sendWebhookNotification env data email (Some e) w_last = (Returned r, w_next)
              /\ lastError = prop r "error"
              /\ w' = after (SetTimeout d) w_next)).
Proof.
  intros e d. split.
  - intros w r1 w1 r2 w2 r3 w3 H1 F1 H2 F2 H3 S3.
    unfold retryWebhook. cbn [default]. change (Z.to_nat 3) with 3%nat.
    exact (retry_third_attempt data email d e w r1 w1 r2 w2 r3 w3 H1 F1 H2 F2 H3 S3).
  - intros retries w Hfail.
    destruct (retry_loop_all_fail env data email retries d e Hfail
                (Z.to_nat retries) 0 JUndefined w ltac:(f_equal; lia))
      as (lastError & l & Hloop & Hcalls & _ & _ & Hpos).
    exists (retry_failure retries lastError), lastError,
      {| trace := trace w ++ l; store := store w |}.
    split; [exact Hloop |]. split; [reflexivity |]. split; [reflexivity |].
    split.
    + rewrite (added_app w _ l) by reflexivity. rewrite Hcalls. lia.
    + intros Hretries.
      destruct (Hpos ltac:(lia)) as [_ (w_last & r & w_next & Hsend & Herror & Hworld)].
      exists w_last, r, w_next. auto.
Qed.

(** A notifier that fails wherever it is called: one whose endpoint rejects
    every request. *)
Lemma rejecting_endpoint_fails data email environment :
  (forall h payload headers timeout,
      exists err, post_answer env h webhook_url payload headers timeout = Rejected err) ->
  forall w0, notifier_succeeds env data email environment w0 = false.
Proof.
  intros Hrejects w0. unfold notifier_succeeds.
  rewrite sendWebhookNotification_run. cbv zeta.
  destruct (is_nullish data); [reflexivity |].
  match goal with
  | |- context [post_answer env ?h webhook_url ?p ?hd ?t] =>
      destruct (Hrejects h p hd t) as [err ->]
  end.
  reflexivity.
Qed.


End RetryClaims.

Lemma offline_notifier_fails data email environment w0 :
  notifier_succeeds Samples.offline data email environment w0 = false.
Proof.
  apply rejecting_endpoint_fails. intros h payload headers timeout.
  exists Samples.bad_gateway. reflexivity.
Qed.

Lemma retryWebhook_attempts_witness :
  (fst (retryWebhook (Samples.flaky 2) Samples.ada Samples.ada_email
                     (Some 3) (Some 5) None Samples.fresh)
     = Returned (Some (notify_success Samples.accepted))
   /\ notifier_calls (trace (snd (retryWebhook (Samples.flaky 2) Samples.ada
                                    Samples.ada_email (Some 3) (Some 5) None
                                    Samples.fresh))) = 3%nat)
  /\ exists result,
       fst (retryWebhook Samples.offline Samples.ada Samples.ada_email
                         (Some 2) (Some 5) None Samples.fresh)
         = Returned (Some result)
       /\ prop result "error" =
          JString "Failed after 2 attempts. Last error: Request failed with status code 502".
Proof.
  split.
  - destruct (retryWebhook_attempts (Samples.flaky 2) Samples.ada Samples.ada_email
                (Some 5) None) as [Hthird _].
    edestruct (Hthird Samples.fresh) as [Hrun Hcalls].
    + vm_compute. reflexivity.
    + reflexivity.
    + vm_compute. reflexivity.
    + reflexivity.
    + vm_compute. reflexivity.
    + reflexivity.
    + rewrite Hrun. split; [reflexivity | exact Hcalls].
  - destruct (retryWebhook_attempts Samples.offline Samples.ada Samples.ada_email
                (Some 5) None) as [_ Hnone].
    destruct (Hnone 2 Samples.fresh (offline_notifier_fails _ _ _))
      as (result & lastError & w' & Hrun & _ & Herror & _).
    exists result. rewrite Hrun. split; [reflexivity |].
    clear Herror. vm_compute in Hrun. injection Hrun as <- _. reflexivity.
Defined.

(** The fuel [retryWebhook] gives its loop is enough: whatever the notifier
    does, the helper returns a result. *)
Lemma retry_loop_returns env data email retries delay environment :
  forall fuel attempt lastError w,
    fuel = Z.to_nat (retries - attempt) ->
    exists result w',
      retry_loop env fuel data email retries delay environment attempt lastError w =
      (Returned (Some result), w').
Proof.
  induction fuel as [| fuel IH]; intros attempt lastError w Hfuel.
  - rewrite retry_loop_exit by lia. eauto.
  - rewrite retry_loop_step by lia. rewrite retry_attempt_run.
    destruct (sendWebhookNotification_effects env data email (Some environment)
                (after (attempt_log (attempt + 1) retries email) w))
      as (result & rest & -> & -> & _).
    destruct (succeeded result); [eauto |].
    apply IH. lia.
Qed.

Lemma retryWebhook_returns env data email retries delay environment w :
  exists result w',
    retryWebhook env data email retries delay environment w = (Returned (Some result), w').
Proof.
  unfold retryWebhook. apply retry_loop_returns. f_equal. lia.
Qed.

(** C10.  When every attempt fails, [retryWebhook(data, email, n, d)] sets a
    timer of the full delay [d] after each of the [n] failed attempts, the
    last one included: the timers it sets are exactly [n] timers of [d], one
    per call of the notifier, and the last thing it does before it returns
    the aggregated failure is to wait for the [n]-th of them. *)
Theorem retryWebhook_waits_after_every_failure
    (env : Env) (data email : JsValue) (retries delay : Z)
    (environment : option Environment) (w : World) :
  (forall w0, notifier_succeeds env data email (default testing environment) w0 = false) ->
  exists result w',
    retryWebhook env data email (Some retries) (Some delay) environment w
      = (Returned (Some result), w')
    /\ succeeded result = false
    /\ timers (added w w') = repeat (SetTimeout delay) (Z.to_nat retries)
    /\ notifier_calls (added w w') = Z.to_nat retries
    /\ (0 < retries -> last (trace w') = Some (SetTimeout delay)).
Proof.
  intros Hfail.
  destruct (retry_loop_all_fail env data email retries delay
              (default testing environment) Hfail
              (Z.to_nat retries) 0 JUndefined w ltac:(f_equal; lia))
    as (lastError & l & Hloop & Hcalls & Htimers & _ & Hpos).
  exists (retry_failure retries lastError), {| trace := trace w ++ l; store := store w |}.
  split; [exact Hloop |]. split; [reflexivity |].
  rewrite (added_app w _ l) by reflexivity.
  split; [exact Htimers |]. split; [exact Hcalls |].
  intros Hretries. destruct (Hpos ltac:(lia)) as [Hlast _].
  cbn [trace]. rewrite last_app, Hlast. reflexivity.
Qed.

Lemma retryWebhook_waits_after_every_failure_witness :
  exists result w',
    retryWebhook Samples.offline Samples.ada Samples.ada_email (Some 2) (Some 5) None
                 Samples.fresh = (Returned (Some result), w')
    /\ succeeded result = false
    /\ timers (added Samples.fresh w') = [SetTimeout 5; SetTimeout 5]
    /\ notifier_calls (added Samples.fresh w') = 2%nat
    /\ (0 < 2 -> last (trace w') = Some (SetTimeout 5)).
Proof.
  apply (retryWebhook_waits_after_every_failure Samples.offline Samples.ada
           Samples.ada_email 2 5 None Samples.fresh).
  intros w0. apply offline_notifier_fails.
Defined.

(* ===================================================================== *)
(** ** The parser gateway *)
(* ===================================================================== *)

(** Reduces [added w w'] when the trace of [w'] extends the trace of [w]. *)
Ltac added_events :=
  unfold added; cbn [trace]; rewrite <- ?app_assoc; rewrite drop_app_length.

Section Gateway.

Variable env : Env.

Lemma isPythonServiceAvailable_run w :
  isPythonServiceAvailable env w =
  match get_answer env (trace w) health_url 2000 with
  | Fulfilled _ => (Returned true, after (HttpGet health_url 2000) w)
  | Rejected err =>
      (Returned false,
       after (Console LevelWarn [JString "Python service is not available:"; error_value err])
             (after (HttpGet health_url 2000) w))
  end.
Proof.
  unfold isPythonServiceAvailable, axios_get. unfold_monad.
  destruct (get_answer env (trace w) health_url 2000); reflexivity.
Qed.

(** What the [catch] of [sendUrlToPythonService] does with an axios error:
    it logs and returns null. *)
Lemma parse_failed_run (err : AxiosError) (w : World) :
  exists w',
    parse_failed (error_value err) w = (Returned JNull, w')
    /\ store w' = store w
    /\ parse_requests (added w w') = [].
Proof.
  unfold parse_failed, error_value. unfold_monad. cbn.
  destruct (ae_response err) as [r |]; cbn.
  - eexists. split; [reflexivity |]. split; [reflexivity |].
    added_events. reflexivity.
  - destruct (is_the_string (ae_code err) "ECONNRESET"); cbn.
    + eexists. split; [reflexivity |]. split; [reflexivity |].
      added_events. reflexivity.
    + eexists. split; [reflexivity |]. split; [reflexivity |].
      added_events. reflexivity.
Qed.

(** [sendUrlToPythonService] in closed form. *)
Lemma sendUrlToPythonService_run fileUrl w :
  sendUrlToPythonService env fileUrl w =
  match get_answer env (trace w) health_url 2000 with
  | Rejected err =>
      (Returned JNull,
       after (Console LevelWarn
                [JString "Skipping Python service call - service not available"])
         (after (Console LevelWarn [JString "Python service is not available:";
                                    error_value err])
            (after (HttpGet health_url 2000) w)))
  | Fulfilled _ =>
      let w1 := after (Console LevelLog [JString "Sending URL to Python service:";
                                         JString fileUrl])
                  (after (HttpGet health_url 2000) w) in
      let request := HttpPost parse_url (JObject [("url", JString fileUrl)]) [] 60000 in
      match post_answer env (trace w1) parse_url (JObject [("url", JString fileUrl)])
                        [] 60000 with
      | Fulfilled response =>
          (Returned (res_data response),
           after (Console LevelLog [JString "Python service response received"])
                 (after request w1))
      | Rejected err => parse_failed (error_value err) (after request w1)
      end
  end.
Proof.
  unfold sendUrlToPythonService. unfold bind at 1.
  rewrite isPythonServiceAvailable_run.
  destruct (get_answer env (trace w) health_url 2000) as [r | err]; cbn [negb].
  - unfold axios_post. unfold_monad.
    destruct (post_answer env _ _ _ _ _); reflexivity.
  - reflexivity.
Qed.

(** C8.  When the availability probe is rejected, [sendUrlToPythonService]
    returns null after the probe and two warnings, without any request to
    the parse endpoint.  When the probe answers and the parse request is
    rejected, with or without a response and whatever its code (a timeout, a
    status outside 2xx, a reset connection), it returns null as well.  In no
    case does it throw. *)
Theorem parse_degrades_to_null (fileUrl : string) (w : World) :
  (forall err,
      get_answer env (trace w) health_url 2000 = Rejected err ->
      exists w',
        sendUrlToPythonService env fileUrl w = (Returned JNull, w')
        /\ added w w' =
           [HttpGet health_url 2000;
            Console LevelWarn [JString "Python service is not available:"; error_value err];
            Console LevelWarn [JString "Skipping Python service call - service not available"]]
        /\ parse_requests (added w w') = [])
  /\ (forall r err,
      get_answer env (trace w) health_url 2000 = Fulfilled r ->
      post_answer env
        (trace w ++ [HttpGet health_url 2000;
                     Console LevelLog [JString "Sending URL to Python service:";
                                       JString fileUrl]])
        parse_url (JObject [("url", JString fileUrl)]) [] 60000 = Rejected err ->
      exists w', sendUrlToPythonService env fileUrl w = (Returned JNull, w'))
  /\ (exists v w', sendUrlToPythonService env fileUrl w = (Returned v, w')).
Proof.
  split; [| split].
  - intros err Hprobe. rewrite sendUrlToPythonService_run, Hprobe.
    eexists. split; [reflexivity |].
    unfold after. split; added_events; reflexivity.
  - intros r err Hprobe Hparse. rewrite sendUrlToPythonService_run, Hprobe.
    cbv zeta. unfold after. cbn [trace store].
    rewrite <- !app_assoc. cbn [app]. rewrite Hparse.
    match goal with
    | |- context [parse_failed (error_value err) ?w1] =>
        destruct (parse_failed_run err w1) as (w' & Hrun & _)
    end.
    exists w'. exact Hrun.
  - rewrite sendUrlToPythonService_run.
    destruct (get_answer env (trace w) health_url 2000) as [r | err]; [| eauto].
    cbv zeta. destruct (post_answer env _ _ _ _ _) as [response | err]; [eauto |].
    match goal with
    | |- context [parse_failed (error_value err) ?w1] =>
        destruct (parse_failed_run err w1) as (w' & Hrun & _)
    end.
    eauto.
Qed.

End Gateway.

Lemma parse_degrades_to_null_witness :
  (exists w',
      sendUrlToPythonService Samples.offline "https://cv-bucket/cv.pdf" Samples.fresh
        = (Returned JNull, w')
      /\ parse_requests (added Samples.fresh w') = [])
  /\ fst (sendUrlToPythonService Samples.parser_failing "https://cv-bucket/cv.pdf"
                                  Samples.fresh) = Returned JNull.
Proof.
  split.
  - destruct (parse_degrades_to_null Samples.offline "https://cv-bucket/cv.pdf"
                Samples.fresh) as [Hprobe _].
    destruct (Hprobe Samples.timed_out eq_refl) as (w' & Hrun & _ & Hnone).
    exists w'. split; assumption.
  - match goal with
    | |- fst (sendUrlToPythonService ?e ?u ?w) = _ =>
        destruct (parse_degrades_to_null e u w) as [_ [Hparse _]]
    end.
    destruct (Hparse Samples.accepted Samples.bad_gateway eq_refl eq_refl) as (w' & Hrun).
    rewrite Hrun. reflexivity.
Defined.

(* ===================================================================== *)
(** ** The submission endpoint *)
(* ===================================================================== *)

Section Submission.

Import Applications.

Variable env : Env.

(** C4.  A submission whose form lacks [name], [email], [phone] or [cv] is
    answered with status 400 and the body [{error: "Missing required
    fields"}], and the world is left exactly as it was: no effect is
    performed (no log line, no upload, no request to the parser or to the
    webhook, no store access) and the store holds the records it held. *)
Theorem missing_field_rejected (request : NextRequest) (form : FormData) (w : World) :
  formData request = Returned form ->
  form_name form = None \/ form_email form = None \/
  form_phone form = None \/ form_cv form = None ->
  POST env request w =
  (Returned {| status := 400;
               body := JObject [("error", JString "Missing required fields")] |},
   w).
Proof.
  intros Hform Hmissing. unfold POST. unfold_monad. rewrite Hform.
  destruct (form_cv form) as [cvFile |]; [| reflexivity].
  destruct Hmissing as [-> | [-> | [-> | Hcv]]]; cbn [given negb orb];
    try reflexivity; try discriminate.
  - destruct (given (form_name form)); reflexivity.
  - destruct (given (form_name form)), (given (form_email form)); reflexivity.
Qed.

(** An empty text field is refused like a missing one. *)
Lemma empty_field_rejected (request : NextRequest) (form : FormData) (w : World) :
  formData request = Returned form ->
  given (form_name form) && given (form_email form) && given (form_phone form) = false ->
  POST env request w = (Returned missing_fields, w).
Proof.
  intros Hform Hmissing. unfold POST. unfold_monad. rewrite Hform.
  destruct (form_cv form) as [cvFile |]; [| reflexivity].
  destruct (given (form_name form)), (given (form_email form)),
    (given (form_phone form)); try discriminate; reflexivity.
Qed.

End Submission.

Lemma missing_field_rejected_witness :
  Applications.POST (Samples.healthy JNull) (Samples.submission None) Samples.fresh =
  (Returned {| status := 400;
               body := JObject [("error", JString "Missing required fields")] |},
   Samples.fresh).
Proof.
  eapply missing_field_rejected.
  - reflexivity.
  - cbn. right. right. left. reflexivity.
Defined.

(* ===================================================================== *)
(** ** The resend endpoint *)
(* ===================================================================== *)

Lemma get_opt_run v k w :
  get_opt v k w = (Returned (if is_nullish v then JUndefined else prop v k), w).
Proof. unfold get_opt, get. destruct (is_nullish v); reflexivity. Qed.

Lemma assoc_assoc_set k v ps : assoc k (assoc_set k v ps) = Some v.
Proof.
  induction ps as [| [k' v'] ps IH]; cbn.
  - rewrite String.eqb_refl. reflexivity.
  - destruct (String.eqb k k') eqn:Hk; cbn.
    + rewrite String.eqb_refl. reflexivity.
    + rewrite Hk. exact IH.
Qed.

Lemma assoc_assoc_set_ne k k' v ps :
  k <> k' -> assoc k (assoc_set k' v ps) = assoc k ps.
Proof.
  intros Hk. induction ps as [| [k0 v0] ps IH]; cbn.
  - destruct (String.eqb_spec k k'); [contradiction | reflexivity].
  - destruct (String.eqb_spec k' k0) as [-> | Hk0]; cbn.
    + destruct (String.eqb_spec k k0); [contradiction | reflexivity].
    + destruct (String.eqb k k0); [reflexivity | exact IH].
Qed.

Lemma assoc_default_array_ne ps k k' :
  k <> k' -> assoc k (default_array ps k') = assoc k ps.
Proof.
  intros Hk. unfold default_array.
  destruct (assoc k' ps) as [[] |]; try reflexivity; apply assoc_assoc_set_ne; exact Hk.
Qed.

(** A path that is not one of the arrays reads the same through the
    document. *)
Lemma document_path parsedResume k :
  ~ In k array_paths ->
  (if is_nullish (document_parsedResume parsedResume) then JUndefined
   else prop (document_parsedResume parsedResume) k) =
  (if is_nullish parsedResume then JUndefined else prop parsedResume k).
Proof.
  intros Hk.
  assert (Hne : forall k', In k' array_paths -> k <> k') by (intros k' Hin ->; auto).
  pose proof (Hne "employment" ltac:(cbn; auto)) as H1.
  pose proof (Hne "technicalSkills" ltac:(cbn; auto)) as H2.
  pose proof (Hne "softSkills" ltac:(cbn; auto)) as H3.
  pose proof (Hne "education" ltac:(cbn; auto)) as H4.
  destruct parsedResume as [| | | | | | ps |]; try reflexivity.
  - cbn. apply String.eqb_neq in H1, H2, H3, H4. rewrite H1, H2, H3, H4. reflexivity.
  - cbn [document_parsedResume is_nullish prop array_paths fold_left].
    rewrite !assoc_default_array_ne by assumption. reflexivity.
Qed.

Lemma assoc_default_array ps k :
  assoc k (default_array ps k) =
  Some (match default JUndefined (assoc k ps) with
        | JUndefined => JArray []
        | v => v
        end).
Proof.
  unfold default_array.
  destruct (assoc k ps) as [v |] eqn:Hk; cbn [default].
  - destruct v; try exact Hk; apply assoc_assoc_set.
  - apply assoc_assoc_set.
Qed.

(** An array path reads through the document as the empty array when the
    value has none. *)
Lemma document_array parsedResume k :
  is_nullish parsedResume = false ->
  In k array_paths ->
  prop (document_parsedResume parsedResume) k =
  match parsedResume with
  | JObject _ => match prop parsedResume k with
                 | JUndefined => JArray []
                 | v => v
                 end
  | _ => prop parsedResume k
  end.
Proof.
  intros Hobj Hk. destruct parsedResume as [| | | | | | ps |]; try reflexivity;
    try discriminate Hobj.
  cbn [document_parsedResume prop array_paths fold_left].
  destruct Hk as [<- | [<- | [<- | [<- | []]]]];
    repeat (rewrite assoc_default_array_ne by discriminate);
    rewrite assoc_default_array;
    repeat (rewrite assoc_default_array_ne by discriminate);
    reflexivity.
Qed.

Lemma document_not_nullish parsedResume :
  is_nullish parsedResume = false -> is_nullish (document_parsedResume parsedResume) = false.
Proof. destruct parsedResume; cbn; congruence. Qed.


Section Resend.

Import ResendWebhook.

Variable env : Env.

(** The fallback [data] of the route when the record has no raw data. *)
Definition minimal_data (application : Application) : JsValue :=
  JObject [("fullName", JString (app_name application));
           ("email", JString (app_email application));
           ("cvUrl", JString (cv_url (app_cv application)))].

(** Building [data] performs no effect and does not throw. *)
Lemma notification_data_returns (application : Application) w :
  exists data, notification_data env application w = (Returned data, w).
Proof.
  unfold notification_data. cbn [hydrate doc_parsedResume record_of]. unfold bind at 1. rewrite get_opt_run.
  rewrite document_path by (cbn; intuition discriminate).
  destruct (truthy _); [| unfold ret; eauto].
  unfold try_catch.
  assert (Hinner : exists o,
             bind (parse_if_string env
                     (if is_nullish (app_parsedResume application) then JUndefined
                      else prop (app_parsedResume application) "rawData"))
                  (fun data => set_property data "cvUrl"
                                 (JString (cv_url (app_cv application)))) w = (o, w)).
  { unfold bind, parse_if_string, ret.
    destruct (if is_nullish (app_parsedResume application) then JUndefined
              else prop (app_parsedResume application) "rawData") as [| | | | s | | |];
      try (eexists; reflexivity).
    destruct (JSON_parse env s) as [v | e]; [| eexists; reflexivity].
    destruct v; eexists; reflexivity. }
  destruct Hinner as [[data | e] ->]; [eauto |].
  unfold bind. rewrite !get_opt_run. unfold ret. eauto.
Qed.

Lemma notification_data_minimal (application : Application) w :
  is_nullish (app_parsedResume application) = true ->
  notification_data env application w = (Returned (minimal_data application), w).
Proof.
  intros Hnone. unfold notification_data. cbn [hydrate doc_parsedResume record_of]. unfold bind at 1.
  rewrite get_opt_run. rewrite document_path by (cbn; intuition discriminate).
  rewrite Hnone. reflexivity.
Qed.

(** The record the route saves, and its answer, once the notifier returned. *)
Definition resent_record (application : Application) (webhookResult : JsValue) (t : Z)
  : Application :=
  touch t (record_webhook (prop webhookResult "success") webhookResult application).

(** The route in closed form when the store is reached and holds the record. *)
Lemma POST_found id w (application : Application) data webhookResult w4 :
  connect_answer env (trace w) = None ->
  find_answer env (trace w ++ [DbConnect]) id = None ->
  store w !! id = Some application ->
  notification_data env application (after (DbFindById id) (after DbConnect w))
    = (Returned data, after (DbFindById id) (after DbConnect w)) ->
  sendWebhookNotification env data (JString (app_email application)) (Some prod)
    (after (DbFindById id) (after DbConnect w)) = (Returned webhookResult, w4) ->
  let doc := resent_record application webhookResult (Date_now env (trace w4)) in
  POST env id w =
  match save_answer env (trace w4) id doc with
  | None =>
      (Returned (resent webhookResult),
       {| trace := trace w4 ++ [DbSave id doc]; store := <[id := doc]> (store w4) |})
  | Some error =>
      (Returned (NextResponse_json (JObject [("error", JString "Error resending webhook")])
                                   (Some 500)),
       after (Console LevelError [JString "Error resending webhook:"; error])
             (after (DbSave id doc) w4))
  end.
Proof.
  intros Hconnect Hfind Hstored Hdata Hsend doc.
  destruct (notifier_added env _ _ _ _ _ _ Hsend) as (rest & Hw4 & Hobj & _).
  unfold POST, dbConnect, Application_findById, application_save.
  unfold_monad. rewrite Hconnect. cbn [trace store]. rewrite Hfind, Hstored.
  cbn [fmap option_fmap option_map hydrate record_of].
  unfold after in Hdata, Hsend. cbn [trace store] in Hdata, Hsend.
  rewrite Hdata, Hsend, Hobj. cbn [trace store].
  fold doc. unfold resent_record in doc. fold doc.
  destruct (save_answer env (trace w4) id doc); reflexivity.
Qed.

Lemma webhook_bodies_app l1 l2 :
  webhook_bodies (l1 ++ l2) = webhook_bodies l1 ++ webhook_bodies l2.
Proof. apply flat_map_app. Qed.

(** C7.  For a stored record without [parsedResume] (null or undefined)
    that the store returns, the route builds the notification input as the
    object of exactly the three fields [fullName], [email] and [cvUrl], taken
    from the record's [name], [email] and [cv.url]; it calls the notifier on
    that object once, saves the record with the notifier's result, and the
    one payload posted to the webhook is the payload of that object. *)
Theorem resend_without_parsedResume (id : string) (w : World) (application : Application) :
  is_nullish (app_parsedResume application) = true ->
  connect_answer env (trace w) = None ->
  find_answer env (trace w ++ [DbConnect]) id = None ->
  store w !! id = Some application ->
  let data := JObject [("fullName", JString (app_name application));
                       ("email", JString (app_email application));
                       ("cvUrl", JString (cv_url (app_cv application)))] in
  let email := JString (app_email application) in
  let w2 := after (DbFindById id) (after DbConnect w) in
  notification_data env application w2 = (Returned data, w2)
  /\ exists webhookResult w4 l,
       sendWebhookNotification env data email (Some prod) w2 = (Returned webhookResult, w4)
       /\ trace (snd (POST env id w)) =
          trace w4 ++
          DbSave id (resent_record application webhookResult (Date_now env (trace w4))) :: l
       /\ webhook_bodies (added w (snd (POST env id w))) =
          [build_payload data email prod (Date_now env (trace w2 ++ [calling_line email]))].
Proof.
  intros Hnone Hconnect Hfind Hstored data email w2.
  pose proof (notification_data_minimal application w2 Hnone) as Hdata.
  split; [exact Hdata |].
  destruct (sendWebhookNotification_effects env data email (Some prod) w2)
    as (webhookResult & rest & Hsend & _).
  pose proof (posted_by_run env data email (Some prod) w2) as Hposted.
  unfold posted_by in Hposted. rewrite Hsend in Hposted. cbn [snd is_nullish data] in Hposted.
  rewrite (added_app w2 _ (calling_line email :: rest)) in Hposted by reflexivity.
  rewrite (POST_found id w application data webhookResult _ Hconnect Hfind Hstored
             Hdata Hsend).
  cbv zeta. clear Hdata.
  exists webhookResult. eexists.
  assert (Hbodies : forall tl,
             webhook_bodies tl = [] ->
             webhook_bodies (DbConnect :: DbFindById id :: calling_line email :: rest ++ tl) =
             [build_payload data email prod
                (Date_now env (trace w2 ++ [calling_line email]))]).
  { intros tl Htl.
    change (DbConnect :: DbFindById id :: calling_line email :: rest ++ tl)
      with ([DbConnect; DbFindById id] ++ (calling_line email :: rest) ++ tl).
    rewrite !webhook_bodies_app, Hposted, Htl. reflexivity. }
  destruct (save_answer env _ id _) as [error |]; cbn [snd trace store].
  - eexists. split; [exact Hsend |]. unfold after. cbn [trace store]. split.
    + rewrite <- app_assoc. reflexivity.
    + rewrite <- (Hbodies [DbSave id (resent_record application webhookResult
                             (Date_now env (trace w2 ++ calling_line email :: rest)));
                           Console LevelError [JString "Error resending webhook:"; error]]
                    eq_refl).
      f_equal. unfold w2, after. added_events. reflexivity.
  - eexists. split; [exact Hsend |]. split.
    + reflexivity.
    + rewrite <- (Hbodies [DbSave id (resent_record application webhookResult
                             (Date_now env (trace w2 ++ calling_line email :: rest)))]
                    eq_refl).
      f_equal. unfold w2, after. added_events. reflexivity.
Qed.

(** C9.  When the store is reached, returns the record, and accepts the
    final save, the route answers with status 200 and the body
    [{success: true, message: "Webhook resent successfully", webhookResult}]
    whatever the notifier returned: a result with [success: false] appears
    under [webhookResult] only, and changes neither the status nor the
    top-level [success]. *)
Theorem resend_reports_success
    (id : string) (w : World) (application : Application)
    (data webhookResult : JsValue) (w4 : World) :
  connect_answer env (trace w) = None ->
  find_answer env (trace w ++ [DbConnect]) id = None ->
  store w !! id = Some application ->
  notification_data env application (after (DbFindById id) (after DbConnect w))
    = (Returned data, after (DbFindById id) (after DbConnect w)) ->
  sendWebhookNotification env data (JString (app_email application)) (Some prod)
    (after (DbFindById id) (after DbConnect w)) = (Returned webhookResult, w4) ->
  save_answer env (trace w4) id
    (resent_record application webhookResult (Date_now env (trace w4))) = None ->
  fst (POST env id w) =
  Returned {| status := 200;
              body := JObject [("success", JBool true);
                               ("message", JString "Webhook resent successfully");
                               ("webhookResult", webhookResult)] |}.
Proof.
  intros Hconnect Hfind Hstored Hdata Hsend Hsave.
  rewrite (POST_found id w application data webhookResult w4 Hconnect Hfind Hstored
             Hdata Hsend).
  cbv zeta. rewrite Hsave. reflexivity.
Qed.

End Resend.

Lemma resend_without_parsedResume_witness :
  let data := JObject [("fullName", JString "Ada Lovelace");
                       ("email", JString "ada@example.com");
                       ("cvUrl", JString "https://cv-bucket.s3.eu-west-1.amazonaws.com/applications/1-cv.pdf")] in
  webhook_bodies (added Samples.stored
                    (snd (ResendWebhook.POST (Samples.healthy JNull) "a1" Samples.stored))) =
  [build_payload data (JString "ada@example.com") prod 3].
Proof.
  destruct (resend_without_parsedResume (Samples.healthy JNull) "a1" Samples.stored
              Samples.plain_application eq_refl eq_refl eq_refl eq_refl)
    as [_ (webhookResult & w4 & l & _ & _ & Hposted)].
  exact Hposted.
Defined.

(** The webhook endpoint is down: the notifier reports failure, the route
    still answers 200 with [success: true]. *)
Lemma resend_reports_success_witness :
  exists webhookResult,
    succeeded webhookResult = false
    /\ fst (ResendWebhook.POST Samples.offline "a1" Samples.stored) =
       Returned {| status := 200;
                   body := JObject [("success", JBool true);
                                    ("message", JString "Webhook resent successfully");
                                    ("webhookResult", webhookResult)] |}.
Proof.
  eexists. split.
  2:{ eapply (resend_reports_success Samples.offline "a1" Samples.stored
                Samples.plain_application).
      - reflexivity.
      - reflexivity.
      - reflexivity.
      - vm_compute. reflexivity.
      - vm_compute. reflexivity.
      - reflexivity. }
  reflexivity.
Defined.

(* ===================================================================== *)
(** ** The submission endpoint: enrichment that cannot be projected *)
(* ===================================================================== *)

(** What the projection step of [POST] throws on the payload [raw], if it
    throws: [JSON.parse] rejects a text, or the parsed value is null and the
    first property read of the projection fails. *)
Definition projection_error (env : Env) (raw : JsValue) : option JsValue :=
  match raw with
  | JString s =>
      match JSON_parse env s with
      | Thrown error => Some error
      | Returned parsedData =>
          if is_nullish parsedData then Some (read_error parsedData "fullName") else None
      end
  | _ => if is_nullish raw then Some (read_error raw "fullName") else None
  end.


Section Enrichment.

Import Applications.

Variable env : Env.



(** The document [POST] saves: what [new Application] builds from the
    fields and the [parsedResume] the route passes. *)
Definition submitted (name email phone : string) (cvFile : File) (fileUrl : string)
    (pythonResponse parsedResume webhookResult : JsValue) (t : Z) : Application :=
  {| app_name := set_name name;
     app_email := set_email email;
     app_phone := set_phone phone;
     app_cv := {| cv_fileName := file_name cvFile;
                  cv_fileType := file_type cvFile;
                  cv_fileSize := file_size cvFile;
                  cv_url := fileUrl;
                  cv_pythonAnalysis := pythonResponse |};
     app_parsedResume := document_parsedResume parsedResume;
     app_status := pending;
     app_webhookSent := js_or (prop webhookResult "success") (JBool false);
     app_webhookResponse := webhookResult;
     app_notes := None;
     app_createdAt := t;
     app_updatedAt := t |}.


End Enrichment.



Section Projection.

Import Applications.

Variable env : Env.


End Projection.

(** The two ways the projection step throws: a text that is not JSON, and a
    text that parses to null. *)
Example projection_error_samples :
  projection_error (Samples.healthy JNull) (JString "not json")
    = Some (JError "SyntaxError" "Unexpected token in JSON" [])
  /\ projection_error (Samples.healthy JNull) (JString "null")
    = Some (TypeError "Cannot read properties of null (reading 'fullName')")
  /\ projection_error (Samples.healthy JNull) (JObject [("fullName", JString "Ada")])
    = None.
Proof. repeat split; reflexivity. Qed.

(* ===================================================================== *)
(** ** Computations that only add to the trace *)
(* ===================================================================== *)

(** [m] leaves the store alone and only appends effects, whatever it returns
    or throws. *)
Definition appends {A} (m : M A) : Prop :=
  forall w o w', m w = (o, w') -> store w' = store w /\ exists l, trace w' = trace w ++ l.

Lemma appends_ret {A} (a : A) : appends (ret a).
Proof. intros w o w' H. injection H as <- <-. split; [reflexivity |]. exists []. symmetry. apply app_nil_r. Qed.

Lemma appends_throw {A} (e : JsValue) : appends (@throw A e).
Proof. intros w o w' H. injection H as <- <-. split; [reflexivity |]. exists []. symmetry. apply app_nil_r. Qed.

Lemma appends_emit ev : appends (emit ev).
Proof. intros w o w' H. injection H as <- <-. split; [reflexivity |]. exists [ev]. reflexivity. Qed.

Lemma appends_bind {A B} (m : M A) (k : A -> M B) :
  appends m -> (forall a, appends (k a)) -> appends (bind m k).
Proof.
  intros Hm Hk w o w' H. unfold bind in H.
  destruct (m w) as [[a | e] w1] eqn:Hrun.
  - destruct (Hm _ _ _ Hrun) as [Hs [l1 Ht]]. destruct (Hk a _ _ _ H) as [Hs' [l2 Ht']].
    split; [congruence |]. exists (l1 ++ l2). rewrite Ht', Ht, app_assoc. reflexivity.
  - injection H as <- <-. exact (Hm _ _ _ Hrun).
Qed.

Lemma appends_try_catch {A} (m : M A) (h : JsValue -> M A) :
  appends m -> (forall e, appends (h e)) -> appends (try_catch m h).
Proof.
  intros Hm Hh w o w' H. unfold try_catch in H.
  destruct (m w) as [[a | e] w1] eqn:Hrun.
  - injection H as <- <-. exact (Hm _ _ _ Hrun).
  - destruct (Hm _ _ _ Hrun) as [Hs [l1 Ht]]. destruct (Hh e _ _ _ H) as [Hs' [l2 Ht']].
    split; [congruence |]. exists (l1 ++ l2). rewrite Ht', Ht, app_assoc. reflexivity.
Qed.

Lemma appends_if {A} (b : bool) (m1 m2 : M A) :
  appends m1 -> appends m2 -> appends (if b then m1 else m2).
Proof. destruct b; auto. Qed.

Lemma appends_get v k : appends (get v k).
Proof. unfold get. apply appends_if; [apply appends_throw | apply appends_ret]. Qed.

Lemma appends_get_opt v k : appends (get_opt v k).
Proof. unfold get_opt. apply appends_if; [apply appends_ret | apply appends_get]. Qed.

Lemma appends_pure {A} (f : World -> Outcome A) : appends (fun w => (f w, w)).
Proof. intros w o w' H. injection H as <- <-. split; [reflexivity |]. exists []. symmetry. apply app_nil_r. Qed.

Ltac appends_step :=
  first
    [ apply appends_ret | apply appends_throw | apply appends_emit
    | apply appends_get | apply appends_get_opt
    | apply appends_bind; [| intros ? ]
    | apply appends_try_catch; [| intros ? ]
    | apply appends_if ].

Ltac appends_auto :=
  unfold console_log, console_warn, console_error, sleep; repeat appends_step.

Section Appends.

Variable env : Env.

Lemma appends_now : appends (now env).
Proof. apply (appends_pure (fun w => Returned (Date_now env (trace w)))). Qed.

Lemma appends_axios_get url timeout : appends (axios_get env url timeout).
Proof.
  intros w o w' H. unfold axios_get in H. revert H.
  apply appends_bind; [apply appends_emit |]. intros _.
  destruct (get_answer env (trace w) url timeout); [apply appends_ret | apply appends_throw].
Qed.

Lemma appends_axios_post url body headers timeout :
  appends (axios_post env url body headers timeout).
Proof.
  intros w o w' H. unfold axios_post in H. revert H.
  apply appends_bind; [apply appends_emit |]. intros _.
  destruct (post_answer env (trace w) url body headers timeout);
    [apply appends_ret | apply appends_throw].
Qed.

Lemma appends_s3Client_send command : appends (s3Client_send env command).
Proof.
  intros w o w' H. unfold s3Client_send in H. revert H.
  apply appends_bind; [apply appends_emit |]. intros _.
  destruct (s3_answer env (trace w) command); [apply appends_throw | apply appends_ret].
Qed.

Lemma appends_dbConnect : appends (dbConnect env).
Proof.
  intros w o w' H. unfold dbConnect in H. revert H.
  apply appends_bind; [apply appends_emit |]. intros _.
  destruct (connect_answer env (trace w)); [apply appends_throw | apply appends_ret].
Qed.

Lemma appends_findById id : appends (Application_findById env id).
Proof.
  intros w o w' H. unfold Application_findById, bind, emit in H.
  destruct (find_answer env (trace w) id); injection H as <- <-;
    (split; [reflexivity | exists [DbFindById id]; reflexivity]).
Qed.

Lemma appends_sendWebhookNotification data email environment :
  appends (sendWebhookNotification env data email environment).
Proof.
  unfold sendWebhookNotification, webhook_payload. appends_auto;
    first [apply appends_now | apply appends_axios_post].
Qed.

Lemma appends_retry_loop data email retries delay environment :
  forall fuel attempt lastError,
    appends (retry_loop env fuel data email retries delay environment attempt lastError).
Proof.
  induction fuel as [| fuel IH]; intros attempt lastError; cbn [retry_loop].
  - appends_auto.
  - apply appends_if; [| apply appends_ret].
    apply appends_bind.
    + unfold retry_attempt.
      apply appends_try_catch; [| intros e; apply appends_ret].
      apply appends_bind; [apply appends_emit | intros _].
      apply appends_bind; [apply appends_sendWebhookNotification | intros result].
      appends_auto.
    + intros [result | lastError']; [apply appends_ret |].
      apply appends_bind; [apply appends_emit | intros _; apply IH].
Qed.

Lemma appends_retryWebhook data email retries delay environment :
  appends (retryWebhook env data email retries delay environment).
Proof. apply appends_retry_loop. Qed.

Lemma appends_isPythonServiceAvailable : appends (isPythonServiceAvailable env).
Proof. unfold isPythonServiceAvailable. appends_auto. apply appends_axios_get. Qed.

Lemma appends_sendUrlToPythonService fileUrl : appends (sendUrlToPythonService env fileUrl).
Proof.
  unfold sendUrlToPythonService, parse_failed.
  apply appends_bind; [apply appends_isPythonServiceAvailable | intros available].
  appends_auto; apply appends_axios_post.
Qed.

Lemma appends_uploadFile file fileName sendToPython :
  appends (uploadFile env file fileName sendToPython).
Proof.
  unfold uploadFile. apply appends_if; [apply appends_throw |].
  apply appends_try_catch.
  - apply appends_bind.
    + destruct file; [apply appends_ret | apply appends_ret | apply appends_throw].
    + intros converted.
      apply appends_bind; [apply appends_now | intros t].
      apply appends_bind; [apply appends_s3Client_send | intros _].
      apply appends_bind; [| intros pythonResponse; apply appends_ret].
      apply appends_if; [| apply appends_ret].
      apply appends_try_catch; [apply appends_sendUrlToPythonService |].
      intros error. appends_auto.
  - intros error. appends_auto.
Qed.

End Appends.

(* ===================================================================== *)
(** ** Further properties of the notifier and of the retry helper *)
(* ===================================================================== *)

(** What a call of the notifier may do: write to the console, and post to the
    webhook endpoint with the candidate header and the 10 s timeout. *)
Definition notifier_effect (email : JsValue) (ev : Event) : Prop :=
  match ev with
  | Console _ _ => True
  | HttpPost u _ headers timeout =>
      u = webhook_url /\ headers = webhook_headers email /\ timeout = 10000
  | _ => False
  end.

Section NotifierProperties.

Variable env : Env.

(** X1.  [sendWebhookNotification] never throws and never touches the store.
    Its only effects are console lines and at most one POST, sent to the
    fixed webhook URL with the [X-Candidate-Email] header holding [email] and
    a timeout of 10000 ms; on a [data] that is undefined or null it posts
    nothing and reports failure. *)
Theorem notifier_contained (data email : JsValue) (environment : option Environment)
    (w : World) :
  exists result l,
    sendWebhookNotification env data email environment w =
      (Returned result, {| trace := trace w ++ l; store := store w |})
    /\ Forall (notifier_effect email) l
    /\ (length (webhook_bodies l) <= 1)%nat
    /\ (is_nullish data = true -> webhook_bodies l = [] /\ succeeded result = false).
Proof.
  rewrite sendWebhookNotification_run. cbv zeta. unfold after. cbn [trace store].
  destruct (is_nullish data).
  - eexists. eexists. split; [rewrite <- app_assoc; reflexivity |].
    split; [repeat constructor |]. split; [cbn; lia |]. intros _. split; reflexivity.
  - destruct (post_answer env _ _ _ _ _).
    + eexists. eexists. split; [rewrite <- !app_assoc; reflexivity |].
      split; [repeat constructor |]. split; [cbn; lia | discriminate].
    + eexists. eexists. split; [rewrite <- !app_assoc; reflexivity |].
      split; [repeat constructor |]. split; [cbn; lia | discriminate].
Qed.

(** X2.  For a [data] with properties the result mirrors the answer of the
    endpoint: a fulfilled POST gives [{success: true, status, data}] with the
    status and body of the response; a rejected one gives [{success: false,
    error, details}] with the message of the rejection and the body of its
    response, [details] being undefined when there was no response. *)
Theorem notifier_reports_endpoint (data email : JsValue)
    (environment : option Environment) (w : World) :
  is_nullish data = false ->
  let h := trace w ++ [calling_line email] in
  let payload := build_payload data email (default testing environment) (Date_now env h) in
  match post_answer env h webhook_url payload (webhook_headers email) 10000 with
  | Fulfilled r =>
      fst (sendWebhookNotification env data email environment w) =
      Returned (JObject [("success", JBool true);
                         ("status", JNumber (res_status r));
                         ("data", res_data r)])
  | Rejected err =>
      fst (sendWebhookNotification env data email environment w) =
      Returned (JObject [("success", JBool false);
                         ("error", JString (ae_message err));
                         ("details", match ae_response err with
                                     | Some r => res_data r
                                     | None => JUndefined
                                     end)])
  end.
Proof.
  intros Hdata h payload. rewrite sendWebhookNotification_run. cbv zeta.
  rewrite Hdata. unfold after. cbn [trace store]. fold h. fold payload.
  destruct (post_answer env h webhook_url payload (webhook_headers email) 10000)
    as [r | err]; [reflexivity |].
  cbn [fst]. unfold notify_failure, error_value. cbn.
  destruct (ae_response err); reflexivity.
Qed.

End NotifierProperties.

Lemma notifier_reports_endpoint_witness :
  fst (sendWebhookNotification Samples.offline Samples.ada Samples.ada_email None
                               Samples.fresh) =
  Returned (JObject [("success", JBool false);
                     ("error", JString "Request failed with status code 502");
                     ("details", JString "Bad Gateway")]).
Proof.
  exact (notifier_reports_endpoint Samples.offline Samples.ada Samples.ada_email None
           Samples.fresh eq_refl).
Defined.

Section RetryProperties.

Variable env : Env.
Variables (data email : JsValue) (retries delay : Z) (environment : Environment).

(** Whatever the notifier does, the loop returns; it calls the notifier at
    most [fuel] times, waits once after each failure, and does not wait after
    the success that ends it. *)
Lemma retry_loop_bounds :
  forall fuel attempt lastError w,
    fuel = Z.to_nat (retries - attempt) ->
    exists result l,
      retry_loop env fuel data email retries delay environment attempt lastError w =
        (Returned (Some result), {| trace := trace w ++ l; store := store w |})
      /\ (notifier_calls l <= fuel)%nat
      /\ Forall (fun ev => ev = SetTimeout delay) (timers l)
      /\ (succeeded result = true -> S (length (timers l)) = notifier_calls l)
      /\ (succeeded result = false ->
          length (timers l) = fuel /\ notifier_calls l = fuel).
Proof.
  induction fuel as [| fuel IH]; intros attempt lastError w Hfuel.
  - exists (retry_failure retries lastError), []. rewrite retry_loop_exit by lia.
    rewrite app_nil_r. destruct w.
    split; [reflexivity |]. split; [reflexivity |]. split; [constructor |].
    split; [discriminate | intros _; split; reflexivity].
  - rewrite retry_loop_step by lia. rewrite retry_attempt_run.
    destruct (sendWebhookNotification_effects env data email (Some environment)
                (after (attempt_log (attempt + 1) retries email) w))
      as (result & rest & -> & -> & Hcalls & Htimers).
    unfold after. cbn [trace store].
    destruct (succeeded result) eqn:Hok.
    + exists result, (attempt_log (attempt + 1) retries email :: calling_line email :: rest).
      split; [rewrite <- app_assoc; reflexivity |].
      change (attempt_log (attempt + 1) retries email :: calling_line email :: rest)
        with ([attempt_log (attempt + 1) retries email; calling_line email] ++ rest).
      rewrite notifier_calls_app, timers_app, Hcalls, Htimers.
      change (notifier_calls [attempt_log (attempt + 1) retries email; calling_line email])
        with 1%nat.
      change (timers [attempt_log (attempt + 1) retries email; calling_line email])
        with (@nil Event).
      cbn [app length].
      split; [lia |]. split; [constructor |].
      split; [intros _; reflexivity | congruence].
    + match goal with
      | |- context [retry_loop env fuel _ _ _ _ _ _ _ ?w1] =>
          destruct (IH (attempt + 1) (prop result "error") w1 ltac:(lia))
            as (final & l & Hloop & Hle & Hall & Hsucc & Hfail)
      end.
      rewrite Hloop. cbn [trace store].
      exists final,
        (([attempt_log (attempt + 1) retries email; calling_line email] ++ rest)
         ++ [SetTimeout delay] ++ l).
      split; [f_equal; f_equal; rewrite <- !app_assoc; reflexivity |].
      rewrite !notifier_calls_app, !timers_app, Hcalls, Htimers.
      change (notifier_calls [SetTimeout delay]) with 0%nat.
      change (timers [SetTimeout delay]) with [SetTimeout delay].
      change (notifier_calls [attempt_log (attempt + 1) retries email; calling_line email])
        with 1%nat.
      change (timers [attempt_log (attempt + 1) retries email; calling_line email])
        with (@nil Event).
      cbn [app length]. split; [lia |].
      split; [constructor; [reflexivity | exact Hall] |].
      split.
      * intros Hfinal. specialize (Hsucc Hfinal). lia.
      * intros Hfinal. destruct (Hfail Hfinal) as [-> ->]. split; reflexivity.
Qed.

End RetryProperties.

Section RetryExtras.

Variable env : Env.

(** X3.  Whatever the notifier does, [retryWebhook] returns a result, leaves
    the store alone, and calls the notifier at most [retries] times.  Every
    timer it sets is one of [delay].  When the result it returns is a
    success, it waited once after each earlier failure and not after the
    success; when it is a failure, every one of the [retries] attempts was
    made and followed by a wait. *)
Theorem retryWebhook_bounds (data email : JsValue) (retries delay : Z)
    (environment : option Environment) (w : World) :
  exists result l,
    retryWebhook env data email (Some retries) (Some delay) environment w =
      (Returned (Some result), {| trace := trace w ++ l; store := store w |})
    /\ (Z.of_nat (notifier_calls l) <= Z.max 0 retries)
    /\ Forall (fun ev => ev = SetTimeout delay) (timers l)
    /\ (succeeded result = true -> S (length (timers l)) = notifier_calls l)
    /\ (succeeded result = false ->
        length (timers l) = Z.to_nat retries /\ notifier_calls l = Z.to_nat retries).
Proof.
  destruct (retry_loop_bounds env data email retries delay (default testing environment)
              (Z.to_nat retries) 0 JUndefined w ltac:(f_equal; lia))
    as (result & l & Hloop & Hle & Hall & Hsucc & Hfail).
  exists result, l. split; [exact Hloop |]. split; [lia |]. auto.
Qed.

(** X4.  When the first attempt succeeds, [retryWebhook] returns its result
    at once: one call of the notifier and no timer. *)
Theorem retryWebhook_first_success (data email : JsValue) (retries : Z)
    (delay : option Z) (environment : option Environment) (w : World)
    (result : JsValue) (w1 : World) :
  0 < retries ->
  sendWebhookNotification env data email (Some (default testing environment))
    (after (attempt_log 1 retries email) w) = (Returned result, w1) ->
  succeeded result = true ->
  retryWebhook env data email (Some retries) delay environment w
    = (Returned (Some result), w1)
  /\ notifier_calls (added w w1) = 1%nat
  /\ timers (added w w1) = [].
Proof.
  intros Hretries Hsend Hok.
  destruct (notifier_added env _ _ _ _ _ _ Hsend) as (rest & Hw1 & Hobj & Hcalls & Htimers).
  change (retryWebhook env data email (Some retries) delay environment)
    with (retry_loop env (Z.to_nat retries) data email retries (default 2000 delay)
            (default testing environment) 0 JUndefined).
  destruct (Z.to_nat retries) as [| fuel] eqn:Hfuel; [lia |].
  rewrite retry_loop_step by lia. rewrite retry_attempt_run.
  change (0 + 1) with 1. rewrite Hsend, Hobj, Hok.
  split; [reflexivity |].
  rewrite (added_app w w1 ([attempt_log 1 retries email; calling_line email] ++ rest)).
  - rewrite notifier_calls_app, timers_app, Hcalls, Htimers. split; reflexivity.
  - rewrite Hw1. unfold after. cbn [trace]. rewrite <- app_assoc. reflexivity.
Qed.

(** X5.  With [retries] zero or negative, [retryWebhook] does nothing: it
    never calls the notifier, sets no timer, and returns the failure whose
    message ends in [Last error: undefined]. *)
Theorem retryWebhook_no_attempt (data email : JsValue) (retries : Z)
    (delay : option Z) (environment : option Environment) (w : World) :
  retries <= 0 ->
  retryWebhook env data email (Some retries) delay environment w =
  (Returned (Some (JObject
     [("success", JBool false);
      ("error", JString ("Failed after " +:+ string_of_Z retries +:+
                         " attempts. Last error: undefined"))])),
   w).
Proof.
  intros Hretries.
  change (retryWebhook env data email (Some retries) delay environment)
    with (retry_loop env (Z.to_nat retries) data email retries (default 2000 delay)
            (default testing environment) 0 JUndefined).
  rewrite retry_loop_exit by lia. reflexivity.
Qed.

End RetryExtras.

Lemma retryWebhook_first_success_witness :
  fst (retryWebhook (Samples.healthy JNull) Samples.ada Samples.ada_email (Some 3) None None
                    Samples.fresh) = Returned (Some (notify_success Samples.accepted))
  /\ timers (trace (snd (retryWebhook (Samples.healthy JNull) Samples.ada Samples.ada_email
                                      (Some 3) None None Samples.fresh))) = [].
Proof.
  edestruct (retryWebhook_first_success (Samples.healthy JNull) Samples.ada
               Samples.ada_email 3 None None Samples.fresh) as (Hrun & _ & Htimers).
  - reflexivity.
  - vm_compute. reflexivity.
  - reflexivity.
  - rewrite Hrun. split; [reflexivity | exact Htimers].
Defined.

Lemma retryWebhook_no_attempt_witness :
  retryWebhook Samples.offline Samples.ada Samples.ada_email (Some 0) None None
               Samples.fresh =
  (Returned (Some (JObject
     [("success", JBool false);
      ("error", JString "Failed after 0 attempts. Last error: undefined")])),
   Samples.fresh).
Proof.
  apply (retryWebhook_no_attempt Samples.offline Samples.ada Samples.ada_email 0 None None
           Samples.fresh).
  lia.
Defined.

(* ===================================================================== *)
(** ** Further properties of the parser gateway *)
(* ===================================================================== *)

Section GatewayExtras.

Variable env : Env.

(** X6.  [isPythonServiceAvailable] never throws: it sends one GET to the
    health endpoint with a timeout of 2000 ms and returns whether that
    request was fulfilled; a rejection only adds a warning. *)
Theorem probe_reports_health (w : World) :
  exists l,
    isPythonServiceAvailable env w =
      (Returned (match get_answer env (trace w) health_url 2000 with
                 | Fulfilled _ => true
                 | Rejected _ => false
                 end),
       {| trace := trace w ++ HttpGet health_url 2000 :: l; store := store w |})
    /\ Forall (fun ev => match ev with Console LevelWarn _ => True | _ => False end) l.
Proof.
  rewrite isPythonServiceAvailable_run.
  destruct (get_answer env (trace w) health_url 2000).
  - exists []. split; [reflexivity | constructor].
  - eexists [_]. unfold after. cbn [trace store]. split.
    + rewrite <- app_assoc. reflexivity.
    + repeat constructor.
Qed.

(** X7.  When the probe and the parse request are both fulfilled,
    [sendUrlToPythonService] returns the body of the parse response, and the
    parse endpoint received exactly one request: a POST of [{url: fileUrl}]
    with a timeout of 60000 ms, sent after the probe. *)
Theorem parse_returns_response_body (fileUrl : string) (w : World)
    (probe response : AxiosResponse) :
  get_answer env (trace w) health_url 2000 = Fulfilled probe ->
  post_answer env
    (trace w ++ [HttpGet health_url 2000;
                 Console LevelLog [JString "Sending URL to Python service:";
                                   JString fileUrl]])
    parse_url (JObject [("url", JString fileUrl)]) [] 60000 = Fulfilled response ->
  exists w',
    sendUrlToPythonService env fileUrl w = (Returned (res_data response), w')
    /\ store w' = store w
    /\ parse_requests (added w w') =
       [HttpPost parse_url (JObject [("url", JString fileUrl)]) [] 60000].
Proof.
  intros Hprobe Hparse. rewrite sendUrlToPythonService_run, Hprobe.
  cbv zeta. unfold after. cbn [trace store].
  rewrite <- !app_assoc. cbn [app]. rewrite Hparse.
  eexists. split; [reflexivity |]. split; [reflexivity |].
  unfold added. cbn [trace]. rewrite drop_app_length. reflexivity.
Qed.

End GatewayExtras.

Lemma parse_returns_response_body_witness :
  fst (sendUrlToPythonService (Samples.healthy (JObject [("parsed_data", JString "{}")]))
                              "https://cv-bucket/cv.pdf" Samples.fresh)
  = Returned (JObject [("parsed_data", JString "{}")]).
Proof.
  edestruct (parse_returns_response_body
               (Samples.healthy (JObject [("parsed_data", JString "{}")]))
               "https://cv-bucket/cv.pdf" Samples.fresh) as (w' & Hrun & _).
  - reflexivity.
  - reflexivity.
  - rewrite Hrun. reflexivity.
Defined.

(* ===================================================================== *)
(** ** Further properties of the upload *)
(* ===================================================================== *)

(** The bytes and the content type [uploadFile] sends for a supported file. *)
Definition upload_body (file : FileInput) : list Byte.byte :=
  match file with
  | IsBuffer bytes | HasArrayBuffer bytes _ => bytes
  | Unsupported => []
  end.

Definition upload_content_type (file : FileInput) : string :=
  match file with
  | HasArrayBuffer _ type => type_or type octet_stream
  | _ => octet_stream
  end.

Definition supported (file : FileInput) : bool :=
  match file with Unsupported => false | _ => true end.

(** The command [uploadFile] sends when the clock reads [t]. *)
Definition upload_command (env : Env) (file : FileInput) (fileName : string) (t : Z)
  : PutObjectCommand :=
  {| Bucket := to_string (process_env env "AWS_S3_BUCKET_NAME");
     Key := "applications/" +:+ string_of_Z t +:+ "-" +:+ fileName;
     Body := upload_body file;
     ContentType := upload_content_type file;
     ACL := "public-read" |}.

(** The public URL of the object stored under [key]. *)
Definition object_url (env : Env) (key : string) : string :=
  "https://" +:+ to_string (process_env env "AWS_S3_BUCKET_NAME") +:+ ".s3." +:+
  to_string (process_env env "AWS_REGION") +:+ ".amazonaws.com/" +:+ key.

(** The message of the error [uploadFile] throws for the failure [error]. *)
Definition upload_failure (error : JsValue) : JsValue :=
  new_Error ("Failed to upload file: " +:+
             match error with
             | JError name message _ => name +:+ ": " +:+ message
             | _ => "Unknown error"
             end).

Section UploadProperties.

Variable env : Env.

Lemma sendUrlToPythonService_returns fileUrl w :
  exists v w', sendUrlToPythonService env fileUrl w = (Returned v, w').
Proof.
  rewrite sendUrlToPythonService_run.
  destruct (get_answer env (trace w) health_url 2000) as [r | err]; [| eauto].
  cbv zeta. destruct (post_answer env _ _ _ _ _) as [response | err]; [eauto |].
  match goal with
  | |- context [parse_failed (error_value err) ?w1] =>
      destruct (parse_failed_run err w1) as (w' & Hrun & _)
  end.
  eauto.
Qed.

(** [uploadFile] in closed form for a configured bucket and a supported file. *)
Lemma uploadFile_run file fileName sendToPython w :
  truthy (process_env env "AWS_S3_BUCKET_NAME") = true ->
  supported file = true ->
  let command := upload_command env file fileName (Date_now env (trace w)) in
  let fileUrl := object_url env (Key command) in
  let w1 := after (S3Send command) w in
  uploadFile env file fileName sendToPython w =
  match s3_answer env (trace w) command with
  | Some error =>
      (Thrown (upload_failure error),
       after (Console LevelError [JString "Error uploading to S3:"; error]) w1)
  | None =>
      if sendToPython then
        (Returned (fileUrl, match fst (sendUrlToPythonService env fileUrl w1) with
                            | Returned v => v
                            | Thrown _ => JNull
                            end),
         snd (sendUrlToPythonService env fileUrl w1))
      else (Returned (fileUrl, JNull), w1)
  end.
Proof.
  intros Hbucket Hfile command fileUrl w1.
  unfold uploadFile. rewrite Hbucket. cbn [negb].
  unfold s3Client_send.
  destruct file as [bytes | bytes type |]; [| | discriminate];
    unfold_monad; cbn [fst snd];
    unfold command, upload_command in *; cbn [upload_body upload_content_type Key] in *;
    (destruct (s3_answer env (trace w) _) as [error |]; [reflexivity |]);
    (destruct sendToPython; [| reflexivity]);
    unfold fileUrl, object_url, w1, after; cbn [Key];
    match goal with
    | |- context [sendUrlToPythonService env ?u ?w0] =>
        destruct (sendUrlToPythonService_returns u w0) as (v & w' & Hrun)
    end;
    rewrite Hrun; reflexivity.
Qed.

(** X8.  When the object storage rejects the upload, [uploadFile] throws an
    [Error] whose message is [Failed to upload file: ] followed by the name
    and message of the rejection (or [Unknown error] when it is no [Error]),
    and it has sent nothing but the one S3 command: the Python service is
    neither probed nor called, even when enrichment was asked for. *)
Theorem upload_rejected_by_storage (file : FileInput) (fileName : string)
    (sendToPython : bool) (w : World) (error : JsValue) :
  truthy (process_env env "AWS_S3_BUCKET_NAME") = true ->
  supported file = true ->
  let command := upload_command env file fileName (Date_now env (trace w)) in
  s3_answer env (trace w) command = Some error ->
  exists w',
    uploadFile env file fileName sendToPython w = (Thrown (upload_failure error), w')
    /\ store w' = store w
    /\ added w w' = [S3Send command;
                     Console LevelError [JString "Error uploading to S3:"; error]].
Proof.
  intros Hbucket Hfile command Hs3.
  rewrite (uploadFile_run file fileName sendToPython w Hbucket Hfile). cbv zeta.
  fold command. rewrite Hs3. eexists. split; [reflexivity |]. split; [reflexivity |].
  unfold after. added_events. reflexivity.
Qed.

(** X9.  When the object storage accepts the upload, [uploadFile] returns,
    whatever the Python service does.  The URL it returns is
    [https://<bucket>.s3.<region>.amazonaws.com/<key>] for the key
    [applications/<clock>-<fileName>] of the command it sent, which is
    public-read and carries the declared type of the file, or
    [application/octet-stream] for a buffer or an empty type.  Without
    enrichment the S3 command is its only effect and [pythonResponse] is
    null. *)
Theorem upload_accepted (file : FileInput) (fileName : string)
    (sendToPython : bool) (w : World) :
  truthy (process_env env "AWS_S3_BUCKET_NAME") = true ->
  supported file = true ->
  let command := upload_command env file fileName (Date_now env (trace w)) in
  s3_answer env (trace w) command = None ->
  exists pythonResponse l,
    uploadFile env file fileName sendToPython w =
      (Returned (object_url env ("applications/" +:+ string_of_Z (Date_now env (trace w))
                                 +:+ "-" +:+ fileName),
                 pythonResponse),
       {| trace := trace w ++ S3Send command :: l; store := store w |})
    /\ ACL command = "public-read"
    /\ ContentType command = upload_content_type file
    /\ (sendToPython = false -> pythonResponse = JNull /\ l = []).
Proof.
  intros Hbucket Hfile command Hs3.
  rewrite (uploadFile_run file fileName sendToPython w Hbucket Hfile). cbv zeta.
  fold command. rewrite Hs3.
  destruct sendToPython.
  - pose proof (appends_sendUrlToPythonService env
                  (object_url env (Key command)) (after (S3Send command) w)) as Happ.
    destruct (sendUrlToPythonService env (object_url env (Key command))
                (after (S3Send command) w)) as [o w'] eqn:Hrun.
    destruct (Happ _ _ eq_refl) as [Hstore [l Htrace]].
    eexists. exists l. cbn [fst snd]. split.
    + f_equal. destruct w'. unfold after in Htrace, Hstore.
      cbn [trace store] in *. rewrite Htrace, Hstore.
      rewrite <- app_assoc. reflexivity.
    + repeat split; discriminate.
  - exists JNull, []. repeat split.
Qed.

End UploadProperties.

Lemma upload_rejected_by_storage_witness :
  let env := {| JSON_parse := Samples.parse;
                process_env := Samples.variables;
                Date_now := fun h => Z.of_nat (length h);
                get_answer := fun _ _ _ => Fulfilled Samples.accepted;
                post_answer := fun _ _ _ _ _ => Fulfilled Samples.accepted;
                s3_answer := fun _ _ => Some (JError "AccessDenied" "Access Denied" []);
                connect_answer := fun _ => None;
                find_answer := fun _ _ => None;
                save_answer := fun _ _ _ => None;
                new_ObjectId := fun _ => "id" |} in
  fst (uploadFile env (IsBuffer []) "cv.pdf" true Samples.fresh) =
  Thrown (new_Error "Failed to upload file: AccessDenied: Access Denied").
Proof.
  intros env.
  edestruct (upload_rejected_by_storage env (IsBuffer []) "cv.pdf" true Samples.fresh)
    as (w' & Hrun & _).
  - reflexivity.
  - reflexivity.
  - reflexivity.
  - rewrite Hrun. reflexivity.
Defined.

Lemma upload_accepted_witness :
  uploadFile (Samples.healthy JNull) (HasArrayBuffer [] (Some "")) "cv.pdf" false
             Samples.fresh =
  (Returned ("https://cv-bucket.s3.eu-west-1.amazonaws.com/applications/0-cv.pdf", JNull),
   {| trace := [S3Send {| Bucket := "cv-bucket";
                          Key := "applications/0-cv.pdf";
                          Body := [];
                          ContentType := "application/octet-stream";
                          ACL := "public-read" |}];
      store := ∅ |}).
Proof.
  edestruct (upload_accepted (Samples.healthy JNull) (HasArrayBuffer [] (Some ""))
               "cv.pdf" false Samples.fresh) as (r & l & Hrun & _ & _ & Hplain).
  - reflexivity.
  - reflexivity.
  - reflexivity.
  - destruct (Hplain eq_refl) as [-> ->]. rewrite Hrun. reflexivity.
Defined.

(* ===================================================================== *)
(** ** Further properties of the submission endpoint *)
(* ===================================================================== *)

Lemma appends_parse_if_string env v : appends (parse_if_string env v).
Proof.
  destruct v; try apply appends_ret.
  apply (appends_pure (fun _ => JSON_parse env s)).
Qed.

Lemma appends_new_Application env init : appends (new_Application env init).
Proof.
  intros w o w' H. unfold new_Application in H. injection H as <- <-.
  split; [reflexivity |]. exists []. symmetry. apply app_nil_r.
Qed.

(** A route computation: it only appends effects; it answers 201 after
    writing exactly one document, under the id it returns, as its last
    effect; otherwise it answers 400 or 500, or throws, and leaves the store
    as it was. *)
Definition answers (m : M NextResponse) : Prop :=
  forall w o w',
    m w = (o, w') ->
    (exists l, trace w' = trace w ++ l)
    /\ match o with
       | Returned response =>
           (status response = 201
            /\ exists id doc,
                 store w' = <[id := doc]> (store w)
                 /\ prop (body response) "applicationId" = JString id
                 /\ last (trace w') = Some (DbSave id doc))
           \/ ((status response = 400 \/ status response = 500)
               /\ store w' = store w)
       | Thrown _ => store w' = store w
       end.

Lemma answers_refusal (response : NextResponse) :
  status response = 400 \/ status response = 500 -> answers (ret response).
Proof.
  intros Hstatus w o w' H. injection H as <- <-.
  split; [exists []; symmetry; apply app_nil_r |]. right. auto.
Qed.

Lemma answers_bind {A} (m : M A) (k : A -> M NextResponse) :
  appends m -> (forall a, answers (k a)) -> answers (bind m k).
Proof.
  intros Hm Hk w o w' H. unfold bind in H.
  destruct (m w) as [[a | e] w1] eqn:Hrun.
  - destruct (Hm _ _ _ Hrun) as [Hs [l1 Ht]].
    destruct (Hk a _ _ _ H) as [[l2 Ht'] Ho].
    split; [exists (l1 ++ l2); rewrite Ht', Ht, app_assoc; reflexivity |].
    rewrite <- Hs. exact Ho.
  - injection H as <- <-. destruct (Hm _ _ _ Hrun) as [Hs Ht]. auto.
Qed.

Lemma answers_try_catch (m : M NextResponse) (h : JsValue -> M NextResponse) :
  answers m -> (forall e, answers (h e)) -> answers (try_catch m h).
Proof.
  intros Hm Hh w o w' H. unfold try_catch in H.
  destruct (m w) as [[a | e] w1] eqn:Hrun.
  - injection H as <- <-. exact (Hm _ _ _ Hrun).
  - destruct (Hm _ _ _ Hrun) as [[l1 Ht] Hs].
    destruct (Hh e _ _ _ H) as [[l2 Ht'] Ho].
    split; [exists (l1 ++ l2); rewrite Ht', Ht, app_assoc; reflexivity |].
    cbn in Hs. rewrite <- Hs. exact Ho.
Qed.

Lemma answers_if (b : bool) (m1 m2 : M NextResponse) :
  answers m1 -> answers m2 -> answers (if b then m1 else m2).
Proof. destruct b; auto. Qed.

(** Saving and then answering 201 with the id. *)
Lemma answers_save env id application (rest : list (string * JsValue)) :
  answers (bind (application_save env id application)
             (fun _ => ret (NextResponse_json
                              (JObject (("success", JBool true)
                                        :: ("message", JString "Application submitted successfully")
                                        :: ("applicationId", JString id) :: rest))
                              (Some 201)))).
Proof.
  intros w o w' H. unfold bind, application_save, emit, ret in H.
  destruct (save_answer env (trace w) id _) as [error |].
  - injection H as <- <-. cbn [trace store]. split; [eexists; reflexivity | reflexivity].
  - injection H as <- <-. cbn [trace store]. split; [eexists; reflexivity |].
    left. split; [reflexivity |]. eexists. eexists.
    split; [reflexivity |]. split; [reflexivity |]. apply last_snoc.
Qed.

Section SubmissionProperties.

Import Applications.

Variable env : Env.

Lemma appends_upload file fileName : appends (upload env file fileName).
Proof.
  unfold upload. apply appends_try_catch.
  - apply appends_bind; [apply appends_uploadFile | intros result]. appends_auto.
  - intros uploadError. apply appends_bind.
    + unfold message_includes. apply appends_bind; [apply appends_get | intros message].
      destruct message; first [apply appends_ret | apply appends_throw].
    + intros python. apply appends_if; [| apply appends_throw].
      apply appends_bind; [apply appends_emit | intros _].
      apply appends_bind; [apply appends_uploadFile | intros result; apply appends_ret].
Qed.

Lemma appends_process_parsed_data pythonResponse email fileUrl :
  appends (process_parsed_data env pythonResponse email fileUrl).
Proof.
  unfold process_parsed_data.
  apply appends_bind; [apply appends_get | intros raw].
  apply appends_try_catch.
  - apply appends_bind; [apply appends_parse_if_string | intros parsedData].
    apply appends_bind; [apply appends_get | intros fullName].
    apply appends_bind; [apply appends_sendWebhookNotification | intros webhookResult].
    appends_auto.
  - intros parseError.
    apply appends_bind; [apply appends_emit | intros _].
    apply appends_bind; [| intros webhookResult; apply appends_ret].
    apply appends_try_catch; [apply appends_sendWebhookNotification |].
    intros webhookError. appends_auto.
Qed.

Lemma POST_answers request : answers (POST env request).
Proof.
  unfold POST. apply answers_try_catch.
  - apply answers_bind; [apply (appends_pure (fun _ => formData request)) | intros form].
    destruct (form_cv form) as [cvFile |];
      [| apply answers_refusal; left; reflexivity].
    apply answers_if; [apply answers_refusal; left; reflexivity |].
    apply answers_bind; [apply appends_emit | intros _].
    apply answers_try_catch.
    + apply answers_bind; [apply appends_upload | intros uploaded].
      apply answers_bind; [apply appends_dbConnect | intros _].
      apply answers_bind;
        [apply appends_if; [apply appends_get | apply appends_ret] | intros parsed_data].
      apply answers_bind;
        [apply appends_if; [apply appends_process_parsed_data | apply appends_ret]
        | intros processed].
      apply answers_bind; [apply appends_get_opt | intros success].
      intros w o w' H. unfold bind at 1 in H. unfold new_Application at 1 in H.
      cbn [fst snd] in H. revert H. apply answers_save.
    + intros uploadError.
      apply answers_bind; [apply appends_emit | intros _].
      apply answers_refusal. right. reflexivity.
  - intros error.
    apply answers_bind; [apply appends_emit | intros _].
    apply answers_refusal. right. reflexivity.
Qed.

(** X11.  The submission endpoint never throws: every request is answered,
    with status 201, 400 or 500.  It answers 201 only after writing one
    document to the store, under the [applicationId] it returns and as its
    last effect; with any other status the store holds exactly the records
    it held before the request. *)
Theorem submission_answers_and_persists_once (request : NextRequest) (w : World) :
  exists response w',
    POST env request w = (Returned response, w')
    /\ ((status response = 201
         /\ exists id doc,
              store w' = <[id := doc]> (store w)
              /\ prop (body response) "applicationId" = JString id
              /\ last (trace w') = Some (DbSave id doc))
        \/ ((status response = 400 \/ status response = 500)
            /\ store w' = store w)).
Proof.
  destruct (POST env request w) as [o w'] eqn:Hrun.
  destruct (POST_answers request _ _ _ Hrun) as [_ Ho].
  assert (Hreturns : exists response, o = Returned response).
  { unfold POST, try_catch in Hrun.
    match type of Hrun with
    | context [match ?m w with _ => _ end] => destruct (m w) as [[response | error] w1]
    end.
    - injection Hrun as <- _. eauto.
    - unfold bind, console_error, emit, ret in Hrun. injection Hrun as <- _. eauto. }
  destruct Hreturns as [response ->]. eauto.
Qed.

End SubmissionProperties.


Section SubmissionPaths.

Import Applications.

Variable env : Env.

(** The answer of the route when the save is rejected with [error]. *)
Definition processing_failed (error : JsValue) : NextResponse :=
  NextResponse_json
    (JObject [("error", JString ("Error processing application: " +:+
                                 match error with
                                 | JError _ message _ => message
                                 | _ => to_string error
                                 end))])
    (Some 500).




(** X13.  A failure before the record is built is answered with status 500
    and [Error processing application: ] followed by the message of the
    error, after one console line and nothing else: when the upload throws,
    the store is not even contacted; when the connection to the store
    throws, the file has been uploaded and no record refers to it. *)
Theorem submission_fails_before_record
    (request : NextRequest) (form : FormData) (cvFile : File) (w : World) :
  formData request = Returned form ->
  given (form_name form) = true ->
  given (form_email form) = true ->
  given (form_phone form) = true ->
  form_cv form = Some cvFile ->
  let name := text (form_name form) in
  let email := text (form_email form) in
  let phone := text (form_phone form) in
  let run_upload :=
    upload env (HasArrayBuffer (file_bytes cvFile) (Some (file_type cvFile)))
           (file_name cvFile) (after (Console LevelLog (received name email phone cvFile)) w) in
  let failed error w' :=
    (Returned (processing_failed error),
     after (Console LevelError [JString "Error during file upload or database operation:";
                                error]) w') in
  (forall error w1,
      run_upload = (Thrown error, w1) -> POST env request w = failed error w1)
  /\ (forall uploaded w1 error w2,
      run_upload = (Returned uploaded, w1) ->
      dbConnect env w1 = (Thrown error, w2) ->
      POST env request w = failed error w2).
Proof.
  intros Hform Hname Hemail Hphone Hcv name email phone run_upload failed.
  split.
  - intros error w1 Hupload. unfold run_upload in Hupload.
    unfold POST. unfold bind at 1. unfold try_catch at 1.
    rewrite Hform, Hcv, Hname, Hemail, Hphone.
    cbn [negb orb]. fold name email phone.
    unfold bind at 1. unfold console_log at 1. unfold emit at 1.
    unfold try_catch at 1. unfold bind at 1.
    unfold after in Hupload. rewrite Hupload. reflexivity.
  - intros uploaded w1 error w2 Hupload Hconnect. unfold run_upload in Hupload.
    unfold POST. unfold bind at 1. unfold try_catch at 1.
    rewrite Hform, Hcv, Hname, Hemail, Hphone.
    cbn [negb orb]. fold name email phone.
    unfold bind at 1. unfold console_log at 1. unfold emit at 1.
    unfold try_catch at 1. unfold bind at 1.
    unfold after in Hupload. rewrite Hupload.
    unfold bind at 1. rewrite Hconnect. reflexivity.
Qed.

End SubmissionPaths.

(** Collaborators with one part out of order. *)
Module Outages.

Definition access_denied : JsValue := JError "AccessDenied" "Access Denied" [].
Definition unreachable : JsValue := JError "MongoNetworkError" "connect ECONNREFUSED" [].
Definition invalid : JsValue := JError "ValidationError" "Application validation failed" [].

(** The object storage rejects every command. *)
Definition storage_down : Env :=
  {| JSON_parse := Samples.parse;
     process_env := Samples.variables;
     Date_now := fun h => Z.of_nat (length h);
     get_answer := fun _ _ _ => Fulfilled Samples.accepted;
     post_answer := fun _ _ _ _ _ => Fulfilled Samples.accepted;
     s3_answer := fun _ _ => Some access_denied;
     connect_answer := fun _ => None;
     find_answer := fun _ _ => None;
     save_answer := fun _ _ _ => None;
     new_ObjectId := fun h => "id" +:+ string_of_Z (Z.of_nat (length h)) |}.

(** The document store cannot be reached. *)
Definition store_down : Env :=
  {| JSON_parse := Samples.parse;
     process_env := Samples.variables;
     Date_now := fun h => Z.of_nat (length h);
     get_answer := fun _ _ _ => Fulfilled Samples.accepted;
     post_answer := fun _ _ _ _ _ => Fulfilled Samples.accepted;
     s3_answer := fun _ _ => None;
     connect_answer := fun _ => Some unreachable;
     find_answer := fun _ _ => None;
     save_answer := fun _ _ _ => None;
     new_ObjectId := fun h => "id" +:+ string_of_Z (Z.of_nat (length h)) |}.

(** The document store rejects every save. *)
Definition save_refused : Env :=
  {| JSON_parse := Samples.parse;
     process_env := Samples.variables;
     Date_now := fun h => Z.of_nat (length h);
     get_answer := fun _ _ _ => Fulfilled Samples.accepted;
     post_answer := fun _ _ _ _ _ => Fulfilled Samples.accepted;
     s3_answer := fun _ _ => None;
     connect_answer := fun _ => None;
     find_answer := fun _ _ => None;
     save_answer := fun _ _ _ => Some invalid;
     new_ObjectId := fun h => "id" +:+ string_of_Z (Z.of_nat (length h)) |}.

End Outages.



Lemma submission_fails_before_record_witness :
  fst (Applications.POST Outages.storage_down (Samples.submission (Some "1234567890"))
                         Samples.fresh) =
  Returned {| status := 500;
              body := JObject
                [("error", JString "Error processing application: Failed to upload file: AccessDenied: Access Denied")] |}
  /\ fst (Applications.POST Outages.store_down (Samples.submission (Some "1234567890"))
                            Samples.fresh) =
     Returned {| status := 500;
                 body := JObject
                   [("error", JString "Error processing application: connect ECONNREFUSED")] |}.
Proof.
  split.
  - destruct (submission_fails_before_record Outages.storage_down
                (Samples.submission (Some "1234567890"))
                (Samples.form (Some "1234567890")) Samples.cv_file Samples.fresh
                eq_refl eq_refl eq_refl eq_refl eq_refl) as [Hupload _].
    erewrite Hupload; [| vm_compute; reflexivity]. reflexivity.
  - destruct (submission_fails_before_record Outages.store_down
                (Samples.submission (Some "1234567890"))
                (Samples.form (Some "1234567890")) Samples.cv_file Samples.fresh
                eq_refl eq_refl eq_refl eq_refl eq_refl) as [_ Hconnect].
    erewrite Hconnect; [| vm_compute; reflexivity | vm_compute; reflexivity].
    reflexivity.
Defined.

Section StructuredPath.

Import Applications.

Variable env : Env.

Lemma cv_public_link_of_payload data email environment t :
  prop (prop (build_payload data email environment t) "cv_data") "cv_public_link" =
  js_or (prop data "cvUrl") (JString "").
Proof.
  unfold build_payload. destruct (truthy (prop data "employment")); reflexivity.
Qed.

Lemma js_or_string s : js_or (JString s) (JString "") = JString s.
Proof.
  unfold js_or. cbn. destruct (String.eqb_spec s ""); [subst |]; reflexivity.
Qed.


End StructuredPath.


Section UploadRetry.

Import Applications.

Variable env : Env.

(** The text of the message [uploadFile] throws when the storage rejects
    with [error]. *)
Definition storage_failure_text (error : JsValue) : string :=
  "Failed to upload file: " +:+
  match error with
  | JError name message _ => name +:+ ": " +:+ message
  | _ => "Unknown error"
  end.

(** X15.  The route uploads a second time, without enrichment, only when the
    object storage rejected the first upload with a text that contains
    [Python service]; [pythonResponse] is then left undefined.  A storage
    rejection without these words is passed on after the single attempt.
    When the storage accepts the first upload there is no second one,
    whatever the Python service answered: its failures never reach the
    route as an exception. *)
Theorem upload_retries_only_on_python_text (file : FileInput) (fileName : string)
    (w : World) :
  truthy (process_env env "AWS_S3_BUCKET_NAME") = true ->
  supported file = true ->
  let command := upload_command env file fileName (Date_now env (trace w)) in
  let rejected error :=
    after (Console LevelError [JString "Error uploading to S3:"; error])
          (after (S3Send command) w) in
  (s3_answer env (trace w) command = None ->
   exists fileUrl pythonResponse w1,
     uploadFile env file fileName true w = (Returned (fileUrl, pythonResponse), w1)
     /\ upload env file fileName w =
        (Returned (fileUrl, pythonResponse),
         after (Console LevelLog [JString (if truthy pythonResponse
                                           then "Python response received"
                                           else "No Python response received")])
               (after (Console LevelLog [JString "File uploaded successfully to S3:";
                                         JString fileUrl]) w1)))
  /\ (forall error,
      s3_answer env (trace w) command = Some error ->
      includes (storage_failure_text error) "Python service" = false ->
      upload env file fileName w = (Thrown (upload_failure error), rejected error))
  /\ (forall error,
      s3_answer env (trace w) command = Some error ->
      includes (storage_failure_text error) "Python service" = true ->
      upload env file fileName w =
      match uploadFile env file fileName false
              (after (Console LevelWarn
                        [JString "Python service error, proceeding without analysis"])
                     (rejected error)) with
      | (Returned result, w2) => (Returned (fst result, JUndefined), w2)
      | (Thrown error', w2) => (Thrown error', w2)
      end).
Proof.
  intros Hbucket Hfile command rejected.
  pose proof (uploadFile_run env file fileName true w Hbucket Hfile) as Hrun.
  cbv zeta in Hrun. fold command in Hrun.
  split; [| split].
  - intros Hs3. rewrite Hs3 in Hrun.
    eexists. eexists. eexists. split; [exact Hrun |].
    unfold upload. unfold try_catch, bind at 1. rewrite Hrun. cbn [fst snd].
    unfold_monad. unfold after. cbn [trace store].
    match goal with
    | |- context [if truthy ?v then _ else _] => destruct (truthy v)
    end; reflexivity.
  - intros error Hs3 Htext. rewrite Hs3 in Hrun.
    unfold upload. unfold try_catch, bind at 1. rewrite Hrun.
    unfold message_includes, upload_failure. unfold storage_failure_text in Htext.
    unfold_monad. cbn. rewrite Htext. reflexivity.
  - intros error Hs3 Htext. rewrite Hs3 in Hrun.
    unfold upload. unfold try_catch, bind at 1. rewrite Hrun.
    unfold message_includes, upload_failure. unfold storage_failure_text in Htext.
    unfold bind at 1. unfold bind at 1. unfold get, new_Error. cbn [is_nullish prop].
    unfold ret at 1. cbn. rewrite Htext.
    unfold_monad. unfold rejected, after. cbn [trace store].
    destruct (uploadFile env file fileName false _) as [[result | error'] w2]; reflexivity.
Qed.

End UploadRetry.

Lemma upload_retries_only_on_python_text_witness :
  exists w',
    Applications.upload Outages.storage_down (IsBuffer []) "cv.pdf" Samples.fresh =
    (Thrown (new_Error "Failed to upload file: AccessDenied: Access Denied"), w')
    /\ List.filter (fun ev => match ev with S3Send _ => true | _ => false end) (trace w')
       = [S3Send {| Bucket := "cv-bucket"; Key := "applications/0-cv.pdf"; Body := [];
                    ContentType := "application/octet-stream"; ACL := "public-read" |}].
Proof.
  destruct (upload_retries_only_on_python_text Outages.storage_down (IsBuffer []) "cv.pdf"
              Samples.fresh eq_refl eq_refl) as (_ & Hplain & _).
  eexists. split.
  - apply (Hplain Outages.access_denied); reflexivity.
  - reflexivity.
Defined.

(* ===================================================================== *)
(** ** Properties of the resend endpoint *)
(* ===================================================================== *)

(** The [data] of the [catch] branch of the resend route, for a record whose
    [parsedResume] has properties, read through the document. *)
Definition structured_data (application : Application) : JsValue :=
  let parsedResume := document_parsedResume (app_parsedResume application) in
  JObject [("fullName", js_or (prop parsedResume "fullName")
                              (JString (app_name application)));
           ("email", js_or (prop parsedResume "email")
                           (JString (app_email application)));
           ("github", prop parsedResume "github");
           ("linkedin", prop parsedResume "linkedin");
           ("employment", prop parsedResume "employment");
           ("technicalSkills", prop parsedResume "technicalSkills");
           ("softSkills", prop parsedResume "softSkills");
           ("education", prop parsedResume "education");
           ("cvUrl", JString (cv_url (app_cv application)))].

Definition resend_failed : NextResponse :=
  NextResponse_json (JObject [("error", JString "Error resending webhook")]) (Some 500).

Definition resend_error_line (error : JsValue) : Event :=
  Console LevelError [JString "Error resending webhook:"; error].

Section ResendProperties.

Import ResendWebhook.

Variable env : Env.

(** Reading the raw data and assigning [cvUrl] to it has no effect; when it
    does not throw, the result has properties and its [cvUrl] is the value
    assigned. *)
Lemma raw_data_run rawData url w :
  exists o,
    bind (parse_if_string env rawData)
         (fun data => set_property data "cvUrl" url) w = (o, w)
    /\ match o with
       | Returned data => is_nullish data = false /\ prop data "cvUrl" = url
       | Thrown _ => True
       end.
Proof.
  assert (Hset : forall v, exists o,
             set_property v "cvUrl" url w = (o, w)
             /\ match o with
                | Returned data => is_nullish data = false /\ prop data "cvUrl" = url
                | Thrown _ => True
                end).
  { intros v. destruct v; cbn; unfold ret, throw;
      try (eexists; split; [reflexivity | exact I]);
      (eexists; split; [reflexivity |]); (split; [reflexivity |]);
      cbn; rewrite assoc_assoc_set; reflexivity. }
  unfold bind, parse_if_string.
  destruct rawData as [| | | | s | | |]; unfold ret;
    try match goal with |- context [set_property ?v _ _ w] =>
          destruct (Hset v) as (o & -> & Ho); destruct o; eauto
        end.
  destruct (JSON_parse env s) as [v | e]; [| eexists; split; [reflexivity | exact I]].
  destruct (Hset v) as (o & -> & Ho). destruct o; eauto.
Qed.

(** Whichever branch builds it, the [data] of the resend route has
    properties and its [cvUrl] is the stored link. *)
Lemma notification_data_object (application : Application) w :
  exists data,
    notification_data env application w = (Returned data, w)
    /\ is_nullish data = false
    /\ prop data "cvUrl" = JString (cv_url (app_cv application)).
Proof.
  unfold notification_data. cbn [hydrate doc_parsedResume record_of]. unfold bind at 1. rewrite get_opt_run.
  rewrite document_path by (cbn; intuition discriminate).
  destruct (truthy _);
    [| unfold ret; eexists; split; [reflexivity | split; reflexivity]].
  unfold try_catch.
  destruct (raw_data_run
              (if is_nullish (app_parsedResume application) then JUndefined
               else prop (app_parsedResume application) "rawData")
              (JString (cv_url (app_cv application))) w) as ([data | e] & -> & Hdata).
  - exists data. split; [reflexivity | exact Hdata].
  - unfold bind. rewrite !get_opt_run. unfold ret.
    eexists. split; [reflexivity | split; reflexivity].
Qed.

(** On a [data] with properties the notifier posts one payload. *)
Lemma notifier_posts data email environment w :
  is_nullish data = false ->
  exists result l,
    sendWebhookNotification env data email environment w =
      (Returned result, {| trace := trace w ++ l; store := store w |})
    /\ webhook_bodies l =
       [build_payload data email (default testing environment)
          (Date_now env (trace w ++ [calling_line email]))].
Proof.
  intros Hdata. rewrite sendWebhookNotification_run. cbv zeta. rewrite Hdata.
  unfold after. cbn [trace store].
  destruct (post_answer env _ _ _ _ _); eexists; eexists;
    (split; [rewrite <- !app_assoc; reflexivity | reflexivity]).
Qed.

Lemma POST_unreachable id w error :
  connect_answer env (trace w) = Some error ->
  POST env id w =
  (Returned resend_failed, after (resend_error_line error) (after DbConnect w)).
Proof.
  intros Hconnect. unfold POST, dbConnect. unfold_monad. rewrite Hconnect. reflexivity.
Qed.

Lemma POST_find_failed id w error :
  connect_answer env (trace w) = None ->
  find_answer env (trace w ++ [DbConnect]) id = Some error ->
  POST env id w =
  (Returned resend_failed,
   after (resend_error_line error) (after (DbFindById id) (after DbConnect w))).
Proof.
  intros Hconnect Hfind. unfold POST, dbConnect, Application_findById. unfold_monad.
  rewrite Hconnect. cbn [trace store]. rewrite Hfind. reflexivity.
Qed.

Lemma POST_not_found id w :
  connect_answer env (trace w) = None ->
  find_answer env (trace w ++ [DbConnect]) id = None ->
  store w !! id = None ->
  POST env id w =
  (Returned (NextResponse_json (JObject [("error", JString "Application not found")])
                               (Some 404)),
   after (DbFindById id) (after DbConnect w)).
Proof.
  intros Hconnect Hfind Hstored. unfold POST, dbConnect, Application_findById.
  unfold_monad. rewrite Hconnect. cbn [trace store]. rewrite Hfind, Hstored. reflexivity.
Qed.

(** The route once the record is found, with the events of the notifier. *)
Lemma POST_resends id w (application : Application) :
  connect_answer env (trace w) = None ->
  find_answer env (trace w ++ [DbConnect]) id = None ->
  store w !! id = Some application ->
  exists data webhookResult l,
    let email := JString (app_email application) in
    let h := trace w ++ [DbConnect; DbFindById id] in
    let doc := resent_record application webhookResult (Date_now env (h ++ l)) in
    notification_data env application (after (DbFindById id) (after DbConnect w)) =
      (Returned data, after (DbFindById id) (after DbConnect w))
    /\ prop data "cvUrl" = JString (cv_url (app_cv application))
    /\ webhook_bodies l = [build_payload data email prod (Date_now env (h ++ [calling_line email]))]
    /\ POST env id w =
       match save_answer env (h ++ l) id doc with
       | None =>
           (Returned (resent webhookResult),
            {| trace := trace w ++ ([DbConnect; DbFindById id] ++ l) ++ [DbSave id doc];
               store := <[id := doc]> (store w) |})
       | Some error =>
           (Returned resend_failed,
            {| trace := trace w ++ ([DbConnect; DbFindById id] ++ l) ++
                        [DbSave id doc; resend_error_line error];
               store := store w |})
       end.
Proof.
  intros Hconnect Hfind Hstored.
  destruct (notification_data_object application
              (after (DbFindById id) (after DbConnect w))) as (data & Hdata & Hobj & Hurl).
  destruct (notifier_posts data (JString (app_email application)) (Some prod)
              (after (DbFindById id) (after DbConnect w)) Hobj)
    as (webhookResult & l & Hsend & Hbodies).
  exists data, webhookResult, l. cbv zeta.
  split; [exact Hdata |]. split; [exact Hurl |].
  change (default testing (Some prod)) with prod in Hbodies.
  unfold after in Hbodies. cbn [trace store] in Hbodies.
  rewrite <- !app_assoc in Hbodies. cbn [app] in Hbodies.
  split; [rewrite <- !app_assoc; exact Hbodies |].
  rewrite (POST_found env id w application data webhookResult _ Hconnect Hfind Hstored
             Hdata Hsend).
  cbv zeta. unfold after. cbn [trace store].
  rewrite <- !app_assoc. cbn [app].
  destruct (save_answer env _ _ _);
    repeat (rewrite <- app_assoc; cbn [app]); reflexivity.
Qed.

(** X16.  The resend route never throws and answers 200, 404 or 500.  It
    posts to the webhook at most once, and only for a record that the store
    returned.  After a 200 exactly one payload was posted and the last effect
    is the save of the record under its id, with [webhookResponse] the
    notifier's result, [webhookSent] its [success] flag and the identifying
    fields as they were; no other record is touched.  After any other answer
    the store is as before, and 404 is answered only for an id the store does
    not hold, after the connection and the lookup alone. *)
Theorem resend_answers (id : string) (w : World) :
  exists response l w',
    POST env id w = (Returned response, w')
    /\ trace w' = trace w ++ l
    /\ (status response = 200 \/ status response = 404 \/ status response = 500)
    /\ (length (webhook_bodies l) <= 1)%nat
    /\ (webhook_bodies l <> [] ->
        connect_answer env (trace w) = None /\ is_Some (store w !! id))
    /\ (status response = 200 ->
        exists application webhookResult doc,
          store w !! id = Some application
          /\ body response = JObject [("success", JBool true);
                                      ("message", JString "Webhook resent successfully");
                                      ("webhookResult", webhookResult)]
          /\ length (webhook_bodies l) = 1%nat
          /\ last l = Some (DbSave id doc)
          /\ store w' = <[id := doc]> (store w)
          /\ (forall other, other <> id -> store w' !! other = store w !! other)
          /\ app_webhookResponse doc = webhookResult
          /\ app_webhookSent doc = prop webhookResult "success"
          /\ app_name doc = app_name application
          /\ app_email doc = app_email application
          /\ app_phone doc = app_phone application
          /\ app_cv doc = app_cv application
          /\ app_createdAt doc = app_createdAt application)
    /\ (status response <> 200 -> store w' = store w)
    /\ (status response = 404 ->
        store w !! id = None /\ l = [DbConnect; DbFindById id]).
Proof.
  destruct (connect_answer env (trace w)) as [error |] eqn:Hconnect.
  { rewrite (POST_unreachable id w error Hconnect).
    exists resend_failed, [DbConnect; resend_error_line error]. eexists.
    split; [reflexivity |].
    split; [unfold after; cbn [trace]; rewrite <- app_assoc; reflexivity |].
    split; [right; right; reflexivity |].
    split; [cbn; lia |].
    split; [intros H; exfalso; apply H; reflexivity |].
    split; [discriminate |].
    split; [reflexivity | discriminate]. }
  destruct (find_answer env (trace w ++ [DbConnect]) id) as [error |] eqn:Hfind.
  { rewrite (POST_find_failed id w error Hconnect Hfind).
    exists resend_failed, [DbConnect; DbFindById id; resend_error_line error]. eexists.
    split; [reflexivity |].
    split; [unfold after; cbn [trace]; rewrite <- !app_assoc; reflexivity |].
    split; [right; right; reflexivity |].
    split; [cbn; lia |].
    split; [intros H; exfalso; apply H; reflexivity |].
    split; [discriminate |].
    split; [reflexivity | discriminate]. }
  destruct (store w !! id) as [application |] eqn:Hstored.
  2:{ rewrite (POST_not_found id w Hconnect Hfind Hstored).
      eexists. exists [DbConnect; DbFindById id]. eexists.
      split; [reflexivity |].
      split; [unfold after; cbn [trace]; rewrite <- !app_assoc; reflexivity |].
      split; [right; left; reflexivity |].
      split; [cbn; lia |].
      split; [intros H; exfalso; apply H; reflexivity |].
      split; [discriminate |].
      split; [reflexivity |]. intros _. split; reflexivity. }
  destruct (POST_resends id w application Hconnect Hfind Hstored)
    as (data & webhookResult & l & _ & _ & Hbodies & Hrun).
  cbv zeta in Hbodies, Hrun. rewrite Hrun.
  assert (Hposted : forall tail, webhook_bodies tail = [] ->
            length (webhook_bodies (([DbConnect; DbFindById id] ++ l) ++ tail)) = 1%nat).
  { intros tail Htail. rewrite !webhook_bodies_app, Hbodies, Htail. reflexivity. }
  destruct (save_answer env _ _ _) as [error |].
  - exists resend_failed. eexists. eexists.
    split; [reflexivity |]. split; [reflexivity |].
    split; [right; right; reflexivity |].
    split; [rewrite Hposted; [lia | reflexivity] |].
    split; [intros _; split; [reflexivity | eauto] |].
    split; [discriminate |].
    split; [reflexivity | discriminate].
  - eexists. eexists. eexists.
    split; [reflexivity |]. split; [reflexivity |].
    split; [left; reflexivity |].
    split; [rewrite Hposted; [lia | reflexivity] |].
    split; [intros _; split; [reflexivity | eauto] |].
    split.
    { intros _. eexists. eexists. eexists.
      split; [reflexivity |]. split; [reflexivity |].
      split; [apply Hposted; reflexivity |].
      split; [apply last_snoc |].
      split; [reflexivity |].
      split; [intros other Hother; cbn [store]; apply lookup_insert_ne; congruence |].
      repeat split. }
    split; [intros H; exfalso; apply H; reflexivity | discriminate].
Qed.

(** X17.  Whichever of its three branches builds the notification input,
    the one payload a resend posts for a stored record carries the stored CV
    link as [cv_public_link], the stored email as [metadata.email] and the
    status [prod]. *)
Theorem resend_posts_stored_link (id : string) (w : World) (application : Application) :
  connect_answer env (trace w) = None ->
  find_answer env (trace w ++ [DbConnect]) id = None ->
  store w !! id = Some application ->
  exists payload,
    webhook_bodies (added w (snd (POST env id w))) = [payload]
    /\ prop (prop payload "cv_data") "cv_public_link" =
       JString (cv_url (app_cv application))
    /\ prop (prop payload "metadata") "email" = JString (app_email application)
    /\ prop (prop payload "metadata") "status" = JString "prod".
Proof.
  intros Hconnect Hfind Hstored.
  destruct (POST_resends id w application Hconnect Hfind Hstored)
    as (data & webhookResult & l & _ & Hurl & Hbodies & Hrun).
  cbv zeta in Hbodies, Hrun. rewrite Hrun.
  eexists. split; [| split; [| split]].
  - destruct (save_answer env _ _ _); cbn [snd];
      (erewrite added_app by (cbn [trace]; reflexivity));
      rewrite !webhook_bodies_app, Hbodies; reflexivity.
  - rewrite cv_public_link_of_payload, Hurl. apply js_or_string.
  - reflexivity.
  - reflexivity.
Qed.

(** X18.  When the stored raw data is a non-empty text that [JSON.parse]
    rejects, or that parses to null, the resend falls back to the projected
    fields of the record, read through the document: the payload posted is
    the one of [{fullName, email, github, linkedin, employment,
    technicalSkills, softSkills, education, cvUrl}], with [fullName] and
    [email] taken from [parsedResume] when they are truthy there and from
    the record itself otherwise, and with each of the four array fields the
    empty array when the stored [parsedResume] has none; so a record stored
    without [employment] is resent with an empty [work_experience]. *)
Theorem resend_unparsable_raw_data (id : string) (w : World) (application : Application)
    (rawData : string) :
  connect_answer env (trace w) = None ->
  find_answer env (trace w ++ [DbConnect]) id = None ->
  store w !! id = Some application ->
  prop (app_parsedResume application) "rawData" = JString rawData ->
  rawData <> "" ->
  (JSON_parse env rawData = Returned JNull \/ exists e, JSON_parse env rawData = Thrown e) ->
  let email := JString (app_email application) in
  let t := Date_now env (trace w ++ [DbConnect; DbFindById id; calling_line email]) in
  let payload := build_payload (structured_data application) email prod t in
  webhook_bodies (added w (snd (POST env id w))) = [payload]
  /\ (forall k, In k array_paths ->
       prop (structured_data application) k =
       match app_parsedResume application with
       | JObject _ => match prop (app_parsedResume application) k with
                      | JUndefined => JArray []
                      | v => v
                      end
       | _ => prop (app_parsedResume application) k
       end)
  /\ (forall ps, app_parsedResume application = JObject ps ->
       prop (JObject ps) "employment" = JUndefined ->
       prop (prop payload "cv_data") "work_experience" = JArray []).
Proof.
  intros Hconnect Hfind Hstored Hraw Htext Hparse email t payload.
  assert (Hobj : is_nullish (app_parsedResume application) = false).
  { destruct (app_parsedResume application); try reflexivity; discriminate Hraw. }
  assert (Harrays : forall k, In k array_paths ->
            prop (structured_data application) k =
            prop (document_parsedResume (app_parsedResume application)) k).
  { intros k [<- | [<- | [<- | [<- | []]]]]; reflexivity. }
  split; [| split].
  2:{ intros k Hk. rewrite (Harrays k Hk). apply document_array; assumption. }
  2:{ intros ps Hps Hnone. unfold payload, build_payload.
      rewrite (Harrays "employment") by (cbn; auto).
      rewrite (document_array _ _ Hobj) by (cbn; auto).
      rewrite Hps, Hnone. reflexivity. }
  pose proof (document_not_nullish _ Hobj) as Hdoc.
  destruct (POST_resends id w application Hconnect Hfind Hstored)
    as (data & webhookResult & l & Hdata & _ & Hbodies & Hrun).
  cbv zeta in Hdata, Hbodies, Hrun.
  assert (Hfallback : data = structured_data application).
  { revert Hdata. unfold notification_data. cbn [hydrate doc_parsedResume record_of]. unfold bind at 1.
    rewrite get_opt_run. rewrite document_path by (cbn; intuition discriminate).
    rewrite Hobj, Hraw.
    assert (Htruthy : truthy (JString rawData) = true).
    { cbn. destruct (String.eqb_spec rawData ""); [contradiction | reflexivity]. }
    rewrite Htruthy. unfold try_catch, bind at 1. unfold parse_if_string.
    destruct Hparse as [-> | [e ->]];
      cbn [set_property]; unfold throw, bind; rewrite !get_opt_run, Hdoc;
      unfold ret; intros [= <-]; reflexivity. }
  subst data. rewrite Hrun.
  destruct (save_answer env _ _ _); cbn [snd];
    (erewrite added_app by (cbn [trace]; reflexivity));
    rewrite !webhook_bodies_app, Hbodies; cbn;
    unfold payload, t, email; rewrite <- !app_assoc; reflexivity.
Qed.

(** X19.  When the store rejects the save, the resend answers 500 and the
    stored record stays as it was, although the webhook request has been
    sent: the payload went out once and the outcome of the notifier is
    recorded nowhere. *)
Theorem resend_save_rejected (id : string) (w : World) (application : Application)
    (error : JsValue) :
  connect_answer env (trace w) = None ->
  find_answer env (trace w ++ [DbConnect]) id = None ->
  store w !! id = Some application ->
  (forall h doc, save_answer env h id doc = Some error) ->
  exists w',
    POST env id w = (Returned resend_failed, w')
    /\ store w' = store w
    /\ length (webhook_bodies (added w w')) = 1%nat
    /\ last (trace w') = Some (resend_error_line error).
Proof.
  intros Hconnect Hfind Hstored Hsave.
  destruct (POST_resends id w application Hconnect Hfind Hstored)
    as (data & webhookResult & l & _ & _ & Hbodies & Hrun).
  cbv zeta in Hbodies, Hrun. rewrite Hsave in Hrun. rewrite Hrun.
  eexists. split; [reflexivity |]. split; [reflexivity |]. split.
  - erewrite added_app by (cbn [trace]; reflexivity).
    rewrite !webhook_bodies_app, Hbodies. reflexivity.
  - cbn [trace]. rewrite app_assoc.
    change [DbSave id ?d; resend_error_line error]
      with ([DbSave id d] ++ [resend_error_line error]).
    rewrite app_assoc. apply last_snoc.
Qed.

End ResendProperties.

Module Records.

(** A record whose raw data is a text that is not JSON. *)
Definition enriched_application : Application :=
  {| app_name := "Ada Lovelace";
     app_email := "ada@example.com";
     app_phone := "1234567890";
     app_cv := app_cv Samples.plain_application;
     app_parsedResume := JObject [("fullName", JString "Ada King");
                                  ("rawData", JString "Ada King, analyst")];
     app_status := pending;
     app_webhookSent := JBool false;
     app_webhookResponse := JNull;
     app_notes := None;
     app_createdAt := 1;
     app_updatedAt := 1 |}.

Definition archive : World :=
  {| trace := []; store := {[ "a2" := enriched_application ]} |}.

End Records.

Lemma resend_posts_stored_link_witness :
  exists payload,
    webhook_bodies (added Samples.stored
                      (snd (ResendWebhook.POST (Samples.healthy JNull) "a1"
                              Samples.stored))) = [payload]
    /\ prop (prop payload "cv_data") "cv_public_link" =
       JString "https://cv-bucket.s3.eu-west-1.amazonaws.com/applications/1-cv.pdf"
    /\ prop (prop payload "metadata") "email" = JString "ada@example.com"
    /\ prop (prop payload "metadata") "status" = JString "prod".
Proof.
  exact (resend_posts_stored_link (Samples.healthy JNull) "a1" Samples.stored
           Samples.plain_application eq_refl eq_refl eq_refl).
Defined.

Lemma resend_unparsable_raw_data_witness :
  exists payload,
    webhook_bodies (added Records.archive
                      (snd (ResendWebhook.POST (Samples.healthy JNull) "a2"
                              Records.archive))) = [payload]
    /\ prop (prop (prop payload "cv_data") "personal_info") "name" = JString "Ada King"
    /\ prop (prop payload "cv_data") "work_experience" = JArray []
    /\ prop (prop payload "cv_data") "education" = JArray [].
Proof.
  destruct (resend_unparsable_raw_data (Samples.healthy JNull) "a2" Records.archive
              Records.enriched_application "Ada King, analyst")
    as (Hposted & _ & Hwork).
  - reflexivity.
  - reflexivity.
  - reflexivity.
  - reflexivity.
  - discriminate.
  - right. eexists. reflexivity.
  - eexists. split; [exact Hposted |].
    split; [reflexivity |].
    split; [exact (Hwork _ eq_refl eq_refl) | reflexivity].
Defined.

Lemma resend_save_rejected_witness :
  exists w',
    ResendWebhook.POST Outages.save_refused "a1" Samples.stored =
      (Returned resend_failed, w')
    /\ store w' = store Samples.stored
    /\ length (webhook_bodies (added Samples.stored w')) = 1%nat
    /\ last (trace w') = Some (resend_error_line Outages.invalid).
Proof.
  apply (resend_save_rejected Outages.save_refused "a1" Samples.stored
           Samples.plain_application Outages.invalid).
  - reflexivity.
  - reflexivity.
  - reflexivity.
  - intros h doc. reflexivity.
Defined.

(* ===================================================================== *)
(** ** Loading [lib/s3] *)
(* ===================================================================== *)

Definition requiredEnvVars : list string :=
  ["AWS_ACCESS_KEY_ID"; "AWS_SECRET_ACCESS_KEY"; "AWS_REGION"; "AWS_S3_BUCKET_NAME"].

(** [requiredEnvVars.filter((envVar) => !process.env[envVar])] *)
Definition missingEnvVars (env : Env) : list string :=
  List.filter (fun envVar => negb (truthy (process_env env envVar))) requiredEnvVars.

(** The statements the module runs when it is first imported: it refuses
    to load when a required variable is unset or empty. *)
Definition s3_module (env : Env) : M unit :=
  let missing := missingEnvVars env in
  if (0 <? length missing)%nat then
    let text := "Missing required environment variables: " +:+ join ", " missing in
    console_error [JString text];;
    throw (new_Error text)
  else ret tt.

Section LoadedModule.

Variable env : Env.

Lemma loaded_bucket w w' :
  s3_module env w = (Returned tt, w') ->
  truthy (process_env env "AWS_S3_BUCKET_NAME") = true.
Proof.
  unfold s3_module, missingEnvVars, requiredEnvVars. cbn [List.filter].
  destruct (truthy (process_env env "AWS_S3_BUCKET_NAME")); [reflexivity |].
  destruct (truthy (process_env env "AWS_ACCESS_KEY_ID")),
           (truthy (process_env env "AWS_SECRET_ACCESS_KEY")),
           (truthy (process_env env "AWS_REGION"));
    cbn; unfold_monad; discriminate.
Qed.

(** X10.  Once the module has loaded, with the environment variables it was
    loaded with, the guard on the bucket name inside [uploadFile] cannot
    fire: every failure of [uploadFile] is an [Error] whose message is
    [Failed to upload file: ] followed by the cause, and the cause has been
    written to the error console as the last effect.  A failed upload
    leaves the store alone and has not contacted the Python service. *)
Theorem upload_failure_is_logged (file : FileInput) (fileName : string)
    (sendToPython : bool) (w0 w0' w w' : World) (error : JsValue) :
  s3_module env w0 = (Returned tt, w0') ->
  uploadFile env file fileName sendToPython w = (Thrown error, w') ->
  exists cause,
    error = upload_failure cause
    /\ last (trace w') = Some (Console LevelError [JString "Error uploading to S3:"; cause])
    /\ store w' = store w
    /\ Forall (fun ev => match ev with
                         | HttpGet _ _ | HttpPost _ _ _ _ => False
                         | _ => True
                         end) (added w w').
Proof.
  intros Hload Hrun. pose proof (loaded_bucket _ _ Hload) as Hbucket.
  destruct (supported file) eqn:Hfile.
  - rewrite (uploadFile_run env file fileName sendToPython w Hbucket Hfile) in Hrun.
    cbv zeta in Hrun.
    destruct (s3_answer env (trace w) _) as [cause |].
    + injection Hrun as <- <-. exists cause.
      split; [reflexivity |]. split; [apply last_snoc |]. split; [reflexivity |].
      unfold after, added. cbn [trace]. rewrite <- app_assoc, drop_app_length.
      repeat constructor.
    + destruct sendToPython; discriminate Hrun.
  - destruct file; try discriminate Hfile.
    assert (Hrefused :
              uploadFile env Unsupported fileName sendToPython w =
              (Thrown (upload_failure (new_Error "Unsupported file type")),
               after (Console LevelError [JString "Error uploading to S3:";
                                          new_Error "Unsupported file type"]) w))
      by (unfold uploadFile; rewrite Hbucket; reflexivity).
    rewrite Hrefused in Hrun.
    injection Hrun as <- <-. exists (new_Error "Unsupported file type").
    split; [reflexivity |]. split; [apply last_snoc |]. split; [reflexivity |].
    unfold after, added. cbn [trace]. rewrite drop_app_length. repeat constructor.
Qed.

End LoadedModule.

Module Deployment.

Definition variables (k : string) : JsValue :=
  if String.eqb k "AWS_ACCESS_KEY_ID" then JString "AKIAEXAMPLE"
  else if String.eqb k "AWS_SECRET_ACCESS_KEY" then JString "secret"
  else Samples.variables k.

(** Fully configured, with an object storage that rejects every command. *)
Definition storage_down : Env :=
  {| JSON_parse := Samples.parse;
     process_env := variables;
     Date_now := fun h => Z.of_nat (length h);
     get_answer := fun _ _ _ => Fulfilled Samples.accepted;
     post_answer := fun _ _ _ _ _ => Fulfilled Samples.accepted;
     s3_answer := fun _ _ => Some Outages.access_denied;
     connect_answer := fun _ => None;
     find_answer := fun _ _ => None;
     save_answer := fun _ _ _ => None;
     new_ObjectId := fun h => "id" +:+ string_of_Z (Z.of_nat (length h)) |}.

End Deployment.

Lemma upload_failure_is_logged_witness :
  exists cause,
    new_Error "Failed to upload file: AccessDenied: Access Denied" = upload_failure cause
    /\ last [S3Send (upload_command Deployment.storage_down (IsBuffer []) "cv.pdf" 0);
             Console LevelError [JString "Error uploading to S3:"; Outages.access_denied]]
       = Some (Console LevelError [JString "Error uploading to S3:"; cause]).
Proof.
  destruct (upload_failure_is_logged Deployment.storage_down (IsBuffer []) "cv.pdf" true
              Samples.fresh Samples.fresh Samples.fresh _ _ eq_refl eq_refl)
    as (cause & Herror & Hlast & _).
  exists cause. split; [exact Herror | exact Hlast].
Defined.

(* ===================================================================== *)
(** ** The form component ([components/ApplicationForm]) *)
(* ===================================================================== *)

Module ApplicationForm.

(** The [status] of a [SubmitStatus]: the empty string, [success] or
    [error]. *)
Inductive Status := status_idle | status_success | status_error.

Record SubmitStatus := { submit_status : Status; submit_message : JsValue }.

(** The inputs the handler receives: three texts and the selected files. *)
Record FormInputs := {
  input_name : string;
  input_email : string;
  input_phone : string;
  input_cv : list Applications.File
}.

(** What the handler reads of the [Response] that [fetch] resolves to;
    [json] is the outcome of [response.json()]. *)
Record Response := { ok : bool; response_status : Z; json : Outcome JsValue }.

(** The state of the component, with the number of calls of [reset] and the
    lines written to the error console. *)
Record Component := {
  uploading : bool;
  submitStatus : SubmitStatus;
  resets : nat;
  console : list (list JsValue)
}.

(** The [FormData] the handler builds: [cv] is appended only when a file is
    selected. *)
Definition formData_of (data : FormInputs) : Applications.FormData :=
  {| Applications.form_name := Some (input_name data);
     Applications.form_email := Some (input_email data);
     Applications.form_phone := Some (input_phone data);
     Applications.form_cv := head (input_cv data) |}.

Definition and_then {A B} (o : Outcome A) (k : A -> Outcome B) : Outcome B :=
  match o with
  | Returned a => k a
  | Thrown e => Thrown e
  end.

(** [v.k] *)
Definition read (v : JsValue) (k : string) : Outcome JsValue :=
  if is_nullish v then
    Thrown (TypeError ("Cannot read properties of " +:+ to_string v +:+
                       " (reading '" +:+ k +:+ "')"))
  else Returned (prop v k).

(** [errorMessage.includes(t)] *)
Definition text_includes (errorMessage : JsValue) (t : string) : Outcome bool :=
  match errorMessage with
  | JString m => Returned (includes m t)
  | JArray items =>
      Returned (existsb (fun x => match x with JString s => String.eqb s t | _ => false end)
                        items)
  | JUndefined | JNull =>
      Thrown (TypeError ("Cannot read properties of " +:+ to_string errorMessage +:+
                         " (reading 'includes')"))
  | _ => Thrown (TypeError "errorMessage.includes is not a function")
  end.

Definition not_configured : string :=
  "The server is not properly configured. Please contact the administrator.".

Section Handler.

(** [fetch(url, { method: POST, body })]: resolves to a response or rejects. *)
Variable fetch : string -> Applications.FormData -> Outcome Response.

(** The [try] block of [onSubmit], up to the status it sets. *)
Definition submit (data : FormInputs) : Outcome SubmitStatus :=
  and_then (fetch "/api/applications" (formData_of data)) (fun response =>
  and_then (json response) (fun result =>
  if negb (ok response) then
    and_then (read result "error") (fun error =>
    let errorMessage :=
      js_or error (JString ("Server responded with status " +:+
                            string_of_Z (response_status response))) in
    and_then (if response_status response =? 500
              then text_includes errorMessage "configuration"
              else Returned false) (fun configuration =>
    let errorMessage :=
      if configuration then JString not_configured else errorMessage in
    Thrown (new_Error (to_string errorMessage))))
  else
    and_then (read result "message") (fun message =>
    Returned {| submit_status := status_success;
                submit_message :=
                  js_or message
                    (JString "Your application has been submitted successfully!") |}))).

Definition onSubmit (data : FormInputs) (c : Component) : Component :=
  let c := {| uploading := true;
              submitStatus := {| submit_status := status_idle;
                                 submit_message := JString "" |};
              resets := resets c;
              console := console c |} in
  let c :=
    match submit data with
    | Returned submitted =>
        {| uploading := uploading c;
           submitStatus := submitted;
           resets := S (resets c);
           console := console c |}
    | Thrown error =>
        {| uploading := uploading c;
           submitStatus :=
             {| submit_status := status_error;
                submit_message :=
                  match error with
                  | JError _ message _ => JString message
                  | _ => JString "Failed to submit application. Please try again."
                  end |};
           resets := resets c;
           console := console c ++ [[JString "Submission error:"; error]] |}
    end in
  {| uploading := false;
     submitStatus := submitStatus c;
     resets := resets c;
     console := console c |}.

End Handler.

End ApplicationForm.

(** Every response a route computation returns satisfies [P]. *)
Definition produces (P : NextResponse -> Prop) (m : M NextResponse) : Prop :=
  forall w o w',
    m w = (o, w') -> match o with Returned response => P response | Thrown _ => True end.

Lemma produces_ret (P : NextResponse -> Prop) response : P response -> produces P (ret response).
Proof. intros HP w o w' H. injection H as <- _. exact HP. Qed.

Lemma produces_bind {A} P (m : M A) (k : A -> M NextResponse) :
  (forall a, produces P (k a)) -> produces P (bind m k).
Proof.
  intros Hk w o w' H. unfold bind in H.
  destruct (m w) as [[a | e] w1].
  - exact (Hk a _ _ _ H).
  - injection H as <- _. exact I.
Qed.

Lemma produces_try_catch P (m : M NextResponse) (h : JsValue -> M NextResponse) :
  produces P m -> (forall e, produces P (h e)) -> produces P (try_catch m h).
Proof.
  intros Hm Hh w o w' H. unfold try_catch in H.
  destruct (m w) as [[response | e] w1] eqn:Hrun.
  - injection H as <- _. exact (Hm _ _ _ Hrun).
  - exact (Hh e _ _ _ H).
Qed.

Lemma produces_if P (b : bool) (m1 m2 : M NextResponse) :
  produces P m1 -> produces P m2 -> produces P (if b then m1 else m2).
Proof. destruct b; auto. Qed.

(** The wording of the answers of the submission endpoint. *)
Definition worded (response : NextResponse) : Prop :=
  (status response = 201
   /\ prop (body response) "message" = JString "Application submitted successfully")
  \/ (status response = 400
      /\ prop (body response) "error" = JString "Missing required fields")
  \/ (status response = 500
      /\ exists detail,
           prop (body response) "error" = JString ("Error processing " +:+ detail)).

Section FormProperties.

Import Applications.

Variable env : Env.

Lemma POST_worded request : produces worded (POST env request).
Proof.
  unfold POST. apply produces_try_catch.
  - apply produces_bind. intros form.
    destruct (form_cv form) as [cvFile |];
      [| apply produces_ret; right; left; split; reflexivity].
    apply produces_if; [apply produces_ret; right; left; split; reflexivity |].
    apply produces_bind. intros _.
    apply produces_try_catch.
    + do 7 (apply produces_bind; intros ?).
      apply produces_ret. left. split; reflexivity.
    + intros uploadError. apply produces_bind. intros _.
      apply produces_ret. right. right. split; [reflexivity |].
      eexists. cbn. reflexivity.
  - intros error. apply produces_bind. intros _.
    apply produces_ret. right. right. split; [reflexivity |].
    exists "your application". reflexivity.
Qed.

Lemma given_text (s : string) : s <> "" -> given (Some s) = true.
Proof. intros Hs. cbn. destruct (String.eqb_spec s ""); [contradiction | reflexivity]. Qed.

(** X20.  What the applicant is shown follows the answer of the submission
    endpoint.  When the form posts its inputs, the route answers and the
    response reaches the handler as sent (its status, [ok] for a status
    between 200 and 299, its body as JSON), then the component always ends
    with [uploading] false, and either the route answered 201: the status
    shown is [success] with the text [Application submitted successfully],
    the form is reset once and the store holds one new record; or the route
    answered 400 or 500: the status shown is [error], the form is not reset,
    the store is as it was, and the text shown is the [error] text of the
    answer, replaced by the notice for the administrator when the answer is
    a 500 whose text contains [configuration]. *)
Theorem form_shows_route_answer
    (fetch : string -> FormData -> Outcome ApplicationForm.Response)
    (data : ApplicationForm.FormInputs) (response : ApplicationForm.Response)
    (answer : NextResponse) (w w' : World) (c : ApplicationForm.Component) :
  fetch "/api/applications" (ApplicationForm.formData_of data) = Returned response ->
  POST env {| formData := Returned (ApplicationForm.formData_of data) |} w
    = (Returned answer, w') ->
  ApplicationForm.ok response = (200 <=? status answer) && (status answer <=? 299) ->
  ApplicationForm.response_status response = status answer ->
  ApplicationForm.json response = Returned (body answer) ->
  let c' := ApplicationForm.onSubmit fetch data c in
  ApplicationForm.uploading c' = false
  /\ ((status answer = 201
       /\ ApplicationForm.submitStatus c' =
          {| ApplicationForm.submit_status := ApplicationForm.status_success;
             ApplicationForm.submit_message :=
               JString "Application submitted successfully" |}
       /\ ApplicationForm.resets c' = S (ApplicationForm.resets c)
       /\ ApplicationForm.console c' = ApplicationForm.console c
       /\ exists id doc, store w' = <[id := doc]> (store w))
      \/ (status answer <> 201
          /\ ApplicationForm.resets c' = ApplicationForm.resets c
          /\ store w' = store w
          /\ exists text,
               prop (body answer) "error" = JString text
               /\ ApplicationForm.submitStatus c' =
                  {| ApplicationForm.submit_status := ApplicationForm.status_error;
                     ApplicationForm.submit_message :=
                       JString (if (status answer =? 500) && includes text "configuration"
                                then ApplicationForm.not_configured
                                else text) |})).
Proof.
  intros Hfetch Hrun Hok Hstatus Hjson c'.
  split; [reflexivity |].
  pose proof (POST_worded _ _ _ _ Hrun) as Hworded. cbv beta iota in Hworded.
  destruct (POST_answers env _ _ _ _ Hrun) as [_ Hanswers]. cbv beta iota in Hanswers.
  assert (Hobject : forall k v, prop (body answer) k = JString v ->
                                is_nullish (body answer) = false).
  { intros k v Hk. destruct (body answer); try reflexivity; discriminate Hk. }
  unfold c', ApplicationForm.onSubmit, ApplicationForm.submit.
  rewrite Hfetch. cbn [ApplicationForm.and_then]. rewrite Hjson, Hok, Hstatus.
  cbn [ApplicationForm.and_then]. unfold ApplicationForm.read.
  destruct Hworded as [[H201 Hmessage] | [[H400 Herror] | [H500 [detail Herror]]]].
  - left. rewrite H201, (Hobject _ _ Hmessage), Hmessage. cbn.
    split; [reflexivity |]. split; [reflexivity |]. split; [reflexivity |].
    split; [reflexivity |].
    destruct Hanswers as [[_ (id & doc & Hstore & _)] | [[H | H] _]]; [eauto | lia | lia].
  - right. rewrite H400, (Hobject _ _ Herror), Herror. cbn.
    split; [lia |]. split; [reflexivity |].
    split; [destruct Hanswers as [[H _] | [_ Hstore]]; [lia | exact Hstore] |].
    eexists. split; reflexivity.
  - right. rewrite H500, (Hobject _ _ Herror), Herror.
    change (negb ((200 <=? 500) && (500 <=? 299))) with true.
    change (500 =? 500) with true.
    cbv beta iota zeta delta [ApplicationForm.and_then].
    match goal with
    | |- context [js_or (JString ?t) ?x] => change (js_or (JString t) x) with (JString t)
    end.
    remember ("Error processing " +:+ detail) as text eqn:Htext.
    cbn [ApplicationForm.text_includes andb].
    split; [lia |].
    destruct (includes text "configuration") eqn:Hconfiguration;
      (split; [reflexivity |]);
      (split; [destruct Hanswers as [[H _] | [_ Hstore]]; [lia | exact Hstore] |]);
      (exists text; split; [reflexivity |]);
      cbn [andb]; rewrite Hconfiguration; reflexivity.
Qed.

(** X21.  Inputs that pass the checks of the form (a name, an email and a
    phone number that are not empty, and one selected file) are never
    refused by the route as incomplete: it answers 201 or 500, never 400. *)
Theorem checked_inputs_not_refused
    (data : ApplicationForm.FormInputs) (cvFile : File) (w w' : World)
    (answer : NextResponse) :
  ApplicationForm.input_name data <> "" ->
  ApplicationForm.input_email data <> "" ->
  ApplicationForm.input_phone data <> "" ->
  ApplicationForm.input_cv data = [cvFile] ->
  POST env {| formData := Returned (ApplicationForm.formData_of data) |} w
    = (Returned answer, w') ->
  status answer = 201 \/ status answer = 500.
Proof.
  intros Hname Hemail Hphone Hcv. unfold POST. unfold bind at 1.
  cbn [formData ApplicationForm.formData_of form_name form_email form_phone form_cv].
  rewrite Hcv. cbn [head].
  rewrite (given_text _ Hname), (given_text _ Hemail), (given_text _ Hphone).
  cbn [negb orb]. intros Hrun.
  match type of Hrun with
  | try_catch ?m ?h w = _ =>
      assert (Hm : produces (fun r => status r = 201 \/ status r = 500) (try_catch m h))
  end.
  { apply produces_try_catch.
    - apply produces_bind. intros _. apply produces_try_catch.
      + do 7 (apply produces_bind; intros ?). apply produces_ret. left. reflexivity.
      + intros uploadError. apply produces_bind. intros _.
        apply produces_ret. right. reflexivity.
    - intros error. apply produces_bind. intros _. apply produces_ret. right. reflexivity. }
  exact (Hm _ _ _ Hrun).
Qed.

End FormProperties.

Module Browser.

Definition ada : ApplicationForm.FormInputs :=
  {| ApplicationForm.input_name := "Ada Lovelace";
     ApplicationForm.input_email := "ada@example.com";
     ApplicationForm.input_phone := "1234567890";
     ApplicationForm.input_cv := [Samples.cv_file] |}.

(** A transport that hands the form to the route, run on an empty store, and
    the answer of the route back to the handler. *)
Definition fetch (env : Env) (url : string) (form : Applications.FormData)
  : Outcome ApplicationForm.Response :=
  match fst (Applications.POST env {| Applications.formData := Returned form |}
                               Samples.fresh) with
  | Returned answer =>
      Returned {| ApplicationForm.ok := (200 <=? status answer) && (status answer <=? 299);
                  ApplicationForm.response_status := status answer;
                  ApplicationForm.json := Returned (body answer) |}
  | Thrown e => Thrown e
  end.

Definition opened : ApplicationForm.Component :=
  {| ApplicationForm.uploading := false;
     ApplicationForm.submitStatus :=
       {| ApplicationForm.submit_status := ApplicationForm.status_idle;
          ApplicationForm.submit_message := JString "" |};
     ApplicationForm.resets := 0;
     ApplicationForm.console := [] |}.

End Browser.

Lemma form_shows_route_answer_witness :
  ApplicationForm.submitStatus
    (ApplicationForm.onSubmit (Browser.fetch (Samples.healthy JNull)) Browser.ada
                              Browser.opened) =
  {| ApplicationForm.submit_status := ApplicationForm.status_success;
     ApplicationForm.submit_message := JString "Application submitted successfully" |}.
Proof.
  pose (request := {| Applications.formData :=
                        Returned (ApplicationForm.formData_of Browser.ada) |}).
  pose (answer := {| status := 201;
                     body := JObject [("success", JBool true);
                                      ("message", JString "Application submitted successfully");
                                      ("applicationId", JString "id9");
                                      ("webhookSent", JBool false)] |}).
  pose (response := {| ApplicationForm.ok := true;
                       ApplicationForm.response_status := 201;
                       ApplicationForm.json := Returned (body answer) |}).
  destruct (form_shows_route_answer (Samples.healthy JNull)
              (Browser.fetch (Samples.healthy JNull)) Browser.ada response answer
              Samples.fresh
              (snd (Applications.POST (Samples.healthy JNull) request Samples.fresh))
              Browser.opened)
    as [_ [(_ & Hshown & _) | (Hrefused & _)]].
  - vm_compute. reflexivity.
  - vm_compute. reflexivity.
  - reflexivity.
  - reflexivity.
  - reflexivity.
  - exact Hshown.
  - exfalso. apply Hrefused. reflexivity.
Defined.

Lemma checked_inputs_not_refused_witness :
  exists answer w',
    Applications.POST Outages.store_down
      {| Applications.formData := Returned (ApplicationForm.formData_of Browser.ada) |}
      Samples.fresh = (Returned answer, w')
    /\ (status answer = 201 \/ status answer = 500).
Proof.
  eexists. eexists. split; [vm_compute; reflexivity |].
  eapply (checked_inputs_not_refused Outages.store_down Browser.ada Samples.cv_file
            Samples.fresh).
  - discriminate.
  - discriminate.
  - discriminate.
  - reflexivity.
  - vm_compute. reflexivity.
Defined.
